(** * uc-chart-backend: the chart upload and edit handlers

    A shallow embedding of [api/charts/upload.py] and
    [api/charts/{id}/edit.py], with the constants of
    [helpers/constants.py] and the models of [helpers/models.py] they use;
    then of the leaderboards handlers of [api/charts/{id}/leaderboards.py]
    and of the loop of [scripts/database_setup.py].

    Each handler is an [async def main] that validates the request, hashes
    and converts the submitted files, talks to the object store (S3) and to
    the relational database, and either returns or raises.  A handler is
    embedded as a computation in the monad [M]: it yields the exception
    raised or the value returned, together with the trace of the calls made
    to the session layer, the object store and the database, in the order
    in which they are made.

    Code the handlers import but which lives outside these files (the
    SHA-1 helper, the file checker, the image resizer, the
    [sonolus_converters] package, [gzip], pydantic's JSON validation) is
    taken as a parameter, gathered in the record [Externals]; what the
    database and the object store answer is taken from the record [App].

    A Python [str] is held as its UTF-8 encoding: [len] and [str.isalnum]
    work on its characters, not on its bytes. *)

From Stdlib Require Import ZArith String Ascii List Bool.
From Stdlib.Strings Require Import Byte.
From stdpp Require Import base option list gmap sets strings pretty.

Local Open Scope Z_scope.
Local Open Scope string_scope.

(** ** Python values *)

(** A Python [bytes] object. *)
Definition bytes : Type := list byte.

(** Truthiness of an [Optional[str]]: [None] and the empty string are falsy. *)
Definition truthy_str (o : option string) : bool :=
  match o with
  | Some s => negb (String.eqb s "")
  | None => false
  end.

(** Truthiness of an [Optional[list]]. *)
Definition truthy_list {A} (o : option (list A)) : bool :=
  match o with
  | Some (_ :: _) => true
  | _ => false
  end.

(** Truthiness of an [Optional[int]]. *)
Definition truthy_int (o : option Z) : bool :=
  match o with
  | Some n => negb (Z.eqb n 0)
  | None => false
  end.

(** A Python [str] is held as its UTF-8 encoding.  A byte from 128 to 191
    continues the character that the bytes before it began; any other
    byte begins one, and carries the high bits of its code point. *)
Definition code (c : ascii) : Z := Z.of_nat (nat_of_ascii c).

Definition is_continuation (c : ascii) : bool :=
  (128 <=? code c)%Z && (code c <? 192)%Z.

Definition lead_bits (n : Z) : Z :=
  if (n <? 128)%Z then n
  else if (n <? 224)%Z then n - 192
  else if (n <? 240)%Z then n - 224
  else n - 240.

(** The code point begun with the bits [v], once the continuation bytes
    at the head of [s] are read. *)
Fixpoint continue (v : Z) (s : string) : Z :=
  match s with
  | String c s' =>
      if is_continuation c then continue (v * 64 + (code c - 128)) s' else v
  | EmptyString => v
  end.

(** The characters of a text, each by its code point. *)
Fixpoint code_points (s : string) : list Z :=
  match s with
  | EmptyString => []
  | String c s' =>
      if is_continuation c then code_points s'
      else continue (lead_bits (code c)) s' :: code_points s'
  end.

(** [len(s)] of a text, which counts characters, and of a list. *)
Definition len_str (s : string) : Z := Z.of_nat (List.length (code_points s)).
Definition len_list {A} (l : list A) : Z := Z.of_nat (List.length l).

(** [o] when it is [Some], for an [Optional] read after a truthiness test. *)
Definition str_of (o : option string) : string := default "" o.

(** [str.startswith] and [str.endswith]. *)
Definition startswith (s pre : string) : bool := String.prefix pre s.

Definition endswith (s suf : string) : bool :=
  let n := String.length s in
  let m := String.length suf in
  (m <=? n)%nat && String.eqb (String.substring (n - m) m s) suf.

(** The ASCII digits and letters. *)
Definition is_alnum_ascii (c : ascii) : bool :=
  let n := nat_of_ascii c in
  ((48 <=? n) && (n <=? 57) || (65 <=? n) && (n <=? 90)
   || (97 <=? n) && (n <=? 122))%nat.

Fixpoint all_chars (p : ascii → bool) (s : string) : bool :=
  match s with
  | EmptyString => true
  | String c s' => p c && all_chars p s'
  end.

(** [str.isalnum]: at least one character, and every character
    alphanumeric.  Within ASCII those are the digits and the letters;
    beyond, Python asks its Unicode database, here [unicode_isalnum], of a
    code point. *)
Definition is_alnum_code (unicode_isalnum : Z → bool) (cp : Z) : bool :=
  if (cp <? 128)%Z then
    (48 <=? cp)%Z && (cp <=? 57)%Z || (65 <=? cp)%Z && (cp <=? 90)%Z
    || (97 <=? cp)%Z && (cp <=? 122)%Z
  else unicode_isalnum cp.

Definition isalnum (unicode_isalnum : Z → bool) (s : string) : bool :=
  negb (String.eqb s "")
  && forallb (is_alnum_code unicode_isalnum) (code_points s).

(** [s.strip() != ""]: some character of [s] is not white space.  The
    white space of [str.strip] is: tab to carriage return, the four
    separators 28 to 31, the space, U+0085, U+00A0, U+1680, U+2000 to
    U+200A, U+2028, U+2029, U+202F, U+205F and U+3000. *)
Definition is_space_code (cp : Z) : bool :=
  (9 <=? cp)%Z && (cp <=? 13)%Z || (28 <=? cp)%Z && (cp <=? 32)%Z
  || (cp =? 133)%Z || (cp =? 160)%Z || (cp =? 5760)%Z
  || (8192 <=? cp)%Z && (cp <=? 8202)%Z
  || (cp =? 8232)%Z || (cp =? 8233)%Z || (cp =? 8239)%Z || (cp =? 8287)%Z
  || (cp =? 12288)%Z.

Definition strip_nonempty (s : string) : bool :=
  negb (forallb is_space_code (code_points s)).

(** The text an f-string prints for an [Optional[str]]. *)
Definition fmt_opt (o : option string) : string := default "None" o.

(** ** Exceptions *)

(** The exceptions the handlers raise or let through: FastAPI's
    [HTTPException], the [UnboundLocalError] of a local read before any
    assignment, and any exception of an imported helper (with [str(e)]). *)
Inductive exn : Type :=
| HTTPException (status_code : Z) (detail : string)
| UnboundLocalError (name : string)
| PyException (msg : string).

(** [str(e)]; Starlette prints an [HTTPException] as [status: detail]. *)
Definition str_exn (e : exn) : string :=
  match e with
  | HTTPException c d => pretty c +:+ ": " +:+ d
  | UnboundLocalError n =>
      "cannot access local variable '" +:+ n
      +:+ "' where it is not associated with a value"
  | PyException m => m
  end.

Definition HTTP_400_BAD_REQUEST : Z := 400.
Definition HTTP_403_FORBIDDEN : Z := 403.
Definition HTTP_413_CONTENT_TOO_LARGE : Z := 413.
Definition HTTP_429_TOO_MANY_REQUESTS : Z := 429.
Definition HTTP_500_INTERNAL_SERVER_ERROR : Z := 500.

(** ** helpers/constants.py *)

Definition MAX_FILE_SIZES : gmap string Z :=
  list_to_map
    [ ("jacket", 7864320); ("chart", 20 * 1024 * 1024);
      ("audio", 50 * 1024 * 1024); ("preview", 5 * 1024 * 1024);
      ("background", 15 * 1024 * 1024); ("account_pfp", 20 * 1024 * 1024);
      ("account_banner", 40 * 1024 * 1024) ].

Definition MAX_TEXT_SIZES : gmap string Z :=
  list_to_map
    [ ("description", 1000); ("artists", 50); ("author", 50); ("title", 50);
      ("per_tag", 10); ("tags_count", 3) ].

Definition MAX_RATINGS : gmap string Z :=
  list_to_map [ ("min", -999); ("max", 999); ("decimal_places", 4) ].

(** ** helpers/models.py *)

Module ChartUploadData.
Record t : Type := mk {
  rating : Z;
  title : string;
  author : string;
  artists : string;
  tags : option (list string);
  description : option string;
  includes_background : bool;
  includes_preview : bool;
}.
End ChartUploadData.

(** The flags are [Optional[bool]]; the handler only tests their
    truthiness, under which [None] is [False]. *)
Module ChartEditData.
Record t : Type := mk {
  author : option string;
  rating : option Z;
  title : option string;
  artists : option string;
  description : option string;
  tags : option (list string);
  includes_background : bool;
  includes_preview : bool;
  delete_background : bool;
  delete_preview : bool;
  includes_audio : bool;
  includes_jacket : bool;
  includes_chart : bool;
}.
End ChartEditData.

Module Chart.
Record t : Type := mk {
  id : string;
  author : string;
  rating : Z;
  chart_author : string;
  title : string;
  artists : option string;
  jacket_file_hash : string;
  music_file_hash : string;
  chart_file_hash : string;
  background_v1_file_hash : string;
  background_v3_file_hash : string;
  tags : list string;
  description : option string;
  preview_file_hash : option string;
  background_file_hash : option string;
}.
End Chart.

(** The row [charts.get_chart_by_id] yields: of [ChartDBResponse], the
    fields the edit handler reads. *)
Module ChartDBResponse.
Record t : Type := mk {
  id : string;
  author : string;
  jacket_file_hash : string;
  music_file_hash : string;
  chart_file_hash : string;
  background_v1_file_hash : string;
  background_v3_file_hash : string;
  preview_file_hash : option string;
  background_file_hash : option string;
}.

(** [hash_key in old_chart_data.model_fields] and
    [getattr(old_chart_data, hash_key)] in one: [None] when the model has
    no such field, else the field's value, itself optional. *)
Definition getattr (c : t) (hash_key : string) : option (option string) :=
  if String.eqb hash_key "jacket_file_hash" then Some (Some (jacket_file_hash c))
  else if String.eqb hash_key "music_file_hash" then Some (Some (music_file_hash c))
  else if String.eqb hash_key "chart_file_hash" then Some (Some (chart_file_hash c))
  else if String.eqb hash_key "background_v1_file_hash"
  then Some (Some (background_v1_file_hash c))
  else if String.eqb hash_key "background_v3_file_hash"
  then Some (Some (background_v3_file_hash c))
  else if String.eqb hash_key "preview_file_hash" then Some (preview_file_hash c)
  else if String.eqb hash_key "background_file_hash"
  then Some (background_file_hash c)
  else if String.eqb hash_key "id" then Some (Some (id c))
  else if String.eqb hash_key "author" then Some (Some (author c))
  else None.
End ChartDBResponse.

Module Account.
Record t : Type := mk {
  sonolus_id : string;
  chart_upload_cooldown : option Z;
}.
End Account.

(** ** The request and its surroundings *)

(** Starlette's [UploadFile]: the declared size and the content read. *)
Module UploadFile.
Record t : Type := mk {
  size : Z;
  content : bytes;
}.
End UploadFile.

(** [helpers.session.Session]: the authenticated uploader.  [user] is what
    [await session.user()] returns. *)
Module Session.
Record t : Type := mk {
  sonolus_id : string;
  user : Account.t;
}.
End Session.

(** An entry of the list [s3_uploads]. *)
Module S3File.
Record t : Type := mk {
  path : string;
  hash : string;
  bytes_ : bytes;
  content_type : string;
}.
End S3File.

(** ** Queries, object-store operations and the trace *)

Module UpdateMetadata.
Record t : Type := mk {
  chart_id : string;
  chart_author : option string;
  rating : option Z;
  title : option string;
  artists : option string;
  tags : option (list string);
  description : option string;
  update_none_description : bool;
}.
End UpdateMetadata.

Module UpdateFileHash.
Record t : Type := mk {
  chart_id : string;
  jacket_hash : option string;
  v1_hash : option string;
  v3_hash : option string;
  music_hash : option string;
  chart_hash : option string;
  preview_hash : option string;
  background_hash : option string;
  confirm_change : bool;
  update_none_preview : bool;
  update_none_background : bool;
}.
End UpdateFileHash.

(** The queries the handlers build through [database.charts],
    [database.accounts] and [database.leaderboards]. *)
Inductive query : Type :=
| get_chart_by_id (id : string)
| update_metadata (a : UpdateMetadata.t)
| update_file_hash (a : UpdateFileHash.t)
| delete_leaderboards (chart_id : string)
| create_chart (chart : Chart.t)
| update_cooldown (sonolus_id : string) (minutes : Z).

(** One network operation on the bucket: [obj.delete()] on a key, or
    [bucket.upload_fileobj]. *)
Inductive s3_op : Type :=
| s3_delete (key : string)
| s3_upload (key : string) (body : bytes) (content_type : string).

(** What a handler does to the outside, one event per awaited call.  The
    tasks handed to [asyncio.gather] are listed in the order in which they
    were appended to [tasks]; they run concurrently. *)
Inductive event : Type :=
| EvSessionUser
| EvDbFetchrow (q : query)
| EvDbExecute (q : query)
| EvS3List (prefix : string)
| EvS3 (op : s3_op).

Definition is_s3 (e : event) : bool :=
  match e with
  | EvS3List _ | EvS3 _ => true
  | _ => false
  end.

Definition is_db (e : event) : bool :=
  match e with
  | EvDbFetchrow _ | EvDbExecute _ => true
  | _ => false
  end.

(** A database call that writes: every [execute], and the [fetchrow] of
    the inserting query. *)
Definition is_db_write (e : event) : bool :=
  match e with
  | EvDbExecute _ => true
  | EvDbFetchrow (create_chart _) => true
  | _ => false
  end.

Definition is_s3_upload (e : event) : bool :=
  match e with
  | EvS3 (s3_upload _ _ _) => true
  | _ => false
  end.

Definition is_s3_delete (e : event) : bool :=
  match e with
  | EvS3 (s3_delete _) => true
  | _ => false
  end.

(** The metadata commit of the edit flow: the statement that writes the
    slot-to-hash columns. *)
Definition is_hash_commit (e : event) : bool :=
  match e with
  | EvDbExecute (update_file_hash _) => true
  | EvDbFetchrow (create_chart _) => true
  | _ => false
  end.

(** ** The handler monad: an outcome and the trace of calls *)

Definition M (A : Type) : Type := list event * (exn + A).

Definition ret {A} (a : A) : M A := ([], inr a).

Definition bind {A B} (m : M A) (f : A → M B) : M B :=
  match m with
  | (tr, inl e) => (tr, inl e)
  | (tr, inr a) => let '(tr', r) := f a in ((tr ++ tr')%list, r)
  end.

Definition raise {A} (e : exn) : M A := ([], inl e).

Definition emit (e : event) : M unit := ([e], inr tt).

(** A computation that calls nothing outside: it raises or returns. *)
Definition lift {A} (r : exn + A) : M A := ([], r).

Definition trace {A} (m : M A) : list event := fst m.
Definition outcome {A} (m : M A) : exn + A := snd m.

Definition raises {A} (m : M A) : Prop :=
  match outcome m with inl _ => True | inr _ => False end.

Declare Scope handler_scope.
Delimit Scope handler_scope with handler.
Notation "'do' x <- m ; k" := (bind m (fun x => k))
  (at level 10, x name, m at level 100, k at level 200) : handler_scope.
Notation "'run' m ; k" := (bind m (fun _ => k))
  (at level 10, m at level 100, k at level 200) : handler_scope.

(** The error monad of the steps that call nothing outside. *)
Definition ebind {A B} (r : exn + A) (f : A → exn + B) : exn + B :=
  match r with
  | inl e => inl e
  | inr a => f a
  end.

Notation "'try' x <- m ; k" := (ebind m (fun x => k))
  (at level 10, x name, m at level 100, k at level 200) : handler_scope.

(** ** What the handlers import *)

Record Externals : Type := {
  (** the intermediate note and timing model of [sonolus_converters] *)
  Score : Type;
  (** [helpers.hashing.calculate_sha1] *)
  calculate_sha1 : bytes → string;
  (** [helpers.file_checks.get_and_check_file(file, mime)] *)
  get_and_check_file : UploadFile.t → string → exn + bytes;
  (** [helpers.backgrounds.generate_backgrounds_resize_jacket]: the two
      derived variants and the normalised jacket *)
  generate_backgrounds_resize_jacket : bytes → exn + (bytes * bytes * bytes);
  (** [sonolus_converters.sus.load] and [sonolus_converters.usc.load] *)
  sus_load : bytes → exn + Score;
  usc_load : bytes → exn + Score;
  (** [sonolus_converters.next_sekai.export(converted, score)] followed by
      [converted.read()] *)
  next_sekai_export : Score → exn + bytes;
  (** what [gzip.GzipFile(fileobj, mode="wb", filename, mtime)] has written
      to [fileobj] once the data is written and the file closed *)
  gzip_compress : string → Z → bytes → bytes;
  (** [gzip.decompress] *)
  gzip_decompress : bytes → option bytes;
  (** [ChartUploadData.model_validate_json] and
      [ChartEditData.model_validate_json]; [inl] is [e.errors()] *)
  upload_model_validate_json : string → string + ChartUploadData.t;
  edit_model_validate_json : string → string + ChartEditData.t;
  (** [str.isalnum] of one character beyond ASCII, by its code point: the
      answer of Python's Unicode database *)
  unicode_isalnum : Z → bool;
}.

(** The application and what its stores answer during the request. *)
Record App : Type := {
  debug : bool;
  (** the row [conn.fetchrow(charts.get_chart_by_id(id))] returns *)
  db_get_chart_by_id : string → option ChartDBResponse.t;
  (** the row id [conn.fetchrow(charts.create_chart(chart))] returns *)
  db_create_chart : Chart.t → option string;
  (** the keys [bucket.objects.filter(Prefix=prefix)] lists *)
  s3_objects : string → list string;
  (** [str(uuid.uuid4())] *)
  uuid4 : string;
  (** [datetime.now(timezone.utc)], in seconds *)
  now : Z;
}.

(** ** The upload loop shared by the two handlers

    [upload.py] lines 255-268 and [edit.py] lines 350-363 are the same
    loop: one upload task per entry of [s3_uploads] whose hash is not yet
    in [alr_added_hashes]. *)
Fixpoint upload_tasks (alr_added_hashes : list string) (files : list S3File.t)
  : list s3_op :=
  match files with
  | [] => []
  | file :: files' =>
      if bool_decide (S3File.hash file ∈ alr_added_hashes)
      then upload_tasks alr_added_hashes files'
      else s3_upload (S3File.path file) (S3File.bytes_ file)
             (S3File.content_type file)
           :: upload_tasks (alr_added_hashes ++ [S3File.hash file])%list files'
  end.

(** * api/charts/{id}/edit.py *)

Module Edit.

Local Open Scope handler_scope.

(** The arguments of the [PATCH] handler. *)
Record Request : Type := {
  id : string;
  data : string;
  jacket_image : option UploadFile.t;
  chart_file : option UploadFile.t;
  audio_file : option UploadFile.t;
  preview_file : option UploadFile.t;
  background_image : option UploadFile.t;
}.

(** The local variables of [main] that outlive the block that assigns
    them.  A hash variable is [None] while it is unbound. *)
Record Locals : Type := {
  chart_updated : bool;
  s3_uploads : list S3File.t;
  old_deletes : list string;
  chart_hash : option string;
  jacket_hash : option string;
  v1_hash : option string;
  v3_hash : option string;
  audio_hash : option string;
  preview_hash : option string;
  background_hash : option string;
}.

Definition init_locals : Locals :=
  {| chart_updated := false; s3_uploads := []; old_deletes := [];
     chart_hash := None; jacket_hash := None; v1_hash := None;
     v3_hash := None; audio_hash := None; preview_hash := None;
     background_hash := None |}.

(** [s3_uploads.append(f)] *)
Definition append_upload (f : S3File.t) (l : Locals) : Locals :=
  {| chart_updated := chart_updated l;
     s3_uploads := (s3_uploads l ++ [f])%list;
     old_deletes := old_deletes l;
     chart_hash := chart_hash l; jacket_hash := jacket_hash l;
     v1_hash := v1_hash l; v3_hash := v3_hash l;
     audio_hash := audio_hash l; preview_hash := preview_hash l;
     background_hash := background_hash l |}.

(** [old_deletes.append(k)] *)
Definition append_delete (k : string) (l : Locals) : Locals :=
  {| chart_updated := chart_updated l;
     s3_uploads := s3_uploads l;
     old_deletes := (old_deletes l ++ [k])%list;
     chart_hash := chart_hash l; jacket_hash := jacket_hash l;
     v1_hash := v1_hash l; v3_hash := v3_hash l;
     audio_hash := audio_hash l; preview_hash := preview_hash l;
     background_hash := background_hash l |}.

(** [chart_updated = True] *)
Definition set_chart_updated (l : Locals) : Locals :=
  {| chart_updated := true;
     s3_uploads := s3_uploads l; old_deletes := old_deletes l;
     chart_hash := chart_hash l; jacket_hash := jacket_hash l;
     v1_hash := v1_hash l; v3_hash := v3_hash l;
     audio_hash := audio_hash l; preview_hash := preview_hash l;
     background_hash := background_hash l |}.

Definition set_chart_hash (h : string) (l : Locals) : Locals :=
  {| chart_updated := chart_updated l;
     s3_uploads := s3_uploads l; old_deletes := old_deletes l;
     chart_hash := Some h; jacket_hash := jacket_hash l;
     v1_hash := v1_hash l; v3_hash := v3_hash l;
     audio_hash := audio_hash l; preview_hash := preview_hash l;
     background_hash := background_hash l |}.

Definition set_jacket_hash (h : string) (l : Locals) : Locals :=
  {| chart_updated := chart_updated l;
     s3_uploads := s3_uploads l; old_deletes := old_deletes l;
     chart_hash := chart_hash l; jacket_hash := Some h;
     v1_hash := v1_hash l; v3_hash := v3_hash l;
     audio_hash := audio_hash l; preview_hash := preview_hash l;
     background_hash := background_hash l |}.

Definition set_v1_hash (h : string) (l : Locals) : Locals :=
  {| chart_updated := chart_updated l;
     s3_uploads := s3_uploads l; old_deletes := old_deletes l;
     chart_hash := chart_hash l; jacket_hash := jacket_hash l;
     v1_hash := Some h; v3_hash := v3_hash l;
     audio_hash := audio_hash l; preview_hash := preview_hash l;
     background_hash := background_hash l |}.

Definition set_v3_hash (h : string) (l : Locals) : Locals :=
  {| chart_updated := chart_updated l;
     s3_uploads := s3_uploads l; old_deletes := old_deletes l;
     chart_hash := chart_hash l; jacket_hash := jacket_hash l;
     v1_hash := v1_hash l; v3_hash := Some h;
     audio_hash := audio_hash l; preview_hash := preview_hash l;
     background_hash := background_hash l |}.

Definition set_audio_hash (h : string) (l : Locals) : Locals :=
  {| chart_updated := chart_updated l;
     s3_uploads := s3_uploads l; old_deletes := old_deletes l;
     chart_hash := chart_hash l; jacket_hash := jacket_hash l;
     v1_hash := v1_hash l; v3_hash := v3_hash l;
     audio_hash := Some h; preview_hash := preview_hash l;
     background_hash := background_hash l |}.

Definition set_preview_hash (h : string) (l : Locals) : Locals :=
  {| chart_updated := chart_updated l;
     s3_uploads := s3_uploads l; old_deletes := old_deletes l;
     chart_hash := chart_hash l; jacket_hash := jacket_hash l;
     v1_hash := v1_hash l; v3_hash := v3_hash l;
     audio_hash := audio_hash l; preview_hash := Some h;
     background_hash := background_hash l |}.

Definition set_background_hash (h : string) (l : Locals) : Locals :=
  {| chart_updated := chart_updated l;
     s3_uploads := s3_uploads l; old_deletes := old_deletes l;
     chart_hash := chart_hash l; jacket_hash := jacket_hash l;
     v1_hash := v1_hash l; v3_hash := v3_hash l;
     audio_hash := audio_hash l; preview_hash := preview_hash l;
     background_hash := Some h |}.

(** The metadata limits checked first (lines 53-67). *)
Definition limits_exceeded (d : ChartEditData.t) : bool :=
  (truthy_str (ChartEditData.description d)
   && (len_str (str_of (ChartEditData.description d))
       >? MAX_TEXT_SIZES !!! "description")%Z)
  || (truthy_str (ChartEditData.artists d)
      && (len_str (str_of (ChartEditData.artists d))
          >? MAX_TEXT_SIZES !!! "artists")%Z)
  || (truthy_str (ChartEditData.title d)
      && (len_str (str_of (ChartEditData.title d))
          >? MAX_TEXT_SIZES !!! "title")%Z)
  || (truthy_str (ChartEditData.author d)
      && (len_str (str_of (ChartEditData.author d))
          >? MAX_TEXT_SIZES !!! "author")%Z)
  || (truthy_list (ChartEditData.tags d)
      && existsb (λ tag, (len_str tag >? MAX_TEXT_SIZES !!! "per_tag")%Z)
           (default [] (ChartEditData.tags d)))
  || (truthy_list (ChartEditData.tags d)
      && (len_list (default [] (ChartEditData.tags d))
          >? MAX_TEXT_SIZES !!! "tags_count")%Z)
  || (truthy_int (ChartEditData.rating d)
      && (default 0 (ChartEditData.rating d) >? MAX_RATINGS !!! "max")%Z)
  || (truthy_int (ChartEditData.rating d)
      && (default 0 (ChartEditData.rating d) <? MAX_RATINGS !!! "min")%Z).

Definition too_large : exn :=
  HTTPException HTTP_413_CONTENT_TOO_LARGE
    "Uploaded files exceed file size limit.".
Definition unexpected_file : exn :=
  HTTPException HTTP_400_BAD_REQUEST "Includes unexpected file.".
Definition file_not_found : exn :=
  HTTPException HTTP_400_BAD_REQUEST "File not found.".
Definition delete_and_include : exn :=
  HTTPException HTTP_400_BAD_REQUEST "Can't delete and include.".
Definition invalid_format : exn :=
  HTTPException HTTP_400_BAD_REQUEST "Invalid file format.".

Section handler.

(** [detect] is [sonolus_converters.detect] as this handler uses it: a
    falsy value for unrecognised bytes, else the kind and its tag. *)
Context (X : Externals) (detect : bytes → option (string * string))
  (app : App) (session : Session.t).

(** The object key [f"{session.sonolus_id}/{id}/{hash}"]. *)
Definition object_key (id hash : string) : string :=
  Session.sonolus_id session +:+ "/" +:+ id +:+ "/" +:+ hash.

Definition s3_file (id hash : string) (b : bytes) (content_type : string)
  : S3File.t :=
  {| S3File.path := object_key id hash; S3File.hash := hash;
     S3File.bytes_ := b; S3File.content_type := content_type |}.

(** The inner function [convert] (lines 99-130).  [result] is what
    [sonolus_converters.detect] returned: the kind and, for level data,
    its producer tag.  A kind other than the three tested reaches
    [converted.read()] with [converted] unbound. *)
Definition convert (result : string * string) (chart_bytes : bytes)
  : exn + bytes :=
  if String.eqb (fst result) "sus" then
    try score <- sus_load X chart_bytes;
    next_sekai_export X score
  else if String.eqb (fst result) "usc" then
    try score <- usc_load X chart_bytes;
    next_sekai_export X score
  else if String.eqb (fst result) "lvd" then
    if negb (endswith (snd result) "pysekai") then
      inl (HTTPException HTTP_400_BAD_REQUEST
             ("Incorrect LevelData: " +:+ snd result
              +:+ " (expected: pysekai)"))
    else if negb (startswith (snd result) "compress_") then
      inr (gzip_compress X "LevelData" 0 chart_bytes)
    else inr chart_bytes
  else inl (UnboundLocalError "converted").

(** [await app.run_blocking(convert)] under [except Exception as e]
    (lines 132-137): any exception becomes a 400 carrying [str(e)]. *)
Definition run_convert (result : string * string) (chart_bytes : bytes)
  : exn + bytes :=
  match convert result chart_bytes with
  | inl e => inl (HTTPException HTTP_400_BAD_REQUEST (str_exn e))
  | inr b => inr b
  end.

Section blocks.

Context (r : Request) (d : ChartEditData.t) (old : ChartDBResponse.t).

(** Lines 83-160: the chart script. *)
Definition chart_block (l : Locals) : exn + Locals :=
  match chart_file r with
  | Some f =>
      if (UploadFile.size f >? MAX_FILE_SIZES !!! "chart")%Z then inl too_large
      else if ChartEditData.includes_chart d then
        match detect (UploadFile.content f) with
        | None => inl invalid_format
        | Some result =>
            try chart_bytes <- run_convert result (UploadFile.content f);
            let chart_hash := calculate_sha1 X chart_bytes in
            let l := set_chart_hash chart_hash l in
            let l :=
              if negb (String.eqb chart_hash (ChartDBResponse.chart_file_hash old))
              then append_delete "chart_file_hash"
                     (append_upload
                        (s3_file (id r) chart_hash chart_bytes "application/gzip")
                        l)
              else l in
            inr (set_chart_updated l)
        end
      else inl unexpected_file
  | None =>
      if ChartEditData.includes_chart d then inl file_not_found else inr l
  end.

(** Lines 161-212: the jacket and its two derived variants. *)
Definition jacket_block (l : Locals) : exn + Locals :=
  match jacket_image r with
  | Some f =>
      if (UploadFile.size f >? MAX_FILE_SIZES !!! "jacket")%Z then inl too_large
      else if ChartEditData.includes_jacket d then
        try jacket_bytes <- get_and_check_file X f "image";
        let jacket_hash := calculate_sha1 X jacket_bytes in
        let l := set_jacket_hash jacket_hash l in
        if negb (String.eqb jacket_hash (ChartDBResponse.jacket_file_hash old))
        then
          let l := append_delete "jacket_file_hash" l in
          try vs <- generate_backgrounds_resize_jacket X jacket_bytes;
          let '(v1, v3, jacket_bytes) := vs in
          let jacket_hash := calculate_sha1 X jacket_bytes in
          let l := set_jacket_hash jacket_hash l in
          let l := append_upload (s3_file (id r) jacket_hash jacket_bytes "image/png") l in
          let v1_hash := calculate_sha1 X v1 in
          let l := set_v1_hash v1_hash l in
          let l := append_upload (s3_file (id r) v1_hash v1 "image/png") l in
          let v3_hash := calculate_sha1 X v3 in
          let l := set_v3_hash v3_hash l in
          let l := append_upload (s3_file (id r) v3_hash v3 "image/png") l in
          let l := append_delete "background_v1_file_hash" l in
          inr (append_delete "background_v3_file_hash" l)
        else inr l
      else inl unexpected_file
  | None =>
      if ChartEditData.includes_jacket d then inl file_not_found else inr l
  end.

(** Lines 213-242: the audio. *)
Definition audio_block (l : Locals) : exn + Locals :=
  match audio_file r with
  | Some f =>
      if (UploadFile.size f >? MAX_FILE_SIZES !!! "audio")%Z then inl too_large
      else if ChartEditData.includes_audio d then
        try audio_bytes <- get_and_check_file X f "audio/mpeg";
        let audio_hash := calculate_sha1 X audio_bytes in
        let l := set_audio_hash audio_hash l in
        let l :=
          if negb (String.eqb audio_hash (ChartDBResponse.music_file_hash old))
          then append_delete "music_file_hash"
                 (append_upload
                    (s3_file (id r) audio_hash audio_bytes "audio/mpeg") l)
          else l in
        inr (set_chart_updated l)
      else inl unexpected_file
  | None =>
      if ChartEditData.includes_audio d then inl file_not_found else inr l
  end.

(** [preview_hash == old_chart_data.preview_file_hash], the stored hash
    being optional. *)
Definition eq_opt_hash (h : string) (o : option string) : bool :=
  match o with
  | Some h' => String.eqb h h'
  | None => false
  end.

(** Lines 243-278: the optional preview. *)
Definition preview_block (l : Locals) : exn + Locals :=
  match preview_file r with
  | Some f =>
      if (UploadFile.size f >? MAX_FILE_SIZES !!! "preview")%Z then inl too_large
      else if ChartEditData.includes_preview d
              && negb (ChartEditData.delete_preview d) then
        try preview_bytes <- get_and_check_file X f "audio/mpeg";
        let preview_hash := calculate_sha1 X preview_bytes in
        let l := set_preview_hash preview_hash l in
        inr (if negb (eq_opt_hash preview_hash
                        (ChartDBResponse.preview_file_hash old))
             then append_delete "preview_file_hash"
                    (append_upload
                       (s3_file (id r) preview_hash preview_bytes "audio/mpeg")
                       l)
             else l)
      else if ChartEditData.delete_preview d then inl delete_and_include
      else inl unexpected_file
  | None =>
      if ChartEditData.delete_preview d
         && negb (ChartEditData.includes_preview d)
      then inr (append_delete "preview_file_hash" l)
      else if ChartEditData.includes_preview d then inl file_not_found
      else inr l
  end.

(** Lines 279-314: the optional background. *)
Definition background_block (l : Locals) : exn + Locals :=
  match background_image r with
  | Some f =>
      if (UploadFile.size f >? MAX_FILE_SIZES !!! "background")%Z
      then inl too_large
      else if ChartEditData.includes_background d
              && negb (ChartEditData.delete_background d) then
        try background_bytes <- get_and_check_file X f "image/png";
        let background_hash := calculate_sha1 X background_bytes in
        let l := set_background_hash background_hash l in
        inr (if negb (eq_opt_hash background_hash
                        (ChartDBResponse.background_file_hash old))
             then append_delete "background_file_hash"
                    (append_upload
                       (s3_file (id r) background_hash background_bytes
                          "image/png") l)
             else l)
      else if ChartEditData.delete_background d then inl delete_and_include
      else inl unexpected_file
  | None =>
      if ChartEditData.delete_background d
         && negb (ChartEditData.includes_background d)
      then inr (append_delete "background_file_hash" l)
      else if ChartEditData.includes_background d then inl file_not_found
      else inr l
  end.

(** Lines 80-314: the five blocks in turn, from empty lists. *)
Definition stage_files : exn + Locals :=
  try l <- chart_block init_locals;
  try l <- jacket_block l;
  try l <- audio_block l;
  try l <- preview_block l;
  background_block l.

End blocks.

(** Lines 316-337: which stored hashes lose their last slot. *)
Definition all_hash_keys : gset string :=
  {[ "background_file_hash"; "background_v1_file_hash";
     "background_v3_file_hash"; "jacket_file_hash"; "chart_file_hash";
     "music_file_hash"; "preview_file_hash" ]}.

Definition kept_hash_keys (old_deletes : list string) : gset string :=
  all_hash_keys ∖ list_to_set old_deletes.

Definition kept_hashes (old : ChartDBResponse.t) (old_deletes : list string)
  : gset (option string) :=
  set_omap (ChartDBResponse.getattr old) (kept_hash_keys old_deletes).

Definition deleted_candidate_hashes (old : ChartDBResponse.t)
  (old_deletes : list string) : gset (option string) :=
  list_to_set (omap (ChartDBResponse.getattr old) old_deletes).

Definition deleted_hashes (old : ChartDBResponse.t) (old_deletes : list string)
  : gset (option string) :=
  deleted_candidate_hashes old old_deletes ∖ kept_hashes old old_deletes.

(** Lines 343-349: one delete task per hash of the set.  The list
    [alr_deleted_hashes] is tested and never appended to. *)
Fixpoint delete_tasks (id : string) (alr_deleted_hashes : list (option string))
  (hs : list (option string)) : list s3_op :=
  match hs with
  | [] => []
  | file_hash :: hs' =>
      if bool_decide (file_hash ∈ alr_deleted_hashes)
      then delete_tasks id alr_deleted_hashes hs'
      else s3_delete (object_key id (fmt_opt file_hash))
           :: delete_tasks id alr_deleted_hashes hs'
  end.

(** The prefix of the chart's replays (line 366). *)
Definition replays_prefix (old : ChartDBResponse.t) : string :=
  ChartDBResponse.author old +:+ "/" +:+ ChartDBResponse.id old +:+ "/replays/".

(** Lines 338-371: the object-store batch.  The listing is awaited while
    the tasks are collected; the tasks run under [asyncio.gather]. *)
Definition s3_batch (r : Request) (old : ChartDBResponse.t) (l : Locals)
  : M unit :=
  let deleted := deleted_hashes old (old_deletes l) in
  if negb (bool_decide (deleted = ∅))
     || negb (bool_decide (s3_uploads l = []))
  then
    let tasks :=
      (delete_tasks (id r) [] (elements deleted)
       ++ upload_tasks [] (s3_uploads l))%list in
    if chart_updated l then
      run emit (EvS3List (replays_prefix old));
      let objects := s3_objects app (replays_prefix old) in
      (map EvS3 (tasks ++ map s3_delete objects)%list, inr tt)
    else (map EvS3 tasks, inr tt)
  else ret tt.

(** Lines 372-387. *)
Definition metadata_query (r : Request) (d : ChartEditData.t) : query :=
  let described :=
    truthy_str (ChartEditData.description d)
    && strip_nonempty (str_of (ChartEditData.description d)) in
  update_metadata
    {| UpdateMetadata.chart_id := id r;
       UpdateMetadata.chart_author := ChartEditData.author d;
       UpdateMetadata.rating := ChartEditData.rating d;
       UpdateMetadata.title := ChartEditData.title d;
       UpdateMetadata.artists := ChartEditData.artists d;
       UpdateMetadata.tags :=
         if truthy_list (ChartEditData.tags d) then ChartEditData.tags d
         else None;
       UpdateMetadata.description :=
         if described then ChartEditData.description d else None;
       UpdateMetadata.update_none_description := negb described |}.

(** [name if flag and file else None], the local [name] being read only
    when the condition holds. *)
Definition hash_if {F} (flag : bool) (file : option F) (name : string)
  (local : option string) : exn + option string :=
  if flag && bool_decide (is_Some file) then
    match local with
    | Some h => inr (Some h)
    | None => inl (UnboundLocalError name)
    end
  else inr None.

(** Lines 388-402: the arguments are evaluated in the order written. *)
Definition file_hash_query (r : Request) (d : ChartEditData.t) (l : Locals)
  : exn + query :=
  try jacket <- hash_if (ChartEditData.includes_jacket d) (jacket_image r)
                  "jacket_hash" (jacket_hash l);
  try v1 <- hash_if (ChartEditData.includes_jacket d) (jacket_image r)
              "v1_hash" (v1_hash l);
  try v3 <- hash_if (ChartEditData.includes_jacket d) (jacket_image r)
              "v3_hash" (v3_hash l);
  try music <- hash_if (ChartEditData.includes_audio d) (audio_file r)
                 "audio_hash" (audio_hash l);
  try chart <- hash_if (ChartEditData.includes_chart d) (chart_file r)
                 "chart_hash" (chart_hash l);
  try preview <- hash_if (ChartEditData.includes_preview d) (preview_file r)
                   "preview_hash" (preview_hash l);
  try background <- hash_if (ChartEditData.includes_background d)
                      (background_image r) "background_hash"
                      (background_hash l);
  inr (update_file_hash
         {| UpdateFileHash.chart_id := id r;
            UpdateFileHash.jacket_hash := jacket;
            UpdateFileHash.v1_hash := v1;
            UpdateFileHash.v3_hash := v3;
            UpdateFileHash.music_hash := music;
            UpdateFileHash.chart_hash := chart;
            UpdateFileHash.preview_hash := preview;
            UpdateFileHash.background_hash := background;
            UpdateFileHash.confirm_change := true;
            UpdateFileHash.update_none_preview := ChartEditData.delete_preview d;
            UpdateFileHash.update_none_background :=
              ChartEditData.delete_background d |}).

(** Lines 404-410: the database writes. *)
Definition db_commit (old : ChartDBResponse.t) (l : Locals) (query query2 : query)
  : M unit :=
  run emit (EvDbExecute query);
  run emit (EvDbExecute query2);
  if chart_updated l
  then emit (EvDbExecute (delete_leaderboards (ChartDBResponse.id old)))
  else ret tt.

(** Lines 40-79: the checks made before any file is looked at. *)
Definition check_request (r : Request) : M (ChartEditData.t * ChartDBResponse.t) :=
  if negb (len_str (id r) =? 32)%Z
     || negb (isalnum (unicode_isalnum X) (id r)) then
    raise (HTTPException HTTP_400_BAD_REQUEST "Invalid chart ID.")
  else
    match edit_model_validate_json X (data r) with
    | inl errors => raise (HTTPException 422 errors)
    | inr d =>
        if limits_exceeded d then
          raise (HTTPException HTTP_400_BAD_REQUEST "Length limits exceeded")
        else
          run emit EvSessionUser;
          let user := Session.user session in
          run emit (EvDbFetchrow (get_chart_by_id (id r)));
          match db_get_chart_by_id app (id r) with
          | None => raise (HTTPException 404 "Chart not found.")
          | Some old_chart_data =>
              if negb (String.eqb (ChartDBResponse.author old_chart_data)
                         (Account.sonolus_id user))
              then raise (HTTPException HTTP_403_FORBIDDEN
                            "bro this aint your chart")
              else ret (d, old_chart_data)
          end
    end.

(** The value returned on success: [{"result": "success"}]. *)
Definition success : list (string * string) := [("result", "success")].

(** The handler. *)
Definition main (r : Request) : M (list (string * string)) :=
  do checked <- check_request r;
  let '(d, old_chart_data) := checked in
  do l <- lift (stage_files r d old_chart_data);
  run s3_batch r old_chart_data l;
  let query := metadata_query r d in
  do query2 <- lift (file_hash_query r d l);
  run db_commit old_chart_data l query query2;
  ret success.

End handler.
End Edit.

(** * api/charts/upload.py *)

Module Upload.

Local Open Scope handler_scope.

(** The arguments of the [POST] handler. *)
Record Request : Type := {
  jacket_image : UploadFile.t;
  chart_file : UploadFile.t;
  audio_file : UploadFile.t;
  data : string;
  preview_file : option UploadFile.t;
  background_image : option UploadFile.t;
}.

(** What [sonolus_converters.detect] returns as this handler unpacks it:
    [valid, sus, usc, leveldata, compressed, ld_type]. *)
Record Detected : Type := {
  valid : bool;
  sus : bool;
  usc : bool;
  leveldata : bool;
  compressed : bool;
  ld_type : option string;
}.

(** The metadata limits checked first (lines 47-61). *)
Definition limits_exceeded (d : ChartUploadData.t) : bool :=
  (truthy_str (ChartUploadData.description d)
   && (len_str (str_of (ChartUploadData.description d))
       >? MAX_TEXT_SIZES !!! "description")%Z)
  || (negb (String.eqb (ChartUploadData.artists d) "")
      && (len_str (ChartUploadData.artists d) >? MAX_TEXT_SIZES !!! "artists")%Z)
  || (negb (String.eqb (ChartUploadData.title d) "")
      && (len_str (ChartUploadData.title d) >? MAX_TEXT_SIZES !!! "title")%Z)
  || (negb (String.eqb (ChartUploadData.author d) "")
      && (len_str (ChartUploadData.author d) >? MAX_TEXT_SIZES !!! "author")%Z)
  || (truthy_list (ChartUploadData.tags d)
      && existsb (λ tag, (len_str tag >? MAX_TEXT_SIZES !!! "per_tag")%Z)
           (default [] (ChartUploadData.tags d)))
  || (truthy_list (ChartUploadData.tags d)
      && (len_list (default [] (ChartUploadData.tags d))
          >? MAX_TEXT_SIZES !!! "tags_count")%Z)
  || (ChartUploadData.rating d >? MAX_RATINGS !!! "max")%Z
  || (ChartUploadData.rating d <? MAX_RATINGS !!! "min")%Z.

Definition too_large : exn :=
  HTTPException HTTP_413_CONTENT_TOO_LARGE
    "Uploaded files exceed file size limit.".
Definition invalid_format : exn :=
  HTTPException HTTP_400_BAD_REQUEST "Invalid file format.".

(** [s.replace("-", "")] *)
Fixpoint remove_dashes (s : string) : string :=
  match s with
  | EmptyString => EmptyString
  | String c s' =>
      if Ascii.eqb c "-"%char then remove_dashes s'
      else String c (remove_dashes s')
  end.

Section handler.

(** [detect] is [sonolus_converters.detect] as this handler uses it. *)
Context (X : Externals) (detect : bytes → Detected)
  (app : App) (session : Session.t).

Definition object_key (chart_id hash : string) : string :=
  Session.sonolus_id session +:+ "/" +:+ chart_id +:+ "/" +:+ hash.

Definition s3_file (chart_id hash : string) (b : bytes) (content_type : string)
  : S3File.t :=
  {| S3File.path := object_key chart_id hash; S3File.hash := hash;
     S3File.bytes_ := b; S3File.content_type := content_type |}.

(** The inner function [convert] (lines 174-202). *)
Definition convert (det : Detected) (chart_bytes : bytes) : exn + bytes :=
  if sus det then
    try score <- sus_load X chart_bytes;
    next_sekai_export X score
  else if usc det then
    try score <- usc_load X chart_bytes;
    next_sekai_export X score
  else if leveldata det then
    if negb (bool_decide (ld_type det = Some "nextsekai")) && negb (debug app)
    then
      inl (HTTPException HTTP_400_BAD_REQUEST
             ("Incorrect LevelData: " +:+ fmt_opt (ld_type det)
              +:+ " (expected: NextSekai)"))
    else if negb (compressed det) then
      inr (gzip_compress X "LevelData" 0 chart_bytes)
    else inr chart_bytes
  else inl (UnboundLocalError "converted").

(** [await app.run_blocking(convert)] under [except Exception as e]
    (lines 204-207). *)
Definition run_convert (det : Detected) (chart_bytes : bytes) : exn + bytes :=
  match convert det chart_bytes with
  | inl e => inl (HTTPException HTTP_400_BAD_REQUEST (str_exn e))
  | inr b => inr b
  end.

(** Lines 42-128: validation, the session's user, the cooldown and the
    size limits.  The block under [if False:] (lines 65-95) never runs. *)
Definition check_request (r : Request) : M ChartUploadData.t :=
  match upload_model_validate_json X (data r) with
  | inl errors => raise (HTTPException 422 errors)
  | inr d =>
      if limits_exceeded d then
        raise (HTTPException HTTP_400_BAD_REQUEST "Length limits exceeded")
      else
        run emit EvSessionUser;
        let user := Session.user session in
        let on_cooldown :=
          match Account.chart_upload_cooldown user with
          | Some cooldown =>
              if negb (debug app) && (now app <? cooldown)%Z
              then Some (cooldown - now app)%Z else None
          | None => None
          end in
        match on_cooldown with
        | Some remaining =>
            raise (HTTPException HTTP_429_TOO_MANY_REQUESTS
                     ("On cooldown. Time remaining: "
                      +:+ pretty (remaining `div` 60)%Z +:+ "m "
                      +:+ pretty (remaining `mod` 60)%Z +:+ "s"))
        | None =>
            if (UploadFile.size (jacket_image r) >? MAX_FILE_SIZES !!! "jacket")%Z
               || (UploadFile.size (chart_file r) >? MAX_FILE_SIZES !!! "chart")%Z
               || (UploadFile.size (audio_file r) >? MAX_FILE_SIZES !!! "audio")%Z
            then raise too_large
            else if match preview_file r with
                    | Some f =>
                        (UploadFile.size f >? MAX_FILE_SIZES !!! "preview")%Z
                    | None => false
                    end
            then raise too_large
            else if match background_image r with
                    | Some f =>
                        (UploadFile.size f >? MAX_FILE_SIZES !!! "background")%Z
                    | None => false
                    end
            then raise too_large
            else ret d
        end
  end.

(** What lines 129-251 leave in the locals. *)
Record Staged : Type := {
  s3_uploads : list S3File.t;
  jacket_hash : string;
  v1_hash : string;
  v3_hash : string;
  chart_hash : string;
  audio_hash : string;
  preview_hash : option string;
  background_hash : option string;
}.

(** Lines 129-251: every file is checked, converted and hashed. *)
Definition stage_files (r : Request) (chart_id : string) : exn + Staged :=
  try jacket_bytes <- get_and_check_file X (jacket_image r) "image";
  try vs <- generate_backgrounds_resize_jacket X jacket_bytes;
  let '(v1, v3, jacket_bytes) := vs in
  let jacket_hash := calculate_sha1 X jacket_bytes in
  let v1_hash := calculate_sha1 X v1 in
  let v3_hash := calculate_sha1 X v3 in
  let s3_uploads :=
    [ s3_file chart_id v1_hash v1 "image/png";
      s3_file chart_id v3_hash v3 "image/png";
      s3_file chart_id jacket_hash jacket_bytes "image/png" ] in
  let det := detect (UploadFile.content (chart_file r)) in
  if negb (valid det) then inl invalid_format
  else
    try chart_bytes <- run_convert det (UploadFile.content (chart_file r));
    let chart_hash := calculate_sha1 X chart_bytes in
    let s3_uploads :=
      (s3_uploads ++ [s3_file chart_id chart_hash chart_bytes "application/gzip"])%list in
    try audio_bytes <- get_and_check_file X (audio_file r) "audio/mpeg";
    let audio_hash := calculate_sha1 X audio_bytes in
    let s3_uploads :=
      (s3_uploads ++ [s3_file chart_id audio_hash audio_bytes "audio/mpeg"])%list in
    try preview <-
      match preview_file r with
      | Some f =>
          try preview_bytes <- get_and_check_file X f "audio/mpeg";
          inr (Some (calculate_sha1 X preview_bytes, preview_bytes))
      | None => inr None
      end;
    let s3_uploads :=
      match preview with
      | Some (preview_hash, preview_bytes) =>
          (s3_uploads
           ++ [s3_file chart_id preview_hash preview_bytes "audio/mpeg"])%list
      | None => s3_uploads
      end in
    try background <-
      match background_image r with
      | Some f =>
          try background_bytes <- get_and_check_file X f "image/png";
          inr (Some (calculate_sha1 X background_bytes, background_bytes))
      | None => inr None
      end;
    let s3_uploads :=
      match background with
      | Some (background_hash, background_bytes) =>
          (s3_uploads
           ++ [s3_file chart_id background_hash background_bytes "image/png"])%list
      | None => s3_uploads
      end in
    inr {| s3_uploads := s3_uploads; jacket_hash := jacket_hash;
           v1_hash := v1_hash; v3_hash := v3_hash; chart_hash := chart_hash;
           audio_hash := audio_hash; preview_hash := fst <$> preview;
           background_hash := fst <$> background |}.

(** Lines 252-269: the object-store batch. *)
Definition s3_batch (st : Staged) : M unit :=
  (map EvS3 (upload_tasks [] (s3_uploads st)), inr tt).

(** Lines 270-288: the row to insert. *)
Definition new_chart (d : ChartUploadData.t) (chart_id : string) (st : Staged)
  : Chart.t :=
  {| Chart.id := chart_id;
     Chart.author := Session.sonolus_id session;
     Chart.rating := ChartUploadData.rating d;
     Chart.chart_author := ChartUploadData.author d;
     Chart.title := ChartUploadData.title d;
     Chart.artists := Some (ChartUploadData.artists d);
     Chart.jacket_file_hash := jacket_hash st;
     Chart.music_file_hash := audio_hash st;
     Chart.chart_file_hash := chart_hash st;
     Chart.background_v1_file_hash := v1_hash st;
     Chart.background_v3_file_hash := v3_hash st;
     Chart.tags := default [] (ChartUploadData.tags d);
     Chart.description := ChartUploadData.description d;
     Chart.preview_file_hash := preview_hash st;
     Chart.background_file_hash := background_hash st |}.

(** Lines 294-302: the insert, and the cooldown when it gave a row. *)
Definition db_commit (chart : Chart.t) : M (list (string * string)) :=
  run emit (EvDbFetchrow (create_chart chart));
  match db_create_chart app chart with
  | Some result_id =>
      run emit (EvDbExecute (update_cooldown (Session.sonolus_id session) 1));
      ret [("id", result_id)]
  | None =>
      raise (HTTPException HTTP_500_INTERNAL_SERVER_ERROR
               "Error while processing upload result.")
  end.

(** The handler. *)
Definition main (r : Request) : M (list (string * string)) :=
  do d <- check_request r;
  let chart_id := remove_dashes (uuid4 app) in
  do st <- lift (stage_files r chart_id);
  run s3_batch st;
  db_commit (new_chart d chart_id st).

End handler.
End Upload.

(** * A concrete instance of the parameters

    Stand-ins for the imported code, simple enough to run the handlers on
    sample requests: they are what the closed lemmas below evaluate. *)

Module Sample.

Definition b (s : string) : bytes := list_byte_of_string s.

(** A stand-in for SHA-1 that is injective: distinct contents, distinct
    hashes. *)
Definition sha1 (x : bytes) : string := "sha1:" +:+ string_of_list_byte x.

(** The image normaliser drops the bytes ["#"], which stand for ancillary
    data a re-encoding discards; it is idempotent.  The two variants are
    the normalised image under a marker. *)
Definition normalise (x : bytes) : bytes :=
  List.filter (λ c, negb (Byte.eqb c "#"%byte)) x.

Definition resize (x : bytes) : exn + (bytes * bytes * bytes) :=
  inr ((b "v1:" ++ normalise x)%list, (b "v3:" ++ normalise x)%list,
       normalise x).

(** A gzip member with nothing compressed: the ten-byte header of RFC 1952
    with the FNAME flag, the modification time in four little-endian
    bytes, the file name and its terminator, then the data as they are. *)
Definition le32 (n : Z) : bytes :=
  map (λ i, default x00 (Byte.of_nat (Z.to_nat ((n ≫ (8 * i)) `mod` 256))))
    [0; 1; 2; 3]%Z.

Definition gzip_header (name : string) (mtime : Z) : bytes :=
  ([x1f; x8b; x08; x08] ++ le32 mtime
   ++ [x02; xff] ++ list_byte_of_string name ++ [x00])%list.

Definition gzip (name : string) (mtime : Z) (x : bytes) : bytes :=
  (gzip_header name mtime ++ x)%list.

Fixpoint after_nul (x : bytes) : option bytes :=
  match x with
  | [] => None
  | c :: x' => if Byte.eqb c x00 then Some x' else after_nul x'
  end.

Definition gunzip (x : bytes) : option bytes :=
  match x with
  | m1 :: m2 :: cm :: flg :: _ :: _ :: _ :: _ :: _ :: _ :: rest =>
      if Byte.eqb m1 x1f && Byte.eqb m2 x8b
         && Byte.eqb cm x08 && Byte.eqb flg x08
      then after_nul rest else None
  | _ => None
  end.

(** JSON validation: the sample request bodies are looked up by name. *)
Definition edit_data (audio jacket chart preview background del_preview
                      del_background : bool) : ChartEditData.t :=
  {| ChartEditData.author := None; ChartEditData.rating := None;
     ChartEditData.title := None; ChartEditData.artists := None;
     ChartEditData.description := None; ChartEditData.tags := Some [];
     ChartEditData.includes_background := background;
     ChartEditData.includes_preview := preview;
     ChartEditData.delete_background := del_background;
     ChartEditData.delete_preview := del_preview;
     ChartEditData.includes_audio := audio;
     ChartEditData.includes_jacket := jacket;
     ChartEditData.includes_chart := chart |}.

Definition parse_edit (s : string) : string + ChartEditData.t :=
  if String.eqb s "{}" then inr (edit_data false false false false false false false)
  else if String.eqb s "audio" then inr (edit_data true false false false false false false)
  else if String.eqb s "jacket" then inr (edit_data false true false false false false false)
  else if String.eqb s "chart" then inr (edit_data false false true false false false false)
  else if String.eqb s "preview" then inr (edit_data false false false true false false false)
  else if String.eqb s "audio+preview"
  then inr (edit_data true false false true false false false)
  else if String.eqb s "preview+delete_preview"
  then inr (edit_data false false false true false true false)
  else if String.eqb s "delete_background"
  then inr (edit_data false false false false false false true)
  else inl "Invalid JSON".

Definition upload_data : ChartUploadData.t :=
  {| ChartUploadData.rating := 25; ChartUploadData.title := "Song";
     ChartUploadData.author := "charter"; ChartUploadData.artists := "band";
     ChartUploadData.tags := Some ["hard"];
     ChartUploadData.description := None;
     ChartUploadData.includes_background := false;
     ChartUploadData.includes_preview := false |}.

Definition parse_upload (s : string) : string + ChartUploadData.t :=
  if String.eqb s "song" then inr upload_data else inl "Invalid JSON".

(** Of the characters beyond ASCII, the stand-in knows the letters of
    Latin-1. *)
Definition latin1_letter (cp : Z) : bool :=
  (192 <=? cp)%Z && (cp <=? 255)%Z && negb (cp =? 215)%Z && negb (cp =? 247)%Z.

Definition X : Externals :=
  {| Score := bytes;
     calculate_sha1 := sha1;
     get_and_check_file := λ f _, inr (UploadFile.content f);
     generate_backgrounds_resize_jacket := resize;
     sus_load := λ x, inr x;
     usc_load := λ x, inr x;
     next_sekai_export := λ score, inr (gzip "LevelData" 0 score);
     gzip_compress := gzip;
     gzip_decompress := gunzip;
     upload_model_validate_json := parse_upload;
     edit_model_validate_json := parse_edit;
     unicode_isalnum := latin1_letter |}.

(** Format detection by a leading marker, in the shape each handler
    expects. *)
Definition kind_of (x : bytes) : option (string * string) :=
  let s := string_of_list_byte x in
  if String.prefix "#SUS" s then Some ("sus", "")
  else if String.prefix "usc:" s then Some ("usc", "")
  else if String.prefix "pysekai:" s then Some ("lvd", "pysekai")
  else if String.prefix "gz:pysekai:" s then Some ("lvd", "compress_pysekai")
  else if String.prefix "nextsekai:" s then Some ("lvd", "nextsekai")
  else if String.prefix "chcy:" s then Some ("lvd", "chcy")
  else None.

Definition detect_edit : bytes → option (string * string) := kind_of.

Definition detect_upload (x : bytes) : Upload.Detected :=
  match kind_of x with
  | Some (k, tag) =>
      {| Upload.valid := true;
         Upload.sus := String.eqb k "sus";
         Upload.usc := String.eqb k "usc";
         Upload.leveldata := String.eqb k "lvd";
         Upload.compressed := String.prefix "compress_" tag;
         Upload.ld_type :=
           if String.eqb k "lvd"
           then Some (if String.prefix "compress_" tag
                      then String.substring 9 (String.length tag - 9) tag
                      else tag)
           else None |}
  | None =>
      {| Upload.valid := false; Upload.sus := false; Upload.usc := false;
         Upload.leveldata := false; Upload.compressed := false;
         Upload.ld_type := None |}
  end.

Definition chart_id : string := "0123456789abcdef0123456789abcdef".

(** The stored chart: its jacket is the normalised image ["J"]. *)
Definition stored : ChartDBResponse.t :=
  {| ChartDBResponse.id := chart_id;
     ChartDBResponse.author := "alice";
     ChartDBResponse.jacket_file_hash := sha1 (b "J");
     ChartDBResponse.music_file_hash := sha1 (b "X");
     ChartDBResponse.chart_file_hash := sha1 (b "C");
     ChartDBResponse.background_v1_file_hash := sha1 (b "v1:J");
     ChartDBResponse.background_v3_file_hash := sha1 (b "v3:J");
     ChartDBResponse.preview_file_hash := None;
     ChartDBResponse.background_file_hash := Some (sha1 (b "B")) |}.

Definition app (debug : bool) : App :=
  {| debug := debug;
     db_get_chart_by_id := λ id, if String.eqb id chart_id then Some stored else None;
     db_create_chart := λ c, Some (Chart.id c);
     s3_objects := λ prefix,
       if String.eqb prefix "alice/0123456789abcdef0123456789abcdef/replays/"
       then ["alice/0123456789abcdef0123456789abcdef/replays/bob/r1"]
       else [];
     uuid4 := "01234567-89ab-cdef-0123-456789abcdef";
     now := 1000 |}.

Definition session : Session.t :=
  {| Session.sonolus_id := "alice";
     Session.user := {| Account.sonolus_id := "alice";
                        Account.chart_upload_cooldown := None |} |}.

Definition file (s : string) : UploadFile.t :=
  {| UploadFile.size := len_list (b s); UploadFile.content := b s |}.

(** An edit request with the given body and files. *)
Definition edit (data : string)
  (chart jacket audio preview background : option UploadFile.t) : Edit.Request :=
  {| Edit.id := chart_id; Edit.data := data; Edit.jacket_image := jacket;
     Edit.chart_file := chart; Edit.audio_file := audio;
     Edit.preview_file := preview; Edit.background_image := background |}.

(** An upload request with the given chart script. *)
Definition upload (chart : UploadFile.t) : Upload.Request :=
  {| Upload.jacket_image := file "J"; Upload.chart_file := chart;
     Upload.audio_file := file "X"; Upload.data := "song";
     Upload.preview_file := None; Upload.background_image := None |}.

Definition run_edit (debug : bool) (r : Edit.Request)
  : M (list (string * string)) :=
  Edit.main X detect_edit (app debug) session r.

Definition run_upload (debug : bool) (r : Upload.Request)
  : M (list (string * string)) :=
  Upload.main X detect_upload (app debug) session r.

End Sample.

(** * Vocabulary of the properties *)

(** In the trace, every event satisfying [P] comes before every event
    satisfying [Q]. *)
Definition all_before (P Q : event → bool) (tr : list event) : Prop :=
  ∀ i j e1 e2,
    tr !! i = Some e1 → tr !! j = Some e2 →
    P e1 = true → Q e2 = true → (i < j)%nat.

Definition no_s3 (tr : list event) : Prop := Forall (λ e, is_s3 e = false) tr.
Definition no_db (tr : list event) : Prop := Forall (λ e, is_db e = false) tr.
Definition no_db_write (tr : list event) : Prop :=
  Forall (λ e, is_db_write e = false) tr.

(** A step that calls nothing outside raises. *)
Definition fails {A} (r : exn + A) : Prop :=
  match r with inl _ => True | inr _ => False end.

(** The request is rejected and neither store has been called. *)
Definition rejected_before_io {A} (m : M A) : Prop :=
  raises m ∧ no_s3 (trace m) ∧ no_db (trace m).

(** The request is rejected and nothing has been changed: no object-store
    call, no database write. *)
Definition rejected_before_mutation {A} (m : M A) : Prop :=
  raises m ∧ no_s3 (trace m) ∧ no_db_write (trace m).

(** The number of upload operations issued on a key. *)
Definition is_upload_to (key : string) (e : event) : bool :=
  match e with
  | EvS3 (s3_upload k _ _) => String.eqb k key
  | _ => false
  end.

Definition uploads_to (key : string) (tr : list event) : nat :=
  length (List.filter (is_upload_to key) tr).

(** An entry of [s3_uploads] whose path is the key of its hash. *)
Definition keyed (key_of : string → string) (f : S3File.t) : Prop :=
  S3File.path f = key_of (S3File.hash f).

(** The file is attached and larger than the limit of its kind. *)
Definition over_limit (kind : string) (f : option UploadFile.t) : bool :=
  match f with
  | Some f => (UploadFile.size f >? MAX_FILE_SIZES !!! kind)%Z
  | None => false
  end.

Definition attached (f : option UploadFile.t) : bool :=
  match f with Some _ => true | None => false end.

Module EditSpec.
Import Edit.

(** Some submitted file exceeds the maximum of its kind. *)
Definition oversize (r : Request) : bool :=
  over_limit "chart" (chart_file r) || over_limit "jacket" (jacket_image r)
  || over_limit "audio" (audio_file r) || over_limit "preview" (preview_file r)
  || over_limit "background" (background_image r).

(** The intent flags disagree with the files attached: a flag without its
    file, a file without its flag, or include and delete at once. *)
Definition flag_without_file (r : Request) (d : ChartEditData.t) : bool :=
  ChartEditData.includes_chart d && negb (attached (chart_file r))
  || ChartEditData.includes_jacket d && negb (attached (jacket_image r))
  || ChartEditData.includes_audio d && negb (attached (audio_file r))
  || ChartEditData.includes_preview d && negb (attached (preview_file r))
  || ChartEditData.includes_background d && negb (attached (background_image r)).

Definition file_without_flag (r : Request) (d : ChartEditData.t) : bool :=
  attached (chart_file r) && negb (ChartEditData.includes_chart d)
  || attached (jacket_image r) && negb (ChartEditData.includes_jacket d)
  || attached (audio_file r) && negb (ChartEditData.includes_audio d)
  || attached (preview_file r) && negb (ChartEditData.includes_preview d)
  || attached (background_image r) && negb (ChartEditData.includes_background d).

Definition include_and_delete (d : ChartEditData.t) : bool :=
  ChartEditData.includes_preview d && ChartEditData.delete_preview d
  || ChartEditData.includes_background d && ChartEditData.delete_background d.

Definition inconsistent (r : Request) (d : ChartEditData.t) : bool :=
  flag_without_file r d || file_without_flag r d || include_and_delete d.

(** The chart script or the audio is submitted. *)
Definition submits_chart_or_audio (r : Request) : bool :=
  attached (chart_file r) || attached (audio_file r).

(** Every replay blob listed under the chart's prefix is deleted. *)
Definition replays_deleted (app : App) (old : ChartDBResponse.t)
  (tr : list event) : Prop :=
  ∀ key, key ∈ s3_objects app (replays_prefix old) → EvS3 (s3_delete key) ∈ tr.

(** The leaderboard records of the chart are deleted. *)
Definition leaderboards_deleted (old : ChartDBResponse.t) (tr : list event)
  : Prop :=
  EvDbExecute (delete_leaderboards (ChartDBResponse.id old)) ∈ tr.

(** A hash variable is either unbound, or the hash of an entry of
    [s3_uploads], or the hash stored for its slot. *)
Definition pointer_ok (uploads : list S3File.t) (v stored : option string)
  : Prop :=
  ∀ h, v = Some h → h ∈ map S3File.hash uploads ∨ stored = Some h.

(** The locals after any number of blocks: every entry of [s3_uploads] is
    stored under the key of its hash, and every hash variable is accounted
    for. *)
Definition staged_ok (key_of : string → string) (old : ChartDBResponse.t)
  (l : Locals) : Prop :=
  Forall (keyed key_of) (s3_uploads l)
  ∧ pointer_ok (s3_uploads l) (chart_hash l)
      (Some (ChartDBResponse.chart_file_hash old))
  ∧ pointer_ok (s3_uploads l) (jacket_hash l)
      (Some (ChartDBResponse.jacket_file_hash old))
  ∧ pointer_ok (s3_uploads l) (v1_hash l)
      (Some (ChartDBResponse.background_v1_file_hash old))
  ∧ pointer_ok (s3_uploads l) (v3_hash l)
      (Some (ChartDBResponse.background_v3_file_hash old))
  ∧ pointer_ok (s3_uploads l) (audio_hash l)
      (Some (ChartDBResponse.music_file_hash old))
  ∧ pointer_ok (s3_uploads l) (preview_hash l)
      (ChartDBResponse.preview_file_hash old)
  ∧ pointer_ok (s3_uploads l) (background_hash l)
      (ChartDBResponse.background_file_hash old).


(** An entry of [s3_uploads] carries the hash of its bytes. *)
Definition hashed (X : Externals) (f : S3File.t) : Prop :=
  S3File.hash f = calculate_sha1 X (S3File.bytes_ f).



Section staged.

Context (X : Externals) (detect : bytes → option (string * string))
  (r : Request) (d : ChartEditData.t) (old : ChartDBResponse.t).

(** What the blocks leave in the locals.  Each binds the hash variable of
    its slot to the hash of the bytes it derives from the attached file,
    keeps the variables of the other slots, only appends to [s3_uploads],
    and appends entries that carry the hash of their bytes. *)
Definition grows (l l' : Locals) : Prop :=
  (∀ f, f ∈ s3_uploads l → f ∈ s3_uploads l')
  ∧ (Forall (hashed X) (s3_uploads l) → Forall (hashed X) (s3_uploads l')).






End staged.

(** A level-data payload whose producer tag the edit handler refuses. *)
Definition foreign_leveldata (result : string * string) : bool :=
  String.eqb (fst result) "lvd" && negb (endswith (snd result) "pysekai").

(** An uncompressed level-data payload of the producer the edit handler
    expects. *)
Definition plain_leveldata (result : string * string) : bool :=
  String.eqb (fst result) "lvd" && endswith (snd result) "pysekai"
  && negb (startswith (snd result) "compress_").

End EditSpec.

Module UploadSpec.
Import Upload.

(** Some submitted file exceeds the maximum of its kind. *)
Definition oversize (r : Request) : bool :=
  over_limit "jacket" (Some (jacket_image r))
  || over_limit "chart" (Some (chart_file r))
  || over_limit "audio" (Some (audio_file r))
  || over_limit "preview" (preview_file r)
  || over_limit "background" (background_image r).

(** The script is recognised as level data (and as no script dialect). *)
Definition is_leveldata (det : Detected) : bool :=
  negb (sus det) && negb (usc det) && leveldata det.

(** A level-data payload of another producer than the upload handler
    expects. *)
Definition foreign_leveldata (det : Detected) : bool :=
  is_leveldata det && negb (bool_decide (ld_type det = Some "nextsekai")).

(** The hashes the inserted row points at. *)
Definition slot_hashes (c : Chart.t) : list string :=
  [ Chart.jacket_file_hash c; Chart.music_file_hash c; Chart.chart_file_hash c;
    Chart.background_v1_file_hash c; Chart.background_v3_file_hash c ]
  ++ option_list (Chart.preview_file_hash c)
  ++ option_list (Chart.background_file_hash c).

End UploadSpec.

(** * api/charts/{id}/leaderboards.py *)

Module Leaderboards.

Local Open Scope handler_scope.

(** Python floats are not modelled: the handlers' float arithmetic is
    written over this interface, one field per operation the source
    uses. *)
Record FloatOps : Type := {
  float : Type;
  (** a float literal, by its text *)
  float_lit : string → float;
  (** [x * y], [x - y] and [x + y] *)
  fmul : float → float → float;
  fsub : float → float → float;
  fadd : float → float → float;
  (** the conversion of an int operand in mixed arithmetic; it raises for
      an int too large *)
  float_of_int : Z → exn + float;
  (** [int(x)]; it raises for a NaN or an infinity *)
  int_of_float : float → exn + Z;
  (** [n / m] on two ints *)
  truediv : Z → Z → exn + float;
  (** [x < n] for an int [n] *)
  flt_int : float → Z → bool;
}.

(** A value annotated [int | float]. *)
Inductive number (F : Type) : Type :=
| Int (n : Z)
| Float (x : F).
Arguments Int {F} n.
Arguments Float {F} x.

(** Of [GameplayResult], every field. *)
Module GameplayResult.
Record t (F : Type) : Type := mk {
  grade : string;
  arcadeScore : number F;
  accuracyScore : number F;
  combo : number F;
  perfect : number F;
  great : number F;
  good : number F;
  miss : number F;
  totalCount : number F;
}.
Arguments grade {F} _.
Arguments arcadeScore {F} _.
Arguments accuracyScore {F} _.
Arguments perfect {F} _.
Arguments great {F} _.
Arguments good {F} _.
Arguments miss {F} _.
End GameplayResult.

(** The arguments of the call [LeaderboardRecord(...)], as they are
    passed. *)
Module LeaderboardRecord.
Record t (F : Type) : Type := mk {
  submitter : string;
  replay_data_hash : string;
  replay_config_hash : string;
  chart_id : string;
  engine : string;
  grade : string;
  nperfect : number F;
  ngreat : number F;
  ngood : number F;
  nmiss : number F;
  arcade_score : number F;
  accuracy_score : number F;
  speed : option F;
  display_name : string;
  public_chart : bool;
}.
Arguments mk {F}.
Arguments submitter {F} _.
Arguments replay_data_hash {F} _.
Arguments replay_config_hash {F} _.
Arguments chart_id {F} _.
Arguments speed {F} _.
Arguments public_chart {F} _.
End LeaderboardRecord.

(** Of [LeaderboardRecordDBResponse], the fields the handlers read. *)
Module RecordRow.
Record t (F : Type) : Type := mk {
  id : Z;
  submitter : string;
  chart_id : string;
  replay_data_hash : string;
  replay_config_hash : string;
  arcade_score : Z;
  speed : F;
  owner : option bool;
}.
Arguments mk {F}.
Arguments id {F} _.
Arguments submitter {F} _.
Arguments chart_id {F} _.
Arguments replay_data_hash {F} _.
Arguments replay_config_hash {F} _.
Arguments arcade_score {F} _.
Arguments speed {F} _.
Arguments owner {F} _.
End RecordRow.

(** Of the chart row, the fields the handlers read. *)
Module ChartRow.
Record t : Type := mk {
  id : string;
  author : string;
  status : string;
  title : string;
}.
End ChartRow.

Module PublicAccount.
Record t : Type := mk {
  sonolus_id : string;
  sonolus_username : string;
}.
End PublicAccount.

(** The session: [sonolus_id] is [None] for an anonymous caller; [mod_]
    and [admin] are [mod] and [admin] of [await session.user()]. *)
Module Session.
Record t : Type := mk {
  sonolus_id : option string;
  mod_ : bool;
  admin : bool;
}.
End Session.

(** The arguments of [leaderboards.get_leaderboards_for_chart]. *)
Module PageArgs.
Record t : Type := mk {
  id : string;
  limit : Z;
  page : Z;
  leaderboard_type : string;
  sonolus_id : option string;
}.
End PageArgs.

Section handlers.

Context (FO : FloatOps).

#[local] Abbreviation F := (float FO).

(** The queries the handlers build. *)
Inductive query : Type :=
| get_chart_by_id (id : string)
| get_user_leaderboard_record_for_chart (id user_id : string)
| delete_leaderboard_record (record_id : Z)
| create_leaderboard_record (record : LeaderboardRecord.t F)
| leaderboards_query (a : PageArgs.t)
| count_query (a : PageArgs.t)
| get_public_account_batch (sonolus_ids : list string)
| get_leaderboard_record_by_id (id : string) (record_id : Z)
    (sonolus_id : option string)
| get_public_account (sonolus_id : string).

(** What a handler does to the outside, one event per awaited call; the
    tasks of [asyncio.gather] in the order of the list. *)
Inductive event : Type :=
| EvSessionUser
| EvFetchrow (q : query)
| EvFetch (q : query)
| EvExecute (q : query)
| EvUpload (key : string) (body : bytes) (content_type : string)
| EvDeleteObjects (keys : list string).

Definition is_write (e : event) : bool :=
  match e with
  | EvExecute _ | EvUpload _ _ _ | EvDeleteObjects _ => true
  | _ => false
  end.

Definition is_s3 (e : event) : bool :=
  match e with
  | EvUpload _ _ _ | EvDeleteObjects _ => true
  | _ => false
  end.

(** The handler monad over these events. *)
Definition M (A : Type) : Type := list event * (exn + A).

Definition ret {A} (a : A) : M A := ([], inr a).

Definition bind {A B} (m : M A) (f : A → M B) : M B :=
  match m with
  | (tr, inl e) => (tr, inl e)
  | (tr, inr a) => let '(tr', r) := f a in ((tr ++ tr')%list, r)
  end.

Definition raise {A} (e : exn) : M A := ([], inl e).

Definition emit (e : event) : M unit := ([e], inr tt).

Definition lift {A} (r : exn + A) : M A := ([], r).

Definition trace {A} (m : M A) : list event := fst m.
Definition outcome {A} (m : M A) : exn + A := snd m.

(** What the handlers import, and what the stores answer. *)
Record Imports : Type := {
  (** [gzip.decompress] *)
  gzip_decompress : bytes → exn + bytes;
  (** [ReplayData.model_validate_json]: of the replay, its [result] *)
  replay_model_validate_json : bytes → exn + GameplayResult.t F;
  (** [helpers.hashing.calculate_sha1] *)
  calculate_sha1 : bytes → string;
  (** pydantic's validation of the call [LeaderboardRecord(...)]: the
      exception it raises, if any *)
  leaderboard_record_validate : LeaderboardRecord.t F → option exn;
  (** [app.auth] and [app.s3_asset_base_url] *)
  auth : string;
  s3_asset_base_url : string;
  (** the rows the queries return *)
  db_chart_by_id : string → option ChartRow.t;
  db_user_record : string → string → option (RecordRow.t F);
  db_total_count : PageArgs.t → Z;
  db_records : PageArgs.t → list (RecordRow.t F);
  db_accounts : list string → list PublicAccount.t;
  db_record_by_id : string → Z → option string → option (RecordRow.t F);
  db_public_account : string → option PublicAccount.t;
  (** the exception [conn.execute] raises for a statement, if any, and the
      one [asyncio.gather] raises for a batch of blob tasks, if any *)
  db_execute_raises : query → option exn;
  s3_gather_raises : list event → option exn;
  (** [str.isalnum] of one character beyond ASCII, by its code point: the
      answer of Python's Unicode database *)
  unicode_isalnum : Z → bool;
}.

Context (I : Imports).

(** [speed_multiplier] (lines 30-43). *)
Definition speed_multiplier (speed : option F) : exn + F :=
  match speed with
  | None => inr (float_lit FO "1.0")
  | Some speed =>
      try ten <- float_of_int FO 10;
      try n <- int_of_float FO (fmul FO speed ten);
      try tier <- truediv FO n 10;
      if flt_int FO tier 1 then inr (fsub FO tier (float_lit FO "0.4"))
      else inr (fadd FO (float_lit FO "1.0")
                  (fmul FO (fsub FO tier (float_lit FO "1.0"))
                     (float_lit FO "0.075")))
  end.

(** [int(score * speed_multiplier(speed))] (lines 86-88). *)
Definition weighted_score (score : number F) (speed : option F) : exn + Z :=
  try multiplier <- speed_multiplier speed;
  try product <-
    match score with
    | Int n => try x <- float_of_int FO n; inr (fmul FO x multiplier)
    | Float x => inr (fmul FO x multiplier)
    end;
  int_of_float FO product.

(** The arguments of [upload_replay]; [header] is
    [request.headers.get(app.auth_header)]. *)
Record ReplayRequest : Type := {
  id : string;
  header : option string;
  user_id : string;
  display_name : string;
  engine_name : string;
  speed : option F;
  replay_data : UploadFile.t;
  replay_config : UploadFile.t;
}.

(** The key of a replay blob:
    [f"{chart.author}/{chart.id}/replays/{user_id}/{hash}"]. *)
Definition replay_key (chart : ChartRow.t) (user_id hash : string) : string :=
  ChartRow.author chart +:+ "/" +:+ ChartRow.id chart +:+ "/replays/"
  +:+ user_id +:+ "/" +:+ hash.

(** [len(id) != 32 or not id.isalnum()] *)
Definition bad_chart_id (id : string) : bool :=
  negb (len_str id =? 32)%Z || negb (isalnum (unicode_isalnum I) id).

(** [await conn.execute(q)]: the statement is sent, and may raise. *)
Definition execute (q : query) : M unit :=
  ([EvExecute q],
   match db_execute_raises I q with
   | Some e => inl e
   | None => inr tt
   end).

(** [await asyncio.gather( *tasks)]: every task is started, and the first
    exception of one of them, if any, is raised. *)
Definition gather (tasks : list event) : M unit :=
  (tasks,
   match s3_gather_raises I tasks with
   | Some e => inl e
   | None => inr tt
   end).

Definition invalid_chart_id : exn :=
  HTTPException HTTP_400_BAD_REQUEST "Invalid chart ID.".

(** The two uploads of lines 99-106, under [replay_data_hash] and
    [replay_config_hash]. *)
Definition replay_uploads (r : ReplayRequest) (chart : ChartRow.t)
  : list event :=
  [ EvUpload
      (replay_key chart (user_id r)
         (calculate_sha1 I (UploadFile.content (replay_data r))))
      (UploadFile.content (replay_data r)) "application/gzip";
    EvUpload
      (replay_key chart (user_id r)
         (calculate_sha1 I (UploadFile.content (replay_config r))))
      (UploadFile.content (replay_config r)) "application/gzip" ].

(** The keys of [batch] (lines 109-116): the blobs of the record in
    place. *)
Definition old_replay_keys (r : ReplayRequest) (chart : ChartRow.t)
  (curr : RecordRow.t F) : list string :=
  [ replay_key chart (user_id r) (RecordRow.replay_data_hash curr);
    replay_key chart (user_id r) (RecordRow.replay_config_hash curr) ].

(** [tasks], as [asyncio.gather] receives them (line 120). *)
Definition replay_tasks (r : ReplayRequest) (chart : ChartRow.t)
  (curr_record : option (RecordRow.t F)) : list event :=
  match curr_record with
  | Some curr =>
      (replay_uploads r chart
       ++ [EvDeleteObjects (old_replay_keys r chart curr)])%list
  | None => replay_uploads r chart
  end.

(** The arguments of [LeaderboardRecord(...)] (lines 125-141). *)
Definition new_record (r : ReplayRequest) (replay : GameplayResult.t F)
  (chart : ChartRow.t) : LeaderboardRecord.t F :=
  LeaderboardRecord.mk (user_id r)
    (calculate_sha1 I (UploadFile.content (replay_data r)))
    (calculate_sha1 I (UploadFile.content (replay_config r)))
    (id r) (engine_name r) (GameplayResult.grade replay)
    (GameplayResult.perfect replay) (GameplayResult.great replay)
    (GameplayResult.good replay) (GameplayResult.miss replay)
    (GameplayResult.arcadeScore replay)
    (GameplayResult.accuracyScore replay) (speed r) (display_name r)
    (String.eqb (ChartRow.status chart) "PUBLIC").

(** Lines 93-145 of [upload_replay]: the blobs and the new record. *)
Definition store_replay (r : ReplayRequest) (replay : GameplayResult.t F)
  (chart : ChartRow.t) (curr_record : option (RecordRow.t F))
  : M (list (string * string)) :=
  bind (gather (replay_tasks r chart curr_record)) (λ _,
  match leaderboard_record_validate I (new_record r replay chart) with
  | Some e => raise e
  | None =>
      bind (execute (create_leaderboard_record (new_record r replay chart)))
        (λ _, ret [("status", "ok")])
  end).

(** [upload_replay] (lines 46-145).  The chart row is used without a test
    for [None]: reading [chart.status] of no row raises
    [AttributeError]. *)
Definition upload_replay (r : ReplayRequest) : M (list (string * string)) :=
  if negb (bool_decide (header r = Some (auth I))) then
    raise (HTTPException 401 "the")
  else if bad_chart_id (id r) then raise invalid_chart_id
  else
    bind (lift (gzip_decompress I (UploadFile.content (replay_data r))))
      (λ decompressed,
    bind (lift (replay_model_validate_json I decompressed)) (λ replay,
    bind (emit (EvFetchrow (get_chart_by_id (id r)))) (λ _,
    match db_chart_by_id I (id r) with
    | None =>
        raise (PyException "'NoneType' object has no attribute 'status'")
    | Some chart =>
        if String.eqb (ChartRow.status chart) "PRIVATE"
           && negb (String.eqb (ChartRow.author chart) (user_id r))
        then raise (HTTPException HTTP_403_FORBIDDEN "This chart is private.")
        else
          bind (emit (EvFetchrow
                        (get_user_leaderboard_record_for_chart (id r)
                           (user_id r)))) (λ _,
          match db_user_record I (id r) (user_id r) with
          | Some curr =>
              bind (lift (weighted_score (Int (RecordRow.arcade_score curr))
                            (Some (RecordRow.speed curr)))) (λ old_score,
              bind (lift (weighted_score (GameplayResult.arcadeScore replay)
                            (speed r))) (λ new_score,
              if (old_score >=? new_score)%Z then ret [("status", "unchanged")]
              else
                bind (execute (delete_leaderboard_record (RecordRow.id curr)))
                  (λ _, store_replay r replay chart (Some curr))))
          | None => store_replay r replay chart None
          end)
    end))).

(** The value [get_leaderboards] returns. *)
Record Page : Type := {
  pageCount : Z;
  data : list (RecordRow.t F * option PublicAccount.t);
}.

(** The dictionary [{account.sonolus_id: account for account in ...}]: a
    later account replaces an earlier one of the same id. *)
Definition account_dict (accounts : list PublicAccount.t)
  : gmap string PublicAccount.t :=
  foldl (λ m account, <[PublicAccount.sonolus_id account := account]> m)
    ∅ accounts.

(** [list(set([record.submitter for record in records]))] *)
Definition distinct_submitters (records : list (RecordRow.t F)) : list string :=
  elements (list_to_set (map RecordRow.submitter records) : gset string).

(** [get_leaderboards] (lines 148-196); [limit] is [int(limit)], 3 or
    10. *)
Definition get_leaderboards (id : string) (page limit : Z)
  (leaderboard_type : string) (session : Session.t) : M Page :=
  if bad_chart_id id then raise invalid_chart_id
  else
    let a :=
      {| PageArgs.id := id; PageArgs.limit := limit; PageArgs.page := page;
         PageArgs.leaderboard_type := leaderboard_type;
         PageArgs.sonolus_id := Session.sonolus_id session |} in
    bind (emit (EvFetchrow (count_query a))) (λ _,
    let total_count := db_total_count I a in
    if (total_count =? 0)%Z then ret {| pageCount := 0; data := [] |}
    else if (page * 10 >=? total_count)%Z then
      ret {| pageCount := (total_count + 9) `div` 10; data := [] |}
    else
      bind (emit (EvFetch (leaderboards_query a))) (λ _,
      let records := db_records I a in
      bind (emit (EvFetch (get_public_account_batch
                             (distinct_submitters records)))) (λ _,
      let accounts := account_dict (db_accounts I (distinct_submitters records)) in
      ret {| pageCount := (total_count + 9) `div` 10;
             data := map (λ row, (row, accounts !! RecordRow.submitter row))
                       records |}))).

(** The value [get_record] returns; [mod] is the key added to [data] for
    a signed-in caller. *)
Record RecordView : Type := {
  view_data : RecordRow.t F;
  view_mod : option bool;
  view_chart : ChartRow.t;
  view_submitter : option PublicAccount.t;
  view_asset_base_url : string;
}.

(** An [Optional[str]] compared with [!=] to a text. *)
Definition differs (author : string) (sonolus_id : option string) : bool :=
  negb (bool_decide (sonolus_id = Some author)).

(** [get_record] (lines 199-246). *)
Definition get_record (id : string) (record_id : Z) (session : Session.t)
  : M RecordView :=
  if bad_chart_id id then raise invalid_chart_id
  else
    bind (emit (EvFetchrow
                  (get_leaderboard_record_by_id id record_id
                     (Session.sonolus_id session)))) (λ _,
    match db_record_by_id I id record_id (Session.sonolus_id session) with
    | None => raise (HTTPException 404 "Not Found")
    | Some leaderboard_record =>
        bind (emit (EvFetchrow
                      (get_chart_by_id (RecordRow.chart_id leaderboard_record))))
          (λ _,
        bind (emit (EvFetchrow
                      (get_public_account
                         (RecordRow.submitter leaderboard_record)))) (λ _,
        match db_chart_by_id I (RecordRow.chart_id leaderboard_record) with
        | None => raise (HTTPException 404 "unknown chart")
        | Some chart =>
            if String.eqb (ChartRow.status chart) "PRIVATE"
               && differs (ChartRow.author chart) (Session.sonolus_id session)
            then raise (HTTPException HTTP_403_FORBIDDEN
                          "You don't have access to this chart")
            else
              let view is_mod :=
                {| view_data := leaderboard_record; view_mod := is_mod;
                   view_chart := chart;
                   view_submitter :=
                     db_public_account I (RecordRow.submitter leaderboard_record);
                   view_asset_base_url := s3_asset_base_url I |} in
              if truthy_str (Session.sonolus_id session) then
                bind (emit EvSessionUser) (λ _,
                ret (view (Some (Session.mod_ session || Session.admin session))))
              else ret (view None)
        end))
    end).

(** The value [delete_record] returns: the row with the keys [mod] and,
    for a moderator, [chart_title]. *)
Record Deleted : Type := {
  deleted_data : RecordRow.t F;
  deleted_mod : bool;
  deleted_chart_title : option string;
}.

(** Truthiness of an [Optional[bool]]. *)
Definition truthy_bool (o : option bool) : bool := default false o.

(** [delete_record] (lines 249-289). *)
Definition delete_record (id : string) (record_id : Z) (session : Session.t)
  : M Deleted :=
  if bad_chart_id id then raise invalid_chart_id
  else
    bind (emit (EvFetchrow
                  (get_leaderboard_record_by_id id record_id
                     (Session.sonolus_id session)))) (λ _,
    match db_record_by_id I id record_id (Session.sonolus_id session) with
    | None => raise (HTTPException 404 "Not Found")
    | Some leaderboard_record =>
        bind (emit EvSessionUser) (λ _,
        if negb (truthy_bool (RecordRow.owner leaderboard_record)
                 || Session.mod_ session || Session.admin session)
        then raise (HTTPException HTTP_403_FORBIDDEN "Forbidden")
        else
          bind (execute (delete_leaderboard_record record_id)) (λ _,
          bind (emit EvSessionUser) (λ _,
          let is_mod := Session.mod_ session || Session.admin session in
          if is_mod then
            bind (emit (EvFetchrow
                          (get_chart_by_id
                             (RecordRow.chart_id leaderboard_record)))) (λ _,
            match db_chart_by_id I (RecordRow.chart_id leaderboard_record) with
            | None =>
                raise (PyException
                         "'NoneType' object has no attribute 'title'")
            | Some chart =>
                ret {| deleted_data := leaderboard_record; deleted_mod := is_mod;
                       deleted_chart_title := Some (ChartRow.title chart) |}
            end)
          else
            ret {| deleted_data := leaderboard_record; deleted_mod := is_mod;
                   deleted_chart_title := None |})))
    end).

End handlers.

Arguments EvSessionUser {FO}.
Arguments EvFetchrow {FO}.
Arguments EvFetch {FO}.
Arguments EvExecute {FO}.
Arguments EvUpload {FO}.
Arguments EvDeleteObjects {FO}.
Arguments get_chart_by_id {FO}.
Arguments get_user_leaderboard_record_for_chart {FO}.
Arguments delete_leaderboard_record {FO}.
Arguments create_leaderboard_record {FO}.
Arguments leaderboards_query {FO}.
Arguments count_query {FO}.
Arguments get_public_account_batch {FO}.
Arguments get_leaderboard_record_by_id {FO}.
Arguments get_public_account {FO}.
Arguments is_write {FO}.
Arguments is_s3 {FO}.
Arguments trace {FO A}.
Arguments outcome {FO A}.
Arguments id {FO}.
Arguments header {FO}.
Arguments user_id {FO}.
Arguments display_name {FO}.
Arguments engine_name {FO}.
Arguments speed {FO}.
Arguments replay_data {FO}.
Arguments replay_config {FO}.
Arguments gzip_decompress {FO}.
Arguments replay_model_validate_json {FO}.
Arguments calculate_sha1 {FO}.
Arguments leaderboard_record_validate {FO}.
Arguments auth {FO}.
Arguments s3_asset_base_url {FO}.
Arguments db_chart_by_id {FO}.
Arguments db_user_record {FO}.
Arguments db_total_count {FO}.
Arguments db_records {FO}.
Arguments db_accounts {FO}.
Arguments db_record_by_id {FO}.
Arguments db_public_account {FO}.
Arguments speed_multiplier {FO}.
Arguments weighted_score {FO}.
Arguments replay_uploads {FO}.
Arguments old_replay_keys {FO}.
Arguments replay_tasks {FO}.
Arguments bad_chart_id {FO}.
Arguments execute {FO}.
Arguments gather {FO}.
Arguments db_execute_raises {FO}.
Arguments s3_gather_raises {FO}.
Arguments unicode_isalnum {FO}.
Arguments new_record {FO}.
Arguments store_replay {FO}.
Arguments upload_replay {FO}.
Arguments pageCount {FO}.
Arguments data {FO}.
Arguments distinct_submitters {FO}.
Arguments get_leaderboards {FO}.
Arguments view_data {FO}.
Arguments view_mod {FO}.
Arguments view_chart {FO}.
Arguments view_submitter {FO}.
Arguments view_asset_base_url {FO}.
Arguments get_record {FO}.
Arguments deleted_data {FO}.
Arguments deleted_mod {FO}.
Arguments deleted_chart_title {FO}.
Arguments delete_record {FO}.

End Leaderboards.

(** * scripts/database_setup.py *)

Module DatabaseSetup.

(** What [connection.execute] does with a statement: it returns, or it
    raises one of the two asyncpg exceptions the loop names, or it raises
    something else. *)
Inductive answer : Type :=
| Executed
| InsufficientPrivilegeError (message : string)
| PostgresSyntaxError (message : string)
| OtherError (e : exn).

(** What the script does, in order: a line printed, a statement sent. *)
Inductive output : Type :=
| Print (line : string)
| Execute (query : string).

(** The loop of lines 277-284, over the statements, each with the answer
    the server gives when it is sent. *)
Fixpoint run_queries (queries : list (string * answer))
  : list output * option exn :=
  match queries with
  | [] => ([], None)
  | (query, a) :: rest =>
      match a with
      | Executed =>
          let '(out, r) := run_queries rest in (Execute query :: out, r)
      | InsufficientPrivilegeError e =>
          let '(out, r) := run_queries rest in
          (Execute query :: Print ("Permission denied: " +:+ e) :: out, r)
      | PostgresSyntaxError e =>
          ([Execute query; Print query], Some (PyException e))
      | OtherError e => ([Execute query], Some e)
      end
  end.

(** [main] (lines 12-285), once the pool is created. *)
Definition main (queries : list (string * answer))
  : list output * option exn :=
  match run_queries queries with
  | (out, None) => ((Print "Connected!" :: out ++ [Print "Done!"])%list, None)
  | (out, Some e) => (Print "Connected!" :: out, Some e)
  end.

(** The statements sent, in order. *)
Definition executed (out : list output) : list string :=
  omap (λ o, match o with Execute query => Some query | Print _ => None end)
    out.

(** The answers after which the loop goes on. *)
Definition benign (a : answer) : bool :=
  match a with
  | Executed | InsufficientPrivilegeError _ => true
  | PostgresSyntaxError _ | OtherError _ => false
  end.

(** The exception an answer raises out of the loop. *)
Definition raised (a : answer) : option exn :=
  match a with
  | PostgresSyntaxError e => Some (PyException e)
  | OtherError e => Some e
  | Executed | InsufficientPrivilegeError _ => None
  end.

End DatabaseSetup.

(** * Vocabulary of the further properties *)

(** What [str(uuid.uuid4())] looks like: five blocks of lower-case
    hexadecimal digits, of 8, 4, 4, 4 and 12 characters, joined by
    dashes. *)
Definition is_hex_lower (c : ascii) : bool :=
  let n := nat_of_ascii c in
  ((48 <=? n) && (n <=? 57) || (97 <=? n) && (n <=? 102))%nat.

Definition hex_block (n : nat) (s : string) : Prop :=
  String.length s = n ∧ all_chars is_hex_lower s = true.

Definition is_uuid (s : string) : Prop :=
  ∃ a b c d e,
    hex_block 8 a ∧ hex_block 4 b ∧ hex_block 4 c ∧ hex_block 4 d
    ∧ hex_block 12 e
    ∧ s = a +:+ "-" +:+ b +:+ "-" +:+ c +:+ "-" +:+ d +:+ "-" +:+ e.

(** The id check shared by the handlers that take a chart id:
    [len(id) != 32 or not id.isalnum()] is false. *)
Definition valid_chart_id (unicode_isalnum : Z → bool) (id : string) : bool :=
  (len_str id =? 32)%Z && isalnum unicode_isalnum id.

(** A text field, when present and not empty, is at most [n] long. *)
Definition within (n : Z) (o : option string) : Prop :=
  ∀ s, o = Some s → (len_str s ≤ n)%Z.

(** The key of an operation on the bucket. *)
Definition s3_key (op : s3_op) : string :=
  match op with
  | s3_delete key => key
  | s3_upload key _ _ => key
  end.

(** The uploader is on cooldown: a cooldown is set, the application is not
    in debug mode and the cooldown lies in the future. *)
Definition upload_on_cooldown (app : App) (session : Session.t) : bool :=
  match Account.chart_upload_cooldown (Session.user session) with
  | Some cooldown => negb (debug app) && (now app <? cooldown)%Z
  | None => false
  end.

(** The prefix of every blob key of a chart: [f"{session.sonolus_id}/{id}/"]. *)
Definition chart_prefix (session : Session.t) (id : string) : string :=
  Session.sonolus_id session +:+ "/" +:+ id +:+ "/".

(** An edit request that attaches no file. *)
Definition no_files (r : Edit.Request) : Prop :=
  Edit.chart_file r = None ∧ Edit.jacket_image r = None
  ∧ Edit.audio_file r = None ∧ Edit.preview_file r = None
  ∧ Edit.background_image r = None.

(** An edit body that sets no includes flag. *)
Definition no_includes (d : ChartEditData.t) : Prop :=
  ChartEditData.includes_chart d = false
  ∧ ChartEditData.includes_jacket d = false
  ∧ ChartEditData.includes_audio d = false
  ∧ ChartEditData.includes_preview d = false
  ∧ ChartEditData.includes_background d = false.

(** The slots an edit without files removes. *)
Definition removed_slots (d : ChartEditData.t) : list string :=
  (if ChartEditData.delete_preview d then ["preview_file_hash"] else [])
  ++ (if ChartEditData.delete_background d then ["background_file_hash"]
      else []).

(** The commit of an edit that replaces no file. *)
Definition no_file_hash_query (id : string) (d : ChartEditData.t) : query :=
  update_file_hash
    {| UpdateFileHash.chart_id := id;
       UpdateFileHash.jacket_hash := None; UpdateFileHash.v1_hash := None;
       UpdateFileHash.v3_hash := None; UpdateFileHash.music_hash := None;
       UpdateFileHash.chart_hash := None; UpdateFileHash.preview_hash := None;
       UpdateFileHash.background_hash := None;
       UpdateFileHash.confirm_change := true;
       UpdateFileHash.update_none_preview := ChartEditData.delete_preview d;
       UpdateFileHash.update_none_background :=
         ChartEditData.delete_background d |}.

(** More sample data for the further properties. *)
Module More.

Definition parse_edit (s : string) : string + ChartEditData.t :=
  if String.eqb s "audio+jacket"
  then inr (Sample.edit_data true true false false false false false)
  else if String.eqb s "delete_preview"
  then inr (Sample.edit_data false false false false false true false)
  else Sample.parse_edit s.

(** As [Sample.X], with a parser of the first dialect that refuses a
    score marked broken. *)
Definition X : Externals :=
  {| Score := bytes;
     calculate_sha1 := Sample.sha1;
     get_and_check_file := λ f _, inr (UploadFile.content f);
     generate_backgrounds_resize_jacket := Sample.resize;
     sus_load := λ x,
       if String.prefix "#SUS broken" (string_of_list_byte x)
       then inl (PyException "broken score") else inr x;
     usc_load := λ x, inr x;
     next_sekai_export := λ score, inr (Sample.gzip "LevelData" 0 score);
     gzip_compress := Sample.gzip;
     gzip_decompress := Sample.gunzip;
     upload_model_validate_json := Sample.parse_upload;
     edit_model_validate_json := parse_edit;
     unicode_isalnum := Sample.latin1_letter |}.

(** An uploader whose cooldown ends 100 seconds after [now]. *)
Definition cooling_session : Session.t :=
  {| Session.sonolus_id := "alice";
     Session.user := {| Account.sonolus_id := "alice";
                        Account.chart_upload_cooldown := Some 1100 |} |}.

(** An application whose insert of the chart row returns no row. *)
Definition app_no_insert : App :=
  {| debug := false;
     db_get_chart_by_id := db_get_chart_by_id (Sample.app false);
     db_create_chart := λ _, None;
     s3_objects := s3_objects (Sample.app false);
     uuid4 := uuid4 (Sample.app false);
     now := 1000 |}.

End More.

(** ** Vocabulary of the leaderboards handlers *)

Module LeaderboardsSpec.
Import Leaderboards.

Section spec.

Context {FO : FloatOps} (I : Imports FO).

(** The keys an object-store call writes or deletes. *)
Definition s3_keys (e : event FO) : list string :=
  match e with
  | EvUpload key _ _ => [key]
  | EvDeleteObjects keys => keys
  | _ => []
  end.

(** No event of the trace changes a store. *)
Definition read_only (tr : list (event FO)) : Prop :=
  Forall (λ e, is_write e = false) tr.

(** The replay of the request passes the checks of lines 59-79 against
    the chart row [chart], and parses as [replay]. *)
Definition admitted (r : ReplayRequest FO) (chart : ChartRow.t)
  (replay : GameplayResult.t (float FO)) : Prop :=
  header r = Some (auth I)
  ∧ bad_chart_id I (id r) = false
  ∧ (∃ decompressed,
       gzip_decompress I (UploadFile.content (replay_data r))
       = inr decompressed
       ∧ replay_model_validate_json I decompressed = inr replay)
  ∧ db_chart_by_id I (id r) = Some chart
  ∧ (ChartRow.status chart = "PRIVATE" → ChartRow.author chart = user_id r).

(** The record in place [curr] has the weighted score [old_score], the
    submitted replay [new_score]. *)
Definition scores (r : ReplayRequest FO) (replay : GameplayResult.t (float FO))
  (curr : RecordRow.t (float FO)) (old_score new_score : Z) : Prop :=
  weighted_score (Int (RecordRow.arcade_score curr))
    (Some (RecordRow.speed curr)) = inr old_score
  ∧ weighted_score (GameplayResult.arcadeScore replay) (speed r)
    = inr new_score.

(** The two reads of an admitted replay (lines 74 and 81). *)
Definition replay_fetches (r : ReplayRequest FO) : list (event FO) :=
  [ EvFetchrow (get_chart_by_id (id r));
    EvFetchrow (get_user_leaderboard_record_for_chart (id r) (user_id r)) ].

(** The writes to the leaderboard table. *)
Definition is_record_delete (e : event FO) : bool :=
  match e with
  | EvExecute (delete_leaderboard_record _) => true
  | _ => false
  end.

Definition is_record_create (e : event FO) : bool :=
  match e with
  | EvExecute (create_leaderboard_record _) => true
  | _ => false
  end.

(** The prefix of the replays of one user on a chart. *)
Definition user_replays_prefix (chart : ChartRow.t) (user_id : string)
  : string :=
  ChartRow.author chart +:+ "/" +:+ ChartRow.id chart +:+ "/replays/"
  +:+ user_id +:+ "/".

(** The arguments of the two queries of [get_leaderboards]. *)
Definition page_args (id : string) (page limit : Z) (leaderboard_type : string)
  (session : Session.t) : PageArgs.t :=
  {| PageArgs.id := id; PageArgs.limit := limit; PageArgs.page := page;
     PageArgs.leaderboard_type := leaderboard_type;
     PageArgs.sonolus_id := Session.sonolus_id session |}.

(** The caller may delete the record: its owner, a moderator or an
    admin. *)
Definition may_delete (session : Session.t) (record : RecordRow.t (float FO))
  : Prop :=
  RecordRow.owner record = Some true
  ∨ Session.mod_ session = true ∨ Session.admin session = true.

End spec.
End LeaderboardsSpec.

(** ** A concrete instance for the leaderboards handlers *)

Module LeaderboardsSample.
Import Leaderboards.

(** A decimal fixed-point stand-in for the floats: a value is its number
    of thousandths. *)
Definition fixed_lit (s : string) : Z :=
  if String.eqb s "1.0" then 1000
  else if String.eqb s "0.4" then 400
  else if String.eqb s "0.075" then 75
  else 0.

Definition FO : FloatOps :=
  {| float := Z;
     float_lit := fixed_lit;
     fmul := λ x y, (x * y) `quot` 1000;
     fsub := Z.sub;
     fadd := Z.add;
     float_of_int := λ n, inr (n * 1000)%Z;
     int_of_float := λ x, inr (x `quot` 1000);
     truediv := λ n m,
       if (m =? 0)%Z then inl (PyException "division by zero")
       else inr ((n * 1000) `quot` m);
     flt_int := λ x n, (x <? n * 1000)%Z |}.

(** The replay parser reads the score off the length of the payload; the
    record is refused when it has no speed, as [speed: float] of the
    model makes pydantic do. *)
Definition result_of (x : bytes) : GameplayResult.t (float FO) :=
  GameplayResult.mk (float FO) "pass" (Int (100 * Z.of_nat (length x))) (Int 0)
    (Int 0) (Int 0) (Int 0) (Int 0) (Int 0) (Int 0).

Definition chart (status : string) : ChartRow.t :=
  {| ChartRow.id := Sample.chart_id; ChartRow.author := "alice";
     ChartRow.status := status; ChartRow.title := "Song" |}.

Definition record (score : Z) (data_hash : string) (owner : option bool)
  : RecordRow.t (float FO) :=
  {| RecordRow.id := 7; RecordRow.submitter := "bob";
     RecordRow.chart_id := Sample.chart_id;
     RecordRow.replay_data_hash := data_hash;
     RecordRow.replay_config_hash := "sha1:cfg";
     RecordRow.arcade_score := score; RecordRow.speed := 1000%Z;
     RecordRow.owner := owner |}.

Definition accounts : list PublicAccount.t :=
  [ {| PublicAccount.sonolus_id := "bob";
       PublicAccount.sonolus_username := "Bob" |} ].

Definition imports (status : string) (curr : option (RecordRow.t (float FO)))
  (total : Z) : Imports FO :=
  {| gzip_decompress := λ x,
       match Sample.gunzip x with
       | Some y => inr y
       | None => inl (PyException "Not a gzipped file")
       end;
     replay_model_validate_json := λ x, inr (result_of x);
     calculate_sha1 := Sample.sha1;
     leaderboard_record_validate := λ record,
       match LeaderboardRecord.speed record with
       | Some _ => None
       | None =>
           Some (PyException "speed: Input should be a valid number")
       end;
     auth := "secret";
     s3_asset_base_url := "https://assets.example";
     db_chart_by_id := λ id,
       if String.eqb id Sample.chart_id then Some (chart status) else None;
     db_user_record := λ id user_id,
       if String.eqb id Sample.chart_id && String.eqb user_id "bob"
       then curr else None;
     db_total_count := λ _, total;
     db_records := λ _, default [] (curr ≫= λ c, Some [c]);
     db_accounts := λ ids,
       List.filter
         (λ a, bool_decide (PublicAccount.sonolus_id a ∈ ids)) accounts;
     db_record_by_id := λ id record_id _,
       if String.eqb id Sample.chart_id && (record_id =? 7)%Z
       then curr else None;
     db_public_account := λ sonolus_id,
       List.find (λ a, String.eqb (PublicAccount.sonolus_id a) sonolus_id)
         accounts;
     db_execute_raises := λ _, None;
     s3_gather_raises := λ _, None;
     unicode_isalnum := Sample.latin1_letter |}.

Definition replay_file (s : string) : UploadFile.t :=
  {| UploadFile.size := len_list (Sample.gzip "replay" 0 (Sample.b s));
     UploadFile.content := Sample.gzip "replay" 0 (Sample.b s) |}.

(** A replay of [bob] for the sample chart. *)
Definition replay (header : option string) (speed : option (float FO))
  (s : string) : ReplayRequest FO :=
  {| id := Sample.chart_id; header := header; user_id := "bob";
     display_name := "Bob"; engine_name := "next-sekai"; speed := speed;
     replay_data := replay_file s;
     replay_config := Sample.file "cfg" |}.

(** The record of [bob] in place, whose data blob is the replay ["abc"];
    the stores that hold it, on a public chart with 25 records. *)
Definition replaced : RecordRow.t (float FO) :=
  record 100 (Sample.sha1 (UploadFile.content (replay_file "abc"))) None.

Definition store : Imports FO := imports "PUBLIC" (Some replaced) 25.

(** A replay for an id that no chart has. *)
Definition stray : ReplayRequest FO :=
  {| id := "ffffffffffffffffffffffffffffffff"; header := Some "secret";
     user_id := "bob"; display_name := "Bob"; engine_name := "next-sekai";
     speed := None; replay_data := replay_file "abc";
     replay_config := Sample.file "cfg" |}.

Definition bob : Session.t :=
  {| Session.sonolus_id := Some "bob"; Session.mod_ := false;
     Session.admin := false |}.

Definition anonymous : Session.t :=
  {| Session.sonolus_id := None; Session.mod_ := false;
     Session.admin := false |}.

End LeaderboardsSample.

(** * Properties of the handlers *)

(** ** The handler monad *)

Lemma trace_bind {A B} (m : M A) (f : A → M B) :
  trace (bind m f) =
  match outcome m with
  | inl _ => trace m
  | inr a => (trace m ++ trace (f a))%list
  end.
Proof.
  destruct m as [tr [e | a]]; simpl; [reflexivity |].
  destruct (f a) as [tr' r']; reflexivity.
Qed.

Lemma outcome_bind {A B} (m : M A) (f : A → M B) :
  outcome (bind m f) =
  match outcome m with
  | inl e => inl e
  | inr a => outcome (f a)
  end.
Proof.
  destruct m as [tr [e | a]]; simpl; [reflexivity |].
  destruct (f a) as [tr' r']; reflexivity.
Qed.

(** A computation that raises stops there: what follows adds nothing to
    the trace. *)
Lemma raises_bind {A B} (m : M A) (f : A → M B) :
  raises m → raises (bind m f) ∧ trace (bind m f) = trace m.
Proof.
  unfold raises. rewrite outcome_bind, trace_bind.
  destruct (outcome m); [tauto | contradiction].
Qed.

(** ** The diff of the edit flow *)

Module EditDiff.
Import Edit.

Lemma elem_of_kept_hashes old old_deletes h :
  h ∈ kept_hashes old old_deletes ↔
  (∃ hash_key, hash_key ∈ all_hash_keys ∧ (hash_key ∉ old_deletes)
               ∧ ChartDBResponse.getattr old hash_key = Some h).
Proof.
  unfold kept_hashes, kept_hash_keys. rewrite elem_of_set_omap.
  split.
  - intros (k & Hk & Hget). apply elem_of_difference in Hk as [Hall Hnot].
    rewrite elem_of_list_to_set in Hnot. eauto.
  - intros (k & Hall & Hnot & Hget). exists k. split; [| exact Hget].
    apply elem_of_difference. rewrite elem_of_list_to_set. auto.
Qed.

Lemma elem_of_deleted_candidate_hashes old old_deletes h :
  h ∈ deleted_candidate_hashes old old_deletes ↔
  (∃ hash_key, hash_key ∈ old_deletes
               ∧ ChartDBResponse.getattr old hash_key = Some h).
Proof.
  unfold deleted_candidate_hashes.
  rewrite elem_of_list_to_set, list_elem_of_omap. reflexivity.
Qed.

(** C1.  In [edit.py] (lines 316-337) the hashes deleted are disjoint from
    the hashes kept, for every stored chart and every list [old_deletes]
    of slots replaced or removed; and the hash of a slot that is neither
    replaced nor removed is never deleted, whichever other slot holds the
    same value (a replaced jacket variant included). *)
Theorem deleted_hashes_disjoint_kept_hashes
  (old : ChartDBResponse.t) (old_deletes : list string) :
  deleted_hashes old old_deletes ## kept_hashes old old_deletes
  ∧ ∀ hash_key h,
      hash_key ∈ all_hash_keys →
      hash_key ∉ old_deletes →
      ChartDBResponse.getattr old hash_key = Some h →
      h ∈ kept_hashes old old_deletes ∧ h ∉ deleted_hashes old old_deletes.
Proof.
  split.
  - apply elem_of_disjoint. intros h Hdel Hkept.
    unfold deleted_hashes in Hdel. apply elem_of_difference in Hdel. tauto.
  - intros k h Hall Hnot Hget.
    assert (Hkept : h ∈ kept_hashes old old_deletes)
      by (apply elem_of_kept_hashes; eauto).
    split; [exact Hkept |].
    unfold deleted_hashes. rewrite elem_of_difference. tauto.
Qed.

(** A chart whose background holds the same bytes as its first jacket
    variant: replacing the jacket deletes the jacket and the third variant
    only. *)
Lemma deleted_hashes_disjoint_kept_hashes_witness :
  let old :=
    {| ChartDBResponse.id := "c"; ChartDBResponse.author := "alice";
       ChartDBResponse.jacket_file_hash := "Hj";
       ChartDBResponse.music_file_hash := "Ha";
       ChartDBResponse.chart_file_hash := "Hc";
       ChartDBResponse.background_v1_file_hash := "Hv1";
       ChartDBResponse.background_v3_file_hash := "Hv3";
       ChartDBResponse.preview_file_hash := None;
       ChartDBResponse.background_file_hash := Some "Hv1" |} in
  let old_deletes :=
    ["jacket_file_hash"; "background_v1_file_hash"; "background_v3_file_hash"] in
  Some "Hv1" ∈ kept_hashes old old_deletes
  ∧ Some "Hv1" ∉ deleted_hashes old old_deletes.
Proof.
  intros old old_deletes.
  apply (proj2 (deleted_hashes_disjoint_kept_hashes old old_deletes)
           "background_file_hash").
  - vm_compute. reflexivity.
  - intros Hin.
    repeat (apply elem_of_cons in Hin; destruct Hin as [Hin | Hin];
            [discriminate Hin |]).
    apply elem_of_nil in Hin. exact Hin.
  - reflexivity.
Defined.

(** The blob deletes of the batch are those of [deleted_hashes]: one task
    per hash of the set, under the key of that hash. *)
Lemma delete_tasks_spec session id hs op :
  op ∈ delete_tasks session id [] hs ↔
  ∃ file_hash, file_hash ∈ hs
               ∧ op = s3_delete (object_key session id (fmt_opt file_hash)).
Proof.
  induction hs as [| h hs IH]; cbn [delete_tasks].
  { rewrite elem_of_nil. split; [tauto |]. intros (h & Hh & _).
    by apply elem_of_nil in Hh. }
  rewrite bool_decide_eq_false_2 by apply not_elem_of_nil.
  rewrite elem_of_cons, IH. split.
  - intros [-> | (h' & Hh' & ->)].
    + exists h. split; [apply list_elem_of_here | reflexivity].
    + exists h'. split; [by apply list_elem_of_further | reflexivity].
  - intros (h' & Hh' & ->). apply elem_of_cons in Hh' as [-> | Hh'];
      [by left | right; eauto].
Qed.

Lemma delete_tasks_deleted_hashes session id old old_deletes op :
  op ∈ delete_tasks session id [] (elements (deleted_hashes old old_deletes)) ↔
  ∃ file_hash, file_hash ∈ deleted_hashes old old_deletes
               ∧ op = s3_delete (object_key session id (fmt_opt file_hash)).
Proof.
  rewrite delete_tasks_spec. by setoid_rewrite elem_of_elements.
Qed.

End EditDiff.

(** ** Traces and the order of events *)

Lemma all_before_app (P Q : event → bool) (pre post : list event) :
  Forall (λ e, Q e = false) pre →
  Forall (λ e, P e = false) post →
  all_before P Q (pre ++ post).
Proof.
  intros Hpre Hpost i j e1 e2 Hi Hj HP HQ.
  rewrite Forall_lookup in Hpre. rewrite Forall_lookup in Hpost.
  destruct (decide (i < length pre)%nat) as [Hlt | Hge].
  - destruct (decide (j < length pre)%nat) as [Hlt' | Hge'].
    + rewrite lookup_app_l in Hj by exact Hlt'.
      specialize (Hpre _ _ Hj). simpl in Hpre. congruence.
    + lia.
  - rewrite lookup_app_r in Hi by lia.
    specialize (Hpost _ _ Hi). simpl in Hpost. congruence.
Qed.

(** ** The edit handler *)

Module EditFacts.
Import Edit EditSpec.

Section facts.

Context (X : Externals) (detect : bytes → option (string * string))
  (app : App) (session : Session.t).

#[local] Abbreviation check_request := (Edit.check_request X app session).
#[local] Abbreviation stage_files := (Edit.stage_files X detect session).
#[local] Abbreviation s3_batch := (Edit.s3_batch app session).
#[local] Abbreviation main := (Edit.main X detect app session).

(** The checks call the session and read the chart row, nothing else. *)
Lemma edit_check_request_trace r :
  trace (check_request r) = []
  ∨ trace (check_request r)
    = [EvSessionUser; EvDbFetchrow (get_chart_by_id (id r))].
Proof.
  unfold Edit.check_request.
  destruct (_ || _); [by left |].
  destruct (edit_model_validate_json X (data r)) as [errs | d]; [by left |].
  destruct (limits_exceeded d); [by left |].
  right. simpl.
  destruct (db_get_chart_by_id app (id r)) as [old |]; [| reflexivity].
  destruct (negb _); reflexivity.
Qed.

Lemma edit_check_request_quiet r :
  Forall (λ e, is_s3 e = false ∧ is_db_write e = false)
    (trace (check_request r)).
Proof.
  destruct (edit_check_request_trace r) as [-> | ->]; repeat constructor.
Qed.

(** When the checks pass, the body was valid and the row is the one
    stored under the id. *)
Lemma edit_check_request_ok r d old :
  outcome (check_request r) = inr (d, old) →
  edit_model_validate_json X (data r) = inr d
  ∧ db_get_chart_by_id app (id r) = Some old
  ∧ trace (check_request r)
    = [EvSessionUser; EvDbFetchrow (get_chart_by_id (id r))].
Proof.
  unfold Edit.check_request.
  destruct (_ || _); [discriminate |].
  destruct (edit_model_validate_json X (data r)) as [errs | d']; [discriminate |].
  destruct (limits_exceeded d'); [discriminate |].
  simpl.
  destruct (db_get_chart_by_id app (id r)) as [old' |]; [| discriminate].
  destruct (negb _); [discriminate |].
  simpl. intros [= -> ->]. auto.
Qed.

(** The batch only calls the object store, and never raises. *)
Lemma edit_s3_batch_outcome r old l : outcome (s3_batch r old l) = inr tt.
Proof.
  unfold Edit.s3_batch.
  destruct (_ || _); [| reflexivity].
  destruct (chart_updated l); reflexivity.
Qed.

Lemma edit_s3_batch_trace r old l :
  Forall (λ e, is_s3 e = true) (trace (s3_batch r old l)).
Proof.
  unfold Edit.s3_batch.
  destruct (_ || _); [| constructor].
  destruct (chart_updated l); simpl.
  - constructor; [reflexivity |].
    apply Forall_fmap, Forall_true. reflexivity.
  - apply Forall_fmap, Forall_true. reflexivity.
Qed.

(** The commit only writes to the database, and never raises. *)
Lemma edit_db_commit_outcome old l q q2 : outcome (db_commit old l q q2) = inr tt.
Proof. unfold db_commit. destruct (chart_updated l); reflexivity. Qed.

Lemma edit_db_commit_trace old l q q2 :
  trace (db_commit old l q q2)
  = (EvDbExecute q :: EvDbExecute q2
     :: if chart_updated l
        then [EvDbExecute (delete_leaderboards (ChartDBResponse.id old))]
        else [])%list.
Proof. unfold db_commit. destruct (chart_updated l); reflexivity. Qed.

(** The handler, stage by stage. *)
Lemma edit_main_unfold r :
  main r =
  match outcome (check_request r) with
  | inl e => (trace (check_request r), inl e)
  | inr (d, old) =>
      match stage_files r d old with
      | inl e => (trace (check_request r), inl e)
      | inr l =>
          match file_hash_query r d l with
          | inl e =>
              ((trace (check_request r) ++ trace (s3_batch r old l))%list,
               inl e)
          | inr q2 =>
              ((trace (check_request r) ++ trace (s3_batch r old l)
                ++ trace (db_commit old l (metadata_query r d) q2))%list,
               inr success)
          end
      end
  end.
Proof.
  unfold Edit.main.
  destruct (check_request r) as [tr [e | [d old]]]; simpl; [reflexivity |].
  destruct (stage_files r d old) as [e | l]; simpl.
  { by rewrite app_nil_r. }
  pose proof (edit_s3_batch_outcome r old l) as Hout.
  destruct (s3_batch r old l) as [tr3 o3]. simpl in Hout. subst o3. simpl.
  destruct (file_hash_query r d l) as [e | q2]; simpl.
  { by rewrite !app_nil_r. }
  pose proof (edit_db_commit_outcome old l (metadata_query r d) q2) as Hout.
  destruct (db_commit old l (metadata_query r d) q2) as [tr4 o4].
  simpl in Hout. subst o4. simpl.
  by rewrite !app_nil_r.
Qed.

(** Whatever the request, the trace is the checks, then object-store
    calls only, then database writes only. *)
Lemma edit_main_trace_shape r :
  ∃ s3s dbs,
    trace (main r) = (trace (check_request r) ++ s3s ++ dbs)%list
    ∧ Forall (λ e, is_s3 e = true) s3s
    ∧ Forall (λ e, is_db_write e = true ∧ is_s3 e = false) dbs.
Proof.
  rewrite edit_main_unfold.
  destruct (outcome (check_request r)) as [e | [d old]].
  { exists [], []. simpl. rewrite app_nil_r. auto. }
  destruct (stage_files r d old) as [e | l].
  { exists [], []. simpl. rewrite app_nil_r. auto. }
  destruct (file_hash_query r d l) as [e | q2].
  { exists (trace (s3_batch r old l)), []. simpl. rewrite app_nil_r.
    split; [reflexivity |]. split; [apply edit_s3_batch_trace | constructor]. }
  exists (trace (s3_batch r old l)),
    (trace (db_commit old l (metadata_query r d) q2)).
  split; [reflexivity |]. split; [apply edit_s3_batch_trace |].
  rewrite edit_db_commit_trace. destruct (chart_updated l); repeat constructor.
Qed.

(** A request that raises while its files are staged has called neither
    the object store nor written to the database. *)
Lemma edit_stage_failure_rejected r :
  (∀ d old, outcome (check_request r) = inr (d, old) →
            fails (stage_files r d old)) →
  rejected_before_mutation (main r).
Proof.
  intros Hstage. unfold rejected_before_mutation, raises.
  rewrite edit_main_unfold.
  pose proof (edit_check_request_quiet r) as Hq.
  destruct (outcome (check_request r)) as [e | [d old]] eqn:Hout; simpl.
  - split; [exact I |].
    split; eapply Forall_impl; try exact Hq; simpl; tauto.
  - specialize (Hstage d old eq_refl).
    destruct (stage_files r d old) as [e | l]; [| contradiction]. simpl.
    split; [exact I |].
    split; eapply Forall_impl; try exact Hq; simpl; tauto.
Qed.

(** *** Each block rejects an over-limit file and inconsistent flags *)

Lemma chart_block_rejects r d old l :
  over_limit "chart" (chart_file r)
  || ChartEditData.includes_chart d && negb (attached (chart_file r))
  || attached (chart_file r) && negb (ChartEditData.includes_chart d) = true →
  fails (chart_block X detect session r d old l).
Proof.
  unfold chart_block, over_limit, attached.
  destruct (chart_file r) as [f |]; simpl.
  - destruct (_ >? _)%Z; [intros _; exact I |].
    destruct (ChartEditData.includes_chart d); simpl;
      [discriminate | intros _; exact I].
  - destruct (ChartEditData.includes_chart d); simpl;
      [intros _; exact I | discriminate].
Qed.

Lemma jacket_block_rejects r d old l :
  over_limit "jacket" (jacket_image r)
  || ChartEditData.includes_jacket d && negb (attached (jacket_image r))
  || attached (jacket_image r) && negb (ChartEditData.includes_jacket d) = true →
  fails (jacket_block X session r d old l).
Proof.
  unfold jacket_block, over_limit, attached.
  destruct (jacket_image r) as [f |]; simpl.
  - destruct (_ >? _)%Z; [intros _; exact I |].
    destruct (ChartEditData.includes_jacket d); simpl;
      [discriminate | intros _; exact I].
  - destruct (ChartEditData.includes_jacket d); simpl;
      [intros _; exact I | discriminate].
Qed.

Lemma audio_block_rejects r d old l :
  over_limit "audio" (audio_file r)
  || ChartEditData.includes_audio d && negb (attached (audio_file r))
  || attached (audio_file r) && negb (ChartEditData.includes_audio d) = true →
  fails (audio_block X session r d old l).
Proof.
  unfold audio_block, over_limit, attached.
  destruct (audio_file r) as [f |]; simpl.
  - destruct (_ >? _)%Z; [intros _; exact I |].
    destruct (ChartEditData.includes_audio d); simpl;
      [discriminate | intros _; exact I].
  - destruct (ChartEditData.includes_audio d); simpl;
      [intros _; exact I | discriminate].
Qed.

Lemma preview_block_rejects r d old l :
  over_limit "preview" (preview_file r)
  || ChartEditData.includes_preview d && negb (attached (preview_file r))
  || attached (preview_file r) && negb (ChartEditData.includes_preview d)
  || ChartEditData.includes_preview d && ChartEditData.delete_preview d = true →
  fails (preview_block X session r d old l).
Proof.
  unfold preview_block, over_limit, attached.
  destruct (preview_file r) as [f |]; simpl.
  - destruct (_ >? _)%Z; [intros _; exact I |].
    destruct (ChartEditData.includes_preview d),
      (ChartEditData.delete_preview d); simpl;
      first [discriminate | intros _; exact I].
  - destruct (ChartEditData.includes_preview d),
      (ChartEditData.delete_preview d); simpl;
      first [discriminate | intros _; exact I].
Qed.

Lemma background_block_rejects r d old l :
  over_limit "background" (background_image r)
  || ChartEditData.includes_background d && negb (attached (background_image r))
  || attached (background_image r) && negb (ChartEditData.includes_background d)
  || ChartEditData.includes_background d && ChartEditData.delete_background d
     = true →
  fails (background_block X session r d old l).
Proof.
  unfold background_block, over_limit, attached.
  destruct (background_image r) as [f |]; simpl.
  - destruct (_ >? _)%Z; [intros _; exact I |].
    destruct (ChartEditData.includes_background d),
      (ChartEditData.delete_background d); simpl;
      first [discriminate | intros _; exact I].
  - destruct (ChartEditData.includes_background d),
      (ChartEditData.delete_background d); simpl;
      first [discriminate | intros _; exact I].
Qed.

(** The staging raises as soon as one block raises whatever the locals. *)
Lemma edit_stage_files_fails r d old :
  (∀ l, fails (chart_block X detect session r d old l))
  ∨ (∀ l, fails (jacket_block X session r d old l))
  ∨ (∀ l, fails (audio_block X session r d old l))
  ∨ (∀ l, fails (preview_block X session r d old l))
  ∨ (∀ l, fails (background_block X session r d old l)) →
  fails (stage_files r d old).
Proof.
  intros H. unfold Edit.stage_files.
  destruct (chart_block X detect session r d old init_locals) as [e | l1] eqn:E1;
    simpl; [exact I |].
  destruct (jacket_block X session r d old l1) as [e | l2] eqn:E2;
    simpl; [exact I |].
  destruct (audio_block X session r d old l2) as [e | l3] eqn:E3;
    simpl; [exact I |].
  destruct (preview_block X session r d old l3) as [e | l4] eqn:E4;
    simpl; [exact I |].
  destruct H as [H | [H | [H | [H | H]]]].
  - specialize (H init_locals). by rewrite E1 in H.
  - specialize (H l1). by rewrite E2 in H.
  - specialize (H l2). by rewrite E3 in H.
  - specialize (H l3). by rewrite E4 in H.
  - apply H.
Qed.

Lemma oversize_stage_fails r d old :
  oversize r = true → fails (stage_files r d old).
Proof.
  unfold oversize. rewrite !orb_true_iff. intros H.
  apply edit_stage_files_fails.
  destruct H as [[[[H | H] | H] | H] | H].
  - left. intros l. apply chart_block_rejects. by rewrite H.
  - right; left. intros l. apply jacket_block_rejects. by rewrite H.
  - do 2 right; left. intros l. apply audio_block_rejects. by rewrite H.
  - do 3 right; left. intros l. apply preview_block_rejects. by rewrite H.
  - do 4 right. intros l. apply background_block_rejects. by rewrite H.
Qed.

Lemma inconsistent_stage_fails r d old :
  inconsistent r d = true → fails (stage_files r d old).
Proof.
  unfold inconsistent, flag_without_file, file_without_flag,
    include_and_delete.
  rewrite !orb_true_iff. intros H.
  apply edit_stage_files_fails.
  destruct H as [[H | H] | H].
  - destruct H as [[[[H | H] | H] | H] | H].
    + left. intros l. apply chart_block_rejects.
      rewrite H. by rewrite !orb_true_r.
    + right; left. intros l. apply jacket_block_rejects.
      rewrite H. by rewrite !orb_true_r.
    + do 2 right; left. intros l. apply audio_block_rejects.
      rewrite H. by rewrite !orb_true_r.
    + do 3 right; left. intros l. apply preview_block_rejects.
      rewrite H. by rewrite !orb_true_r.
    + do 4 right. intros l. apply background_block_rejects.
      rewrite H. by rewrite !orb_true_r.
  - destruct H as [[[[H | H] | H] | H] | H].
    + left. intros l. apply chart_block_rejects.
      rewrite H. by rewrite !orb_true_r.
    + right; left. intros l. apply jacket_block_rejects.
      rewrite H. by rewrite !orb_true_r.
    + do 2 right; left. intros l. apply audio_block_rejects.
      rewrite H. by rewrite !orb_true_r.
    + do 3 right; left. intros l. apply preview_block_rejects.
      rewrite H. by rewrite !orb_true_r.
    + do 4 right. intros l. apply background_block_rejects.
      rewrite H. by rewrite !orb_true_r.
  - destruct H as [H | H].
    + do 3 right; left. intros l. apply preview_block_rejects.
      rewrite H. by rewrite !orb_true_r.
    + do 4 right. intros l. apply background_block_rejects.
      rewrite H. by rewrite !orb_true_r.
Qed.

(** *** Order of the store calls *)

Lemma is_s3_upload_s3 e : is_s3 e = false → is_s3_upload e = false.
Proof. by destruct e as [| | | | []]. Qed.

Lemma is_s3_delete_s3 e : is_s3 e = false → is_s3_delete e = false.
Proof. by destruct e as [| | | | []]. Qed.

Lemma is_hash_commit_write e : is_db_write e = false → is_hash_commit e = false.
Proof. by destruct e as [| [] | [] | |]. Qed.

Lemma is_hash_commit_s3 e : is_s3 e = true → is_hash_commit e = false.
Proof. by destruct e as [| [] | [] | |]. Qed.

(** C2, as the code has it.  In every run of the edit handler, every blob
    upload and every blob delete is issued before the statement that
    commits the slot-to-hash columns: creates and deletes form one batch,
    awaited before the database is written.  Deletion is not deferred
    until after the commit. *)
Theorem blob_batch_precedes_commit r :
  all_before is_s3_upload is_hash_commit (trace (main r))
  ∧ all_before is_s3_delete is_hash_commit (trace (main r)).
Proof.
  destruct (edit_main_trace_shape r) as (s3s & dbs & -> & Hs3 & Hdb).
  pose proof (edit_check_request_quiet r) as Hq.
  assert (Hpre : Forall (λ e, is_hash_commit e = false)
                   (trace (check_request r) ++ s3s)).
  { apply Forall_app. split.
    - eapply Forall_impl; [exact Hq |]. simpl. intros e [_ He].
      by apply is_hash_commit_write.
    - eapply Forall_impl; [exact Hs3 |]. apply is_hash_commit_s3. }
  rewrite app_assoc.
  split; apply all_before_app; try exact Hpre.
  - eapply Forall_impl; [exact Hdb |]. simpl. intros e [_ He].
    by apply is_s3_upload_s3.
  - eapply Forall_impl; [exact Hdb |]. simpl. intros e [_ He].
    by apply is_s3_delete_s3.
Qed.

(** C7.  An edit whose intent flags disagree with the files attached (a
    flag without its file, a file without its flag, include and delete on
    one optional slot) is rejected, and before that no object-store call
    and no database write is made. *)
Theorem inconsistent_flags_rejected r d :
  edit_model_validate_json X (data r) = inr d →
  inconsistent r d = true →
  rejected_before_mutation (main r).
Proof.
  intros Hd Hinc. apply edit_stage_failure_rejected.
  intros d' old Hok. apply edit_check_request_ok in Hok as (Hd' & _).
  rewrite Hd in Hd'. injection Hd' as <-.
  by apply inconsistent_stage_fails.
Qed.

End facts.

(** [includes_audio] is set and no audio file is attached. *)
Lemma inconsistent_flags_rejected_witness :
  rejected_before_mutation
    (Sample.run_edit false (Sample.edit "audio" None None None None None)).
Proof.
  apply (inconsistent_flags_rejected Sample.X Sample.detect_edit
           (Sample.app false) Sample.session
           (Sample.edit "audio" None None None None None)
           (Sample.edit_data true false false false false false false));
    reflexivity.
Defined.

(** Replacing the audio: the old blob is deleted (fourth event) before the
    hash columns are committed (eighth event). *)
Lemma delete_issued_before_commit :
  ¬ all_before is_hash_commit is_s3_delete
      (trace (Sample.run_edit false
                (Sample.edit "audio" None None (Some (Sample.file "Y"))
                   None None))).
Proof.
  intros H.
  set (tr := trace _) in H. vm_compute in tr.
  specialize (H 7%nat 3%nat _ _ eq_refl eq_refl eq_refl eq_refl). lia.
Qed.

End EditFacts.

(** ** The upload handler *)

Module UploadFacts.
Import Upload UploadSpec.

Section facts.

Context (X : Externals) (detect : bytes → Detected)
  (app : App) (session : Session.t).

#[local] Abbreviation check_request := (Upload.check_request X app session).
#[local] Abbreviation stage_files := (Upload.stage_files X detect app session).
#[local] Abbreviation main := (Upload.main X detect app session).
#[local] Abbreviation chart_id := (remove_dashes (uuid4 app)).

(** The checks call the session at most, and neither store. *)
Lemma upload_check_request_trace r :
  trace (check_request r) = [] ∨ trace (check_request r) = [EvSessionUser].
Proof.
  unfold Upload.check_request.
  destruct (upload_model_validate_json X (data r)) as [errs | d]; [by left |].
  destruct (limits_exceeded d); [by left |].
  right. simpl.
  destruct (Account.chart_upload_cooldown (Session.user session))
    as [cooldown |];
    [destruct (negb (debug app) && (now app <? cooldown)%Z);
     [reflexivity |] |];
    (destruct (_ || _); [reflexivity |];
     destruct (preview_file r) as [pf |];
     [destruct (_ >? _)%Z; [reflexivity |] |];
     (destruct (background_image r) as [bf |];
      [destruct (_ >? _)%Z |]; reflexivity)).
Qed.

Lemma upload_check_request_quiet r :
  Forall (λ e, is_s3 e = false ∧ is_db e = false) (trace (check_request r)).
Proof.
  destruct (upload_check_request_trace r) as [-> | ->]; repeat constructor.
Qed.

(** The checks pass only when every file is within its limit. *)
Lemma upload_check_request_ok r d :
  outcome (check_request r) = inr d →
  upload_model_validate_json X (data r) = inr d
  ∧ oversize r = false
  ∧ trace (check_request r) = [EvSessionUser].
Proof.
  unfold Upload.check_request, oversize, over_limit.
  destruct (upload_model_validate_json X (data r)) as [errs | d'];
    [discriminate |].
  destruct (limits_exceeded d'); [discriminate |].
  simpl.
  destruct (Account.chart_upload_cooldown (Session.user session))
    as [cooldown |];
    [destruct (negb (debug app) && (now app <? cooldown)%Z);
     [discriminate |] |];
    (destruct (_ || _); [discriminate |];
     destruct (preview_file r) as [pf |];
     [destruct (_ >? _)%Z; [discriminate |] |];
     (destruct (background_image r) as [bf |];
      [destruct (_ >? _)%Z; [discriminate |] |];
      simpl; intros [= ->]; auto)).
Qed.

Lemma upload_db_commit_trace c :
  ∃ rest, trace (db_commit app session c)
          = EvDbFetchrow (create_chart c) :: rest
          ∧ Forall (λ e, is_db_write e = true ∧ is_s3 e = false) rest.
Proof.
  unfold db_commit. simpl.
  destruct (db_create_chart app c); simpl; eexists; split;
    try reflexivity; repeat constructor.
Qed.

(** The handler, stage by stage. *)
Lemma upload_main_unfold r :
  main r =
  match outcome (check_request r) with
  | inl e => (trace (check_request r), inl e)
  | inr d =>
      match stage_files r chart_id with
      | inl e => (trace (check_request r), inl e)
      | inr st =>
          ((trace (check_request r)
            ++ map EvS3 (upload_tasks [] (s3_uploads st))
            ++ trace (db_commit app session (new_chart session d chart_id st)))%list,
           outcome (db_commit app session (new_chart session d chart_id st)))
      end
  end.
Proof.
  unfold Upload.main.
  destruct (check_request r) as [tr [e | d]]; simpl; [reflexivity |].
  destruct (stage_files r chart_id) as [e | st]; simpl.
  { by rewrite app_nil_r. }
  destruct (db_commit app session (new_chart session d chart_id st))
    as [tr4 o4].
  reflexivity.
Qed.

(** A request that raises in the checks or while its files are staged has
    called neither store. *)
Lemma upload_stage_failure_rejected r :
  (∀ d, outcome (check_request r) = inr d → fails (stage_files r chart_id)) →
  rejected_before_io (main r).
Proof.
  intros Hstage. unfold rejected_before_io, raises.
  rewrite upload_main_unfold.
  pose proof (upload_check_request_quiet r) as Hq.
  destruct (outcome (check_request r)) as [e | d] eqn:Hout; simpl.
  - split; [exact I |].
    split; eapply Forall_impl; try exact Hq; simpl; tauto.
  - specialize (Hstage d eq_refl).
    destruct (stage_files r chart_id) as [e | st]; [| contradiction]. simpl.
    split; [exact I |].
    split; eapply Forall_impl; try exact Hq; simpl; tauto.
Qed.

Lemma oversize_rejected r :
  oversize r = true → rejected_before_io (main r).
Proof.
  intros Hover. apply upload_stage_failure_rejected.
  intros d Hok. apply upload_check_request_ok in Hok as (_ & Hno & _). congruence.
Qed.

(** An unrecognised script stops the staging. *)
Lemma unrecognised_stage_fails r :
  valid (detect (UploadFile.content (chart_file r))) = false →
  fails (stage_files r chart_id).
Proof.
  intros Hinv. unfold Upload.stage_files.
  destruct (get_and_check_file X (jacket_image r) "image") as [e | jb];
    simpl; [exact I |].
  destruct (generate_backgrounds_resize_jacket X jb) as [e | [[v1 v3] jb']];
    simpl; [exact I |].
  rewrite Hinv. exact I.
Qed.

Lemma unrecognised_stage_error r jb vs :
  valid (detect (UploadFile.content (chart_file r))) = false →
  get_and_check_file X (jacket_image r) "image" = inr jb →
  generate_backgrounds_resize_jacket X jb = inr vs →
  stage_files r chart_id = inl invalid_format.
Proof.
  intros Hinv Hjb Hvs. unfold Upload.stage_files.
  rewrite Hjb. simpl. rewrite Hvs. simpl. destruct vs as [[v1 v3] jb'].
  rewrite Hinv. reflexivity.
Qed.

End facts.
End UploadFacts.

(** ** Rejections that precede the stores *)

Section rejections.

Context (X : Externals) (app : App) (session : Session.t).

(** In the edit flow an unrecognised script stops the staging. *)
Lemma edit_unrecognised_stage_fails detect r d old f :
  Edit.chart_file r = Some f →
  detect (UploadFile.content f) = None →
  fails (Edit.stage_files X detect session r d old).
Proof.
  intros Hf Hdet. apply EditFacts.edit_stage_files_fails. left. intros l.
  unfold Edit.chart_block. rewrite Hf.
  destruct (_ >? _)%Z; [exact I |].
  destruct (ChartEditData.includes_chart d); [| exact I].
  rewrite Hdet. exact I.
Qed.

Lemma edit_unrecognised_stage_error detect r d old f :
  Edit.chart_file r = Some f →
  detect (UploadFile.content f) = None →
  over_limit "chart" (Some f) = false →
  ChartEditData.includes_chart d = true →
  Edit.stage_files X detect session r d old = inl Edit.invalid_format.
Proof.
  intros Hf Hdet Hsize Hinc. unfold Edit.stage_files, Edit.chart_block.
  rewrite Hf. simpl in Hsize. rewrite Hsize, Hinc, Hdet. reflexivity.
Qed.

(** C4, as the code has it.  A request with a file over the limit of its
    kind is rejected before any object-store call.  The upload handler has
    then made no database call either; the edit handler has made no
    database write, its one database call being the read of the chart row
    that precedes the size checks. *)
Theorem oversize_rejected_before_stores :
  (∀ detect r,
     UploadSpec.oversize r = true →
     rejected_before_io (Upload.main X detect app session r))
  ∧ (∀ detect r,
       EditSpec.oversize r = true →
       rejected_before_mutation (Edit.main X detect app session r)
       ∧ (trace (Edit.main X detect app session r) = []
          ∨ trace (Edit.main X detect app session r)
            = [EvSessionUser; EvDbFetchrow (get_chart_by_id (Edit.id r))])).
Proof.
  split.
  - intros detect r. apply UploadFacts.oversize_rejected.
  - intros detect r Hover.
    assert (Hstage : ∀ d old, fails (Edit.stage_files X detect session r d old))
      by (intros; by apply EditFacts.oversize_stage_fails).
    split.
    + apply EditFacts.edit_stage_failure_rejected. intros d old _. apply Hstage.
    + rewrite EditFacts.edit_main_unfold.
      destruct (outcome (Edit.check_request X app session r)) as [e | [d old]];
        simpl; [apply EditFacts.edit_check_request_trace |].
      specialize (Hstage d old).
      destruct (Edit.stage_files X detect session r d old); [| contradiction].
      simpl. apply EditFacts.edit_check_request_trace.
Qed.

(** C6.  A request whose chart script no recogniser accepts is rejected,
    and before that no object-store call and no database write is made (in
    the upload flow, no database call at all); when the checks that
    precede detection pass, the error is the 400 "Invalid file format.". *)
Theorem unrecognised_script_rejected :
  (∀ detect r,
     Upload.valid (detect (UploadFile.content (Upload.chart_file r))) = false →
     rejected_before_io (Upload.main X detect app session r)
     ∧ ∀ d jb vs,
         outcome (Upload.check_request X app session r) = inr d →
         get_and_check_file X (Upload.jacket_image r) "image" = inr jb →
         generate_backgrounds_resize_jacket X jb = inr vs →
         outcome (Upload.main X detect app session r)
         = inl Upload.invalid_format)
  ∧ (∀ detect r f,
       Edit.chart_file r = Some f →
       detect (UploadFile.content f) = None →
       rejected_before_mutation (Edit.main X detect app session r)
       ∧ ∀ d old,
           outcome (Edit.check_request X app session r) = inr (d, old) →
           over_limit "chart" (Some f) = false →
           ChartEditData.includes_chart d = true →
           outcome (Edit.main X detect app session r)
           = inl Edit.invalid_format).
Proof.
  split.
  - intros detect r Hinv. split.
    + apply UploadFacts.upload_stage_failure_rejected. intros d _.
      by apply UploadFacts.unrecognised_stage_fails.
    + intros d jb vs Hok Hjb Hvs.
      rewrite UploadFacts.upload_main_unfold, Hok.
      by rewrite (UploadFacts.unrecognised_stage_error X detect app session
                    r jb vs Hinv Hjb Hvs).
  - intros detect r f Hf Hdet. split.
    + apply EditFacts.edit_stage_failure_rejected. intros d old _.
      by apply (edit_unrecognised_stage_fails detect r d old f).
    + intros d old Hok Hsize Hinc.
      rewrite EditFacts.edit_main_unfold, Hok.
      by rewrite (edit_unrecognised_stage_error detect r d old f).
Qed.

End rejections.

(** An audio file of fifty megabytes and one byte. *)
Lemma oversize_rejected_before_stores_witness :
  rejected_before_io
    (Sample.run_upload false
       {| Upload.jacket_image := Sample.file "J";
          Upload.chart_file := Sample.file "pysekai:notes";
          Upload.audio_file := {| UploadFile.size := 52428801;
                                  UploadFile.content := Sample.b "X" |};
          Upload.data := "song"; Upload.preview_file := None;
          Upload.background_image := None |})
  ∧ rejected_before_mutation
      (Sample.run_edit false
         (Sample.edit "audio" None None
            (Some {| UploadFile.size := 52428801;
                     UploadFile.content := Sample.b "X" |}) None None)).
Proof.
  split.
  - apply (proj1 (oversize_rejected_before_stores Sample.X (Sample.app false)
                    Sample.session) Sample.detect_upload).
    reflexivity.
  - apply (proj2 (oversize_rejected_before_stores Sample.X (Sample.app false)
                    Sample.session) Sample.detect_edit).
    reflexivity.
Defined.

(** The edit handler has read the chart row by the time it rejects the
    over-limit audio: a database call was made. *)
Lemma edit_oversize_after_database_read :
  ¬ rejected_before_io
      (Sample.run_edit false
         (Sample.edit "audio" None None
            (Some {| UploadFile.size := 52428801;
                     UploadFile.content := Sample.b "X" |}) None None)).
Proof.
  intros (_ & _ & Hdb). unfold no_db in Hdb.
  set (tr := trace _) in Hdb. vm_compute in tr.
  rewrite Forall_lookup in Hdb.
  specialize (Hdb 1%nat _ eq_refl). discriminate Hdb.
Qed.

(** A script of no known dialect, sent to each handler. *)
Lemma unrecognised_script_rejected_witness :
  outcome (Sample.run_upload false (Sample.upload (Sample.file "garbage")))
  = inl Upload.invalid_format
  ∧ outcome (Sample.run_edit false
               (Sample.edit "chart" (Some (Sample.file "garbage"))
                  None None None None))
    = inl Edit.invalid_format.
Proof.
  split.
  - apply (proj2 (proj1 (unrecognised_script_rejected Sample.X
                           (Sample.app false) Sample.session)
                    Sample.detect_upload
                    (Sample.upload (Sample.file "garbage")) eq_refl)
             Sample.upload_data (Sample.b "J")
             (Sample.b "v1:J", Sample.b "v3:J", Sample.b "J"));
      reflexivity.
  - apply (proj2 (proj2 (unrecognised_script_rejected Sample.X
                           (Sample.app false) Sample.session)
                    Sample.detect_edit
                    (Sample.edit "chart" (Some (Sample.file "garbage"))
                       None None None None)
                    (Sample.file "garbage") eq_refl eq_refl)
             (Sample.edit_data false false true false false false false)
             Sample.stored);
      reflexivity.
Defined.

(** ** Already-canonical payloads *)

Section canonical.

Context (X : Externals) (app : App) (session : Session.t).

Lemma upload_convert_foreign det chart_bytes :
  UploadSpec.foreign_leveldata det = true →
  debug app = false →
  Upload.run_convert X app det chart_bytes
  = inl (HTTPException HTTP_400_BAD_REQUEST
           (str_exn (HTTPException HTTP_400_BAD_REQUEST
                       ("Incorrect LevelData: " +:+ fmt_opt (Upload.ld_type det)
                        +:+ " (expected: NextSekai)")))).
Proof.
  unfold UploadSpec.foreign_leveldata, UploadSpec.is_leveldata,
    Upload.run_convert, Upload.convert.
  rewrite !andb_true_iff, !negb_true_iff.
  intros [[[-> ->] ->] ->] ->. reflexivity.
Qed.

Lemma upload_convert_debug det chart_bytes :
  UploadSpec.is_leveldata det = true →
  debug app = true →
  Upload.run_convert X app det chart_bytes
  = inr (if Upload.compressed det then chart_bytes
         else gzip_compress X "LevelData" 0 chart_bytes).
Proof.
  unfold UploadSpec.is_leveldata, Upload.run_convert, Upload.convert.
  rewrite !andb_true_iff, !negb_true_iff.
  intros [[-> ->] ->] ->. rewrite andb_false_r.
  by destruct (Upload.compressed det).
Qed.

Lemma edit_convert_foreign result chart_bytes :
  EditSpec.foreign_leveldata result = true →
  Edit.run_convert X result chart_bytes
  = inl (HTTPException HTTP_400_BAD_REQUEST
           (str_exn (HTTPException HTTP_400_BAD_REQUEST
                       ("Incorrect LevelData: " +:+ snd result
                        +:+ " (expected: pysekai)")))).
Proof.
  unfold EditSpec.foreign_leveldata, Edit.run_convert, Edit.convert.
  rewrite andb_true_iff. intros [Hlvd ->].
  destruct (String.eqb (fst result) "sus") eqn:Hsus.
  { apply String.eqb_eq in Hsus, Hlvd. congruence. }
  destruct (String.eqb (fst result) "usc") eqn:Husc.
  { apply String.eqb_eq in Husc, Hlvd. congruence. }
  rewrite Hlvd. reflexivity.
Qed.

(** What each handler does with level data whose producer tag it does not
    expect.  The upload handler rejects a tag other than "nextsekai" with
    a 400, unless the application runs in debug mode, in which any tag is
    converted.  The edit handler rejects a tag that does not end in
    "pysekai" with a 400 whatever the mode. *)
Theorem foreign_producer_rejected :
  (∀ detect r,
     UploadSpec.foreign_leveldata
       (detect (UploadFile.content (Upload.chart_file r))) = true →
     (debug app = false →
      rejected_before_io (Upload.main X detect app session r)
      ∧ ∃ detail, ∀ chart_bytes,
          Upload.run_convert X app
            (detect (UploadFile.content (Upload.chart_file r))) chart_bytes
          = inl (HTTPException HTTP_400_BAD_REQUEST detail))
     ∧ (debug app = true →
        ∀ chart_bytes,
          ¬ fails (Upload.run_convert X app
                     (detect (UploadFile.content (Upload.chart_file r)))
                     chart_bytes)))
  ∧ (∀ detect r f result,
       Edit.chart_file r = Some f →
       detect (UploadFile.content f) = Some result →
       EditSpec.foreign_leveldata result = true →
       rejected_before_mutation (Edit.main X detect app session r)
       ∧ ∃ detail, ∀ chart_bytes,
           Edit.run_convert X result chart_bytes
           = inl (HTTPException HTTP_400_BAD_REQUEST detail)).
Proof.
  split.
  - intros detect r Hforeign. split.
    + intros Hdebug. split.
      * apply UploadFacts.upload_stage_failure_rejected. intros d _.
        unfold Upload.stage_files.
        destruct (get_and_check_file X (Upload.jacket_image r) "image")
          as [e | jb]; simpl; [exact I |].
        destruct (generate_backgrounds_resize_jacket X jb)
          as [e | [[v1 v3] jb']]; simpl; [exact I |].
        destruct (negb _); [exact I |].
        by rewrite upload_convert_foreign.
      * eexists. intros chart_bytes. by apply upload_convert_foreign.
    + intros Hdebug chart_bytes.
      rewrite upload_convert_debug; [tauto | | exact Hdebug].
      unfold UploadSpec.foreign_leveldata in Hforeign.
      by apply andb_true_iff in Hforeign as [? _].
  - intros detect r f result Hf Hdet Hforeign. split.
    + apply EditFacts.edit_stage_failure_rejected. intros d old _.
      apply EditFacts.edit_stage_files_fails. left. intros l.
      unfold Edit.chart_block. rewrite Hf.
      destruct (_ >? _)%Z; [exact I |].
      destruct (ChartEditData.includes_chart d); [| exact I].
      rewrite Hdet. by rewrite edit_convert_foreign.
    + eexists. intros chart_bytes. by apply edit_convert_foreign.
Qed.

(** C9.  Given that [gzip.decompress] undoes [gzip.GzipFile], an
    uncompressed level-data payload of an accepted producer is converted,
    in both handlers, to the bytes [GzipFile] writes for it with
    modification time 0 and file name "LevelData"; they decompress to the
    payload, and depend on nothing but the payload. *)
Theorem canonical_payload_round_trip :
  (∀ chart_bytes,
     gzip_decompress X (gzip_compress X "LevelData" 0 chart_bytes)
     = Some chart_bytes) →
  (∀ det chart_bytes,
     UploadSpec.is_leveldata det = true →
     Upload.compressed det = false →
     UploadSpec.foreign_leveldata det = false ∨ debug app = true →
     ∃ stored,
       Upload.run_convert X app det chart_bytes = inr stored
       ∧ stored = gzip_compress X "LevelData" 0 chart_bytes
       ∧ gzip_decompress X stored = Some chart_bytes)
  ∧ (∀ result chart_bytes,
       EditSpec.plain_leveldata result = true →
       ∃ stored,
         Edit.run_convert X result chart_bytes = inr stored
         ∧ stored = gzip_compress X "LevelData" 0 chart_bytes
         ∧ gzip_decompress X stored = Some chart_bytes).
Proof.
  intros Hgzip. split.
  - intros det chart_bytes Hld Hplain Hok.
    exists (gzip_compress X "LevelData" 0 chart_bytes).
    split; [| split; [reflexivity | apply Hgzip]].
    unfold UploadSpec.foreign_leveldata in Hok. rewrite Hld in Hok.
    unfold UploadSpec.is_leveldata in Hld.
    apply andb_true_iff in Hld as [Hld Hlvd].
    apply andb_true_iff in Hld as [Hsus Husc].
    apply negb_true_iff in Hsus, Husc.
    unfold Upload.run_convert, Upload.convert.
    rewrite Hsus, Husc, Hlvd, Hplain. simpl.
    destruct Hok as [Hok | Hok].
    + simpl in Hok. rewrite Hok. reflexivity.
    + rewrite Hok, andb_false_r. reflexivity.
  - intros result chart_bytes Hplain.
    exists (gzip_compress X "LevelData" 0 chart_bytes).
    split; [| split; [reflexivity | apply Hgzip]].
    unfold EditSpec.plain_leveldata in Hplain.
    apply andb_true_iff in Hplain as [Hplain Hraw].
    apply andb_true_iff in Hplain as [Hlvd Htag].
    unfold Edit.run_convert, Edit.convert.
    destruct (String.eqb (fst result) "sus") eqn:Hsus.
    { apply String.eqb_eq in Hsus, Hlvd. congruence. }
    destruct (String.eqb (fst result) "usc") eqn:Husc.
    { apply String.eqb_eq in Husc, Hlvd. congruence. }
    rewrite Hlvd, Htag, Hraw. reflexivity.
Qed.

End canonical.

(** Level data tagged "pysekai" sent to the upload handler outside debug
    mode, and level data tagged "nextsekai" sent to the edit handler. *)
Lemma foreign_producer_rejected_witness :
  rejected_before_io
    (Sample.run_upload false (Sample.upload (Sample.file "pysekai:notes")))
  ∧ rejected_before_mutation
      (Sample.run_edit false
         (Sample.edit "chart" (Some (Sample.file "nextsekai:notes"))
            None None None None)).
Proof.
  split.
  - apply (proj1 (foreign_producer_rejected Sample.X (Sample.app false)
                    Sample.session) Sample.detect_upload
             (Sample.upload (Sample.file "pysekai:notes")) eq_refl).
    reflexivity.
  - apply (proj2 (foreign_producer_rejected Sample.X (Sample.app false)
                    Sample.session) Sample.detect_edit
             (Sample.edit "chart" (Some (Sample.file "nextsekai:notes"))
                None None None None)
             (Sample.file "nextsekai:notes") ("lvd", "nextsekai")
             eq_refl eq_refl eq_refl).
Defined.

(** C5, on the edit flow.  Level data tagged "nextsekai" is what the
    upload handler expects, and what the edit handler itself stores for
    the two script dialects, which it exports through [next_sekai]; the
    upload handler accepts it.  The edit handler refuses it and asks for
    "pysekai".  In debug mode, where the upload handler accepts level data
    of any producer, the edit handler refuses it all the same: the test of
    line 113 reads no debug flag. *)
Theorem edit_rejects_expected_producer :
  let next := Sample.file "nextsekai:notes" in
  let edit_of debug :=
    outcome (Sample.run_edit debug
               (Sample.edit "chart" (Some next) None None None None)) in
  Sample.detect_edit (UploadFile.content next) = Some ("lvd", "nextsekai")
  ∧ outcome (Sample.run_upload false (Sample.upload next))
    = inr [("id", Sample.chart_id)]
  ∧ edit_of false
    = inl (HTTPException 400
             "400: Incorrect LevelData: nextsekai (expected: pysekai)")
  ∧ debug (Sample.app true) = true
  ∧ outcome (Sample.run_upload true
               (Sample.upload (Sample.file "pysekai:notes")))
    = inr [("id", Sample.chart_id)]
  ∧ edit_of true
    = inl (HTTPException 400
             "400: Incorrect LevelData: nextsekai (expected: pysekai)").
Proof. intros next edit_of. repeat split; vm_compute; reflexivity. Qed.

Lemma sample_gzip_round_trip chart_bytes :
  Sample.gunzip (Sample.gzip "LevelData" 0 chart_bytes) = Some chart_bytes.
Proof. reflexivity. Qed.

(** Uncompressed level data of the expected producer, through each
    handler's converter. *)
Lemma canonical_payload_round_trip_witness :
  gzip_decompress Sample.X
    (gzip_compress Sample.X "LevelData" 0 (Sample.b "nextsekai:notes"))
  = Some (Sample.b "nextsekai:notes")
  ∧ Edit.run_convert Sample.X ("lvd", "pysekai") (Sample.b "pysekai:notes")
    = inr (Sample.gzip "LevelData" 0 (Sample.b "pysekai:notes")).
Proof.
  pose proof (canonical_payload_round_trip Sample.X (Sample.app false)
                sample_gzip_round_trip) as [Hup Hed].
  split.
  - destruct (Hup (Sample.detect_upload (Sample.b "nextsekai:notes"))
                (Sample.b "nextsekai:notes") eq_refl eq_refl
                (or_introl eq_refl)) as (stored & _ & -> & Hdec).
    exact Hdec.
  - destruct (Hed ("lvd", "pysekai") (Sample.b "pysekai:notes") eq_refl)
      as (stored & Hconv & -> & _).
    exact Hconv.
Defined.

(** ** Deduplication of the uploads of one request *)

Lemma uploads_to_app key tr1 tr2 :
  uploads_to key (tr1 ++ tr2) = (uploads_to key tr1 + uploads_to key tr2)%nat.
Proof. unfold uploads_to. by rewrite List.filter_app, length_app. Qed.


Lemma uploads_to_none key tr :
  Forall (λ e, is_s3_upload e = false) tr → uploads_to key tr = 0%nat.
Proof.
  unfold uploads_to. induction 1 as [| e tr He _ IH]; [reflexivity |].
  simpl. destruct e as [| | | | [k | k body ct]]; simpl in *;
    try exact IH; discriminate.
Qed.

Section dedup.

(** The key under which a hash is stored, injective in the hash. *)
Context (key_of : string → string) (key_of_inj : Inj (=) (=) key_of).

#[local] Abbreviation keyed := (keyed key_of).

(** The loop uploads each hash once, unless it was added before. *)
Lemma uploads_to_upload_tasks files : ∀ alr h,
  Forall keyed files →
  uploads_to (key_of h) (map EvS3 (upload_tasks alr files))
  = if bool_decide (h ∈ alr) then 0%nat
    else if bool_decide (h ∈ map S3File.hash files) then 1%nat else 0%nat.
Proof.
  induction files as [| f files IH]; intros alr h Hkeyed.
  { simpl. by destruct (bool_decide (h ∈ alr)). }
  apply Forall_cons in Hkeyed as [Hf Hkeyed]. simpl.
  destruct (bool_decide_reflect (S3File.hash f ∈ alr)) as [Hin | Hnin].
  - rewrite IH by exact Hkeyed.
    destruct (bool_decide_reflect (h ∈ alr)) as [Hh | Hh]; [reflexivity |].
    assert (h ≠ S3File.hash f) by congruence.
    destruct (bool_decide_reflect (h ∈ map S3File.hash files)) as [Hm | Hm].
    + rewrite bool_decide_eq_true_2; [reflexivity |]. by apply list_elem_of_further.
    + rewrite bool_decide_eq_false_2; [reflexivity |].
      intros [Heq | Hm']%elem_of_cons; congruence.
  - simpl. unfold uploads_to in *. simpl. rewrite Hf.
    specialize (IH (alr ++ [S3File.hash f])%list h Hkeyed).
    destruct (String.eqb_spec (key_of (S3File.hash f)) (key_of h)) as [Heq | Hne].
    + apply key_of_inj in Heq. subst h. simpl. rewrite IH.
      rewrite (bool_decide_eq_true_2 (_ ∈ (alr ++ _)%list))
        by (apply elem_of_app; right; apply list_elem_of_singleton; reflexivity).
      rewrite (bool_decide_eq_false_2 _ Hnin).
      rewrite bool_decide_eq_true_2; [reflexivity | apply list_elem_of_here].
    + assert (h ≠ S3File.hash f) by congruence.
      rewrite IH.
      destruct (bool_decide_reflect (h ∈ alr)) as [Hh | Hh].
      * rewrite bool_decide_eq_true_2; [reflexivity |].
        apply elem_of_app. by left.
      * rewrite bool_decide_eq_false_2.
        2:{ intros [? | ?%list_elem_of_singleton]%elem_of_app; congruence. }
        destruct (bool_decide_reflect (h ∈ map S3File.hash files)) as [Hm | Hm].
        -- rewrite bool_decide_eq_true_2; [reflexivity |].
           by apply list_elem_of_further.
        -- rewrite bool_decide_eq_false_2; [reflexivity |].
           intros [Heq | Hm']%elem_of_cons; congruence.
Qed.

(** From an empty [alr_added_hashes], every file of the list has exactly
    one upload under its key. *)
Lemma one_upload_per_file files f :
  Forall keyed files → f ∈ files →
  uploads_to (key_of (S3File.hash f)) (map EvS3 (upload_tasks [] files)) = 1%nat.
Proof.
  intros Hkeyed Hin. rewrite uploads_to_upload_tasks by exact Hkeyed.
  rewrite bool_decide_eq_false_2 by apply not_elem_of_nil.
  rewrite bool_decide_eq_true_2; [reflexivity |].
  by apply list_elem_of_fmap_2.
Qed.

End dedup.

Section edit_dedup.
Import Edit EditSpec.

Context (X : Externals) (detect : bytes → option (string * string))
  (app : App) (session : Session.t)
  (r : Request) (d : ChartEditData.t) (old : ChartDBResponse.t).

#[local] Abbreviation key_of := (object_key session (id r)).
#[local] Abbreviation ok := (staged_ok key_of old).

Lemma object_key_inj chart_id : Inj (=) (=) (object_key session chart_id).
Proof.
  intros h1 h2 Heq. unfold object_key in Heq.
  by repeat apply (inj (String.app _)) in Heq.
Qed.

Lemma pointer_ok_unbound uploads stored : pointer_ok uploads None stored.
Proof. intros h [=]. Qed.

Lemma pointer_ok_stored uploads h : pointer_ok uploads (Some h) (Some h).
Proof. intros h' [= <-]. by right. Qed.

Lemma pointer_ok_snoc uploads f v stored :
  pointer_ok uploads v stored → pointer_ok (uploads ++ [f]) v stored.
Proof.
  intros Hok h Hv. destruct (Hok h Hv) as [Hin | Hst]; [left | by right].
  rewrite map_app. apply elem_of_app. by left.
Qed.

Lemma pointer_ok_new uploads f h stored :
  S3File.hash f = h → pointer_ok (uploads ++ [f]) (Some h) stored.
Proof.
  intros <- h' [= <-]. left. rewrite map_app. apply elem_of_app. right.
  apply list_elem_of_here.
Qed.

Lemma keyed_snoc uploads hash body content_type :
  Forall (keyed key_of) uploads →
  Forall (keyed key_of) (uploads ++ [s3_file session (id r) hash body content_type]).
Proof.
  intros H. apply Forall_app. split; [exact H |]. by constructor.
Qed.

Create HintDb staged.

#[local] Hint Resolve pointer_ok_unbound pointer_ok_stored pointer_ok_snoc
  pointer_ok_new keyed_snoc : staged.

#[local] Ltac staged :=
  unfold staged_ok in *; simpl in *; intuition (eauto 6 with staged).

Lemma init_locals_ok : ok init_locals.
Proof. unfold staged_ok. simpl. repeat split; auto with staged. Qed.

Lemma chart_block_ok l l' :
  chart_block X detect session r d old l = inr l' → ok l → ok l'.
Proof.
  unfold chart_block.
  destruct (chart_file r) as [f |].
  2:{ destruct (ChartEditData.includes_chart d); [discriminate |].
      by intros [= <-]. }
  destruct (_ >? _)%Z; [discriminate |].
  destruct (ChartEditData.includes_chart d); [| discriminate].
  destruct (detect _) as [result |]; [| discriminate].
  destruct (run_convert X result _) as [e | chart_bytes]; [discriminate |].
  simpl.
  destruct (String.eqb_spec (calculate_sha1 X chart_bytes)
              (ChartDBResponse.chart_file_hash old)) as [Heq | Hne];
    simpl; intros [= <-]; [rewrite Heq |]; staged.
Qed.

Lemma jacket_block_ok l l' :
  jacket_block X session r d old l = inr l' → ok l → ok l'.
Proof.
  unfold jacket_block.
  destruct (jacket_image r) as [f |].
  2:{ destruct (ChartEditData.includes_jacket d); [discriminate |].
      by intros [= <-]. }
  destruct (_ >? _)%Z; [discriminate |].
  destruct (ChartEditData.includes_jacket d); [| discriminate].
  destruct (get_and_check_file X f "image") as [e | jacket_bytes];
    [discriminate |].
  simpl.
  destruct (String.eqb_spec (calculate_sha1 X jacket_bytes)
              (ChartDBResponse.jacket_file_hash old)) as [Heq | Hne]; simpl.
  { intros [= <-]. rewrite Heq. staged. }
  destruct (generate_backgrounds_resize_jacket X jacket_bytes)
    as [e | [[v1 v3] jacket_bytes']]; [discriminate |].
  simpl. intros [= <-]. staged.
Qed.

Lemma audio_block_ok l l' :
  audio_block X session r d old l = inr l' → ok l → ok l'.
Proof.
  unfold audio_block.
  destruct (audio_file r) as [f |].
  2:{ destruct (ChartEditData.includes_audio d); [discriminate |].
      by intros [= <-]. }
  destruct (_ >? _)%Z; [discriminate |].
  destruct (ChartEditData.includes_audio d); [| discriminate].
  destruct (get_and_check_file X f "audio/mpeg") as [e | audio_bytes];
    [discriminate |].
  simpl.
  destruct (String.eqb_spec (calculate_sha1 X audio_bytes)
              (ChartDBResponse.music_file_hash old)) as [Heq | Hne];
    simpl; intros [= <-]; [rewrite Heq |]; staged.
Qed.

Lemma eq_opt_hash_true h o : eq_opt_hash h o = true → o = Some h.
Proof.
  destruct o as [h' |]; simpl; [| discriminate].
  by intros ->%String.eqb_eq.
Qed.

Lemma preview_block_ok l l' :
  preview_block X session r d old l = inr l' → ok l → ok l'.
Proof.
  unfold preview_block.
  destruct (preview_file r) as [f |].
  2:{ destruct (_ && _); [intros [= <-]; staged |].
      destruct (ChartEditData.includes_preview d); [discriminate |].
      by intros [= <-]. }
  destruct (_ >? _)%Z; [discriminate |].
  destruct (_ && _).
  2:{ destruct (ChartEditData.delete_preview d); discriminate. }
  destruct (get_and_check_file X f "audio/mpeg") as [e | preview_bytes];
    [discriminate |].
  simpl.
  destruct (eq_opt_hash _ _) eqn:Heq; simpl; intros [= <-].
  - apply eq_opt_hash_true in Heq. unfold staged_ok. simpl. rewrite Heq.
    staged.
  - staged.
Qed.

Lemma background_block_ok l l' :
  background_block X session r d old l = inr l' → ok l → ok l'.
Proof.
  unfold background_block.
  destruct (background_image r) as [f |].
  2:{ destruct (_ && _); [intros [= <-]; staged |].
      destruct (ChartEditData.includes_background d); [discriminate |].
      by intros [= <-]. }
  destruct (_ >? _)%Z; [discriminate |].
  destruct (_ && _).
  2:{ destruct (ChartEditData.delete_background d); discriminate. }
  destruct (get_and_check_file X f "image/png") as [e | background_bytes];
    [discriminate |].
  simpl.
  destruct (eq_opt_hash _ _) eqn:Heq; simpl; intros [= <-].
  - apply eq_opt_hash_true in Heq. unfold staged_ok. simpl. rewrite Heq.
    staged.
  - staged.
Qed.

Lemma stage_files_ok l :
  stage_files X detect session r d old = inr l → ok l.
Proof.
  unfold stage_files.
  destruct (chart_block _ _ _ _ _ _ init_locals) as [e | l1] eqn:E1;
    [discriminate |]. simpl.
  destruct (jacket_block _ _ _ _ _ l1) as [e | l2] eqn:E2; [discriminate |].
  simpl.
  destruct (audio_block _ _ _ _ _ l2) as [e | l3] eqn:E3; [discriminate |].
  simpl.
  destruct (preview_block _ _ _ _ _ l3) as [e | l4] eqn:E4; [discriminate |].
  simpl. intros E5.
  eapply background_block_ok; [exact E5 |].
  eapply preview_block_ok; [exact E4 |].
  eapply audio_block_ok; [exact E3 |].
  eapply jacket_block_ok; [exact E2 |].
  eapply chart_block_ok; [exact E1 |].
  apply init_locals_ok.
Qed.

End edit_dedup.

(** ** What the blocks of an edit stage *)

Section edit_staged.
Import Edit EditSpec.

Context (X : Externals) (detect : bytes → option (string * string))
  (session : Session.t)
  (r : Request) (d : ChartEditData.t) (old : ChartDBResponse.t).


Lemma grows_trans l1 l2 l3 : grows X l1 l2 → grows X l2 l3 → grows X l1 l3.
Proof. intros [H1 H1'] [H2 H2']. split; auto. Qed.









End edit_staged.

Section one_upload.

Context (X : Externals) (app : App) (session : Session.t).






(** What the upload handler stages: every entry is stored under the key of
    its hash, and every hash of the row to insert is the hash of an
    entry. *)
Lemma upload_stage_files_ok detect r d chart_id st :
  Upload.stage_files X detect app session r chart_id = inr st →
  Forall (keyed (Upload.object_key session chart_id)) (Upload.s3_uploads st)
  ∧ ∀ h, h ∈ UploadSpec.slot_hashes (Upload.new_chart session d chart_id st) →
         h ∈ map S3File.hash (Upload.s3_uploads st).
Proof.
  unfold Upload.stage_files.
  destruct (get_and_check_file X (Upload.jacket_image r) "image")
    as [e | jb]; [discriminate |]. simpl.
  destruct (generate_backgrounds_resize_jacket X jb)
    as [e | [[v1 v3] jb']]; [discriminate |]. simpl.
  destruct (negb _); [discriminate |].
  destruct (Upload.run_convert X app _ _) as [e | cb]; [discriminate |]. simpl.
  destruct (get_and_check_file X (Upload.audio_file r) "audio/mpeg")
    as [e | ab]; [discriminate |]. simpl.
  destruct (Upload.preview_file r) as [pf |];
    [destruct (get_and_check_file X pf "audio/mpeg") as [e | pb];
     [discriminate |] |];
    simpl;
    (destruct (Upload.background_image r) as [bf |];
     [destruct (get_and_check_file X bf "image/png") as [e | bb];
      [discriminate |] |];
     simpl; intros [= <-]; simpl;
     (split;
      [ repeat (apply Forall_app; split); repeat constructor
      | unfold UploadSpec.slot_hashes; simpl; intros h Hh;
        rewrite ?elem_of_cons, ?elem_of_nil in Hh |- *; tauto ])).
Qed.

Lemma upload_uploads_to_main detect r d st key :
  outcome (Upload.check_request X app session r) = inr d →
  Upload.stage_files X detect app session r (Upload.remove_dashes (uuid4 app))
  = inr st →
  uploads_to key (trace (Upload.main X detect app session r))
  = uploads_to key (map EvS3 (upload_tasks [] (Upload.s3_uploads st))).
Proof.
  intros Hok Hstage.
  rewrite UploadFacts.upload_main_unfold, Hok, Hstage. unfold trace at 1.
  simpl. rewrite !uploads_to_app.
  rewrite (uploads_to_none key (trace (Upload.check_request _ _ _ _))).
  2:{ destruct (UploadFacts.upload_check_request_trace X app session r)
        as [-> | ->]; repeat constructor. }
  rewrite (uploads_to_none key (trace (Upload.db_commit _ _ _))); [lia |].
  destruct (UploadFacts.upload_db_commit_trace app session
              (Upload.new_chart session d (Upload.remove_dashes (uuid4 app)) st))
    as (rest & -> & Hrest).
  constructor; [reflexivity |].
  eapply Forall_impl; [exact Hrest |]. simpl. intros e [_ He].
  by destruct e as [| | | | []].
Qed.








End one_upload.


(** ** Resubmitting what is stored *)

(** C3, on the jacket.  The stored jacket is the normalised image ["J"].
    An edit resubmits an image whose normalised form is again ["J"], so
    its final bytes hash to the stored hash; yet the handler, which
    compares the hash of the bytes as submitted, issues in one batch a
    delete and an upload of the blob of that very hash.  Resubmitting
    ["J"] itself leaves [v1_hash] unbound, and the handler raises before
    any commit. *)
Theorem jacket_resubmission_deletes_and_uploads :
  let r := Sample.edit "jacket" None (Some (Sample.file "J#")) None None None in
  let r' := Sample.edit "jacket" None (Some (Sample.file "J")) None None None in
  let key := "alice/0123456789abcdef0123456789abcdef/sha1:J" in
  generate_backgrounds_resize_jacket Sample.X (Sample.b "J#")
  = inr (Sample.b "v1:J", Sample.b "v3:J", Sample.b "J")
  ∧ calculate_sha1 Sample.X (Sample.b "J")
    = ChartDBResponse.jacket_file_hash Sample.stored
  ∧ EvS3 (s3_delete key) ∈ trace (Sample.run_edit false r)
  ∧ EvS3 (s3_upload key (Sample.b "J") "image/png")
    ∈ trace (Sample.run_edit false r)
  ∧ outcome (Sample.run_edit false r') = inl (UnboundLocalError "v1_hash").
Proof.
  intros r r' key. split; [reflexivity |]. split; [reflexivity |].
  split; [| split].
  - apply (list_elem_of_lookup_2 _ 4). vm_compute. reflexivity.
  - apply (list_elem_of_lookup_2 _ 5). vm_compute. reflexivity.
  - vm_compute. reflexivity.
Qed.

(** C10, on identical audio.  The chart has a replay blob under its
    prefix.  An edit resubmits the stored audio with [includes_audio]: it
    succeeds and deletes the leaderboard records, but makes no
    object-store call at all, so the replay blob stays. *)
Theorem identical_audio_keeps_replay_blobs :
  let r := Sample.edit "audio" None None (Some (Sample.file "X")) None None in
  calculate_sha1 Sample.X (Sample.b "X")
  = ChartDBResponse.music_file_hash Sample.stored
  ∧ s3_objects (Sample.app false) (Edit.replays_prefix Sample.stored)
    = ["alice/0123456789abcdef0123456789abcdef/replays/bob/r1"]
  ∧ outcome (Sample.run_edit false r) = inr Edit.success
  ∧ EditSpec.leaderboards_deleted Sample.stored (trace (Sample.run_edit false r))
  ∧ no_s3 (trace (Sample.run_edit false r))
  ∧ ¬ EditSpec.replays_deleted (Sample.app false) Sample.stored
        (trace (Sample.run_edit false r)).
Proof.
  intros r. split; [reflexivity |]. split; [reflexivity |].
  split; [vm_compute; reflexivity |].
  assert (Hno : no_s3 (trace (Sample.run_edit false r))).
  { unfold no_s3. set (tr := trace _). vm_compute in tr.
    repeat constructor. }
  split; [| split; [exact Hno |]].
  - apply (list_elem_of_lookup_2 _ 4). vm_compute. reflexivity.
  - intros Hdel.
    specialize (Hdel "alice/0123456789abcdef0123456789abcdef/replays/bob/r1"
                  (list_elem_of_here _ _)).
    unfold no_s3 in Hno. rewrite Forall_forall in Hno.
    specialize (Hno _ Hdel). discriminate Hno.
Qed.

(** *** The four slots whose hash is taken on the final bytes

    For the chart script, the audio, the preview and the background the
    handler hashes the bytes it would store.  When that hash is the stored
    one, the block appends nothing to [s3_uploads] and nothing to
    [old_deletes], and binds the hash variable to the stored hash, which is
    what the commit then writes. *)

Section noop.
Import Edit.

Context (X : Externals) (detect : bytes → option (string * string))
  (session : Session.t)
  (r : Request) (d : ChartEditData.t) (old : ChartDBResponse.t).

Lemma chart_block_noop l f result chart_bytes :
  chart_file r = Some f →
  over_limit "chart" (Some f) = false →
  ChartEditData.includes_chart d = true →
  detect (UploadFile.content f) = Some result →
  run_convert X result (UploadFile.content f) = inr chart_bytes →
  calculate_sha1 X chart_bytes = ChartDBResponse.chart_file_hash old →
  ∃ l', chart_block X detect session r d old l = inr l'
        ∧ s3_uploads l' = s3_uploads l
        ∧ old_deletes l' = old_deletes l
        ∧ chart_hash l' = Some (ChartDBResponse.chart_file_hash old).
Proof.
  intros Hf Hsize Hinc Hdet Hconv Hhash. unfold chart_block.
  simpl in Hsize. rewrite Hf, Hsize, Hinc, Hdet, Hconv. simpl.
  rewrite Hhash, String.eqb_refl. simpl. eauto.
Qed.

Lemma audio_block_noop l f audio_bytes :
  audio_file r = Some f →
  over_limit "audio" (Some f) = false →
  ChartEditData.includes_audio d = true →
  get_and_check_file X f "audio/mpeg" = inr audio_bytes →
  calculate_sha1 X audio_bytes = ChartDBResponse.music_file_hash old →
  ∃ l', audio_block X session r d old l = inr l'
        ∧ s3_uploads l' = s3_uploads l
        ∧ old_deletes l' = old_deletes l
        ∧ audio_hash l' = Some (ChartDBResponse.music_file_hash old).
Proof.
  intros Hf Hsize Hinc Hget Hhash. unfold audio_block.
  simpl in Hsize. rewrite Hf, Hsize, Hinc, Hget. simpl.
  rewrite Hhash, String.eqb_refl. simpl. eauto.
Qed.

Lemma preview_block_noop l f preview_bytes :
  preview_file r = Some f →
  over_limit "preview" (Some f) = false →
  ChartEditData.includes_preview d = true →
  ChartEditData.delete_preview d = false →
  get_and_check_file X f "audio/mpeg" = inr preview_bytes →
  ChartDBResponse.preview_file_hash old = Some (calculate_sha1 X preview_bytes) →
  ∃ l', preview_block X session r d old l = inr l'
        ∧ s3_uploads l' = s3_uploads l
        ∧ old_deletes l' = old_deletes l
        ∧ preview_hash l' = ChartDBResponse.preview_file_hash old.
Proof.
  intros Hf Hsize Hinc Hdel Hget Hhash. unfold preview_block.
  simpl in Hsize. rewrite Hf, Hsize, Hinc, Hdel, Hget. simpl.
  rewrite Hhash. simpl. rewrite String.eqb_refl. simpl. eauto.
Qed.

Lemma background_block_noop l f background_bytes :
  background_image r = Some f →
  over_limit "background" (Some f) = false →
  ChartEditData.includes_background d = true →
  ChartEditData.delete_background d = false →
  get_and_check_file X f "image/png" = inr background_bytes →
  ChartDBResponse.background_file_hash old
  = Some (calculate_sha1 X background_bytes) →
  ∃ l', background_block X session r d old l = inr l'
        ∧ s3_uploads l' = s3_uploads l
        ∧ old_deletes l' = old_deletes l
        ∧ background_hash l' = ChartDBResponse.background_file_hash old.
Proof.
  intros Hf Hsize Hinc Hdel Hget Hhash. unfold background_block.
  simpl in Hsize. rewrite Hf, Hsize, Hinc, Hdel, Hget. simpl.
  rewrite Hhash. simpl. rewrite String.eqb_refl. simpl. eauto.
Qed.

(** The jacket block, by contrast, compares the hash of the bytes as
    submitted: when it differs from the stored hash the block appends the
    jacket to both lists, whatever the hash of the resized bytes. *)
Lemma jacket_block_replaces l f jacket_bytes v1 v3 resized :
  jacket_image r = Some f →
  over_limit "jacket" (Some f) = false →
  ChartEditData.includes_jacket d = true →
  get_and_check_file X f "image" = inr jacket_bytes →
  calculate_sha1 X jacket_bytes ≠ ChartDBResponse.jacket_file_hash old →
  generate_backgrounds_resize_jacket X jacket_bytes = inr (v1, v3, resized) →
  ∃ l', jacket_block X session r d old l = inr l'
        ∧ "jacket_file_hash" ∈ old_deletes l'
        ∧ s3_file session (id r) (calculate_sha1 X resized) resized "image/png"
          ∈ s3_uploads l'.
Proof.
  intros Hf Hsize Hinc Hget Hne Hgen. unfold jacket_block.
  simpl in Hsize. rewrite Hf, Hsize, Hinc, Hget. simpl.
  apply String.eqb_neq in Hne. rewrite Hne. simpl. rewrite Hgen. simpl.
  eexists. split; [reflexivity |]. simpl. split.
  - rewrite !elem_of_app, !list_elem_of_singleton. tauto.
  - rewrite !elem_of_app, !list_elem_of_singleton. tauto.
Qed.

(** When the bytes as submitted hash to the stored jacket hash, the block
    leaves [v1_hash] as it found it: unbound. *)
Lemma jacket_block_same_hash l f jacket_bytes :
  jacket_image r = Some f →
  over_limit "jacket" (Some f) = false →
  ChartEditData.includes_jacket d = true →
  get_and_check_file X f "image" = inr jacket_bytes →
  calculate_sha1 X jacket_bytes = ChartDBResponse.jacket_file_hash old →
  ∃ l', jacket_block X session r d old l = inr l'
        ∧ v1_hash l' = v1_hash l ∧ v3_hash l' = v3_hash l.
Proof.
  intros Hf Hsize Hinc Hget Hhash. unfold jacket_block.
  simpl in Hsize. rewrite Hf, Hsize, Hinc, Hget. simpl.
  rewrite Hhash, String.eqb_refl. simpl. eauto.
Qed.

End noop.

(** ** Leaderboards and replays *)

Section replays.
Import Edit EditSpec.

Context (X : Externals) (detect : bytes → option (string * string))
  (app : App) (session : Session.t).

Section blocks.

Context (r : Request) (d : ChartEditData.t) (old : ChartDBResponse.t).

Lemma chart_block_chart_updated l l' :
  chart_block X detect session r d old l = inr l' →
  chart_updated l' = chart_updated l || attached (chart_file r).
Proof.
  unfold chart_block.
  destruct (chart_file r) as [f |]; simpl.
  2:{ destruct (ChartEditData.includes_chart d); [discriminate |].
      intros [= <-]. by rewrite orb_false_r. }
  destruct (_ >? _)%Z; [discriminate |].
  destruct (ChartEditData.includes_chart d); [| discriminate].
  destruct (detect _) as [result |]; [| discriminate].
  destruct (run_convert X result _) as [e | chart_bytes]; [discriminate |].
  simpl. intros [= <-]. simpl. by rewrite orb_true_r.
Qed.

Lemma jacket_block_chart_updated l l' :
  jacket_block X session r d old l = inr l' →
  chart_updated l' = chart_updated l.
Proof.
  unfold jacket_block.
  destruct (jacket_image r) as [f |].
  2:{ destruct (ChartEditData.includes_jacket d); [discriminate |].
      by intros [= <-]. }
  destruct (_ >? _)%Z; [discriminate |].
  destruct (ChartEditData.includes_jacket d); [| discriminate].
  destruct (get_and_check_file X f "image") as [e | jacket_bytes];
    [discriminate |].
  simpl. destruct (negb _); [| by intros [= <-]].
  destruct (generate_backgrounds_resize_jacket X jacket_bytes)
    as [e | [[v1 v3] jacket_bytes']]; [discriminate |].
  simpl. by intros [= <-].
Qed.

Lemma audio_block_chart_updated l l' :
  audio_block X session r d old l = inr l' →
  chart_updated l' = chart_updated l || attached (audio_file r).
Proof.
  unfold audio_block.
  destruct (audio_file r) as [f |]; simpl.
  2:{ destruct (ChartEditData.includes_audio d); [discriminate |].
      intros [= <-]. by rewrite orb_false_r. }
  destruct (_ >? _)%Z; [discriminate |].
  destruct (ChartEditData.includes_audio d); [| discriminate].
  destruct (get_and_check_file X f "audio/mpeg") as [e | audio_bytes];
    [discriminate |].
  simpl. intros [= <-]. simpl. by rewrite orb_true_r.
Qed.

Lemma preview_block_chart_updated l l' :
  preview_block X session r d old l = inr l' →
  chart_updated l' = chart_updated l.
Proof.
  unfold preview_block.
  destruct (preview_file r) as [f |].
  2:{ destruct (_ && _); [by intros [= <-] |].
      destruct (ChartEditData.includes_preview d); [discriminate |].
      by intros [= <-]. }
  destruct (_ >? _)%Z; [discriminate |].
  destruct (_ && _).
  2:{ destruct (ChartEditData.delete_preview d); discriminate. }
  destruct (get_and_check_file X f "audio/mpeg") as [e | preview_bytes];
    [discriminate |].
  simpl. destruct (negb _); by intros [= <-].
Qed.

Lemma background_block_chart_updated l l' :
  background_block X session r d old l = inr l' →
  chart_updated l' = chart_updated l.
Proof.
  unfold background_block.
  destruct (background_image r) as [f |].
  2:{ destruct (_ && _); [by intros [= <-] |].
      destruct (ChartEditData.includes_background d); [discriminate |].
      by intros [= <-]. }
  destruct (_ >? _)%Z; [discriminate |].
  destruct (_ && _).
  2:{ destruct (ChartEditData.delete_background d); discriminate. }
  destruct (get_and_check_file X f "image/png") as [e | background_bytes];
    [discriminate |].
  simpl. destruct (negb _); by intros [= <-].
Qed.

(** [chart_updated] is set exactly when the chart script or the audio was
    submitted. *)
Lemma stage_files_chart_updated l :
  stage_files X detect session r d old = inr l →
  chart_updated l = submits_chart_or_audio r.
Proof.
  unfold stage_files, submits_chart_or_audio.
  destruct (chart_block _ _ _ _ _ _ init_locals) as [e | l1] eqn:E1;
    [discriminate |]. simpl.
  destruct (jacket_block _ _ _ _ _ l1) as [e | l2] eqn:E2; [discriminate |].
  simpl.
  destruct (audio_block _ _ _ _ _ l2) as [e | l3] eqn:E3; [discriminate |].
  simpl.
  destruct (preview_block _ _ _ _ _ l3) as [e | l4] eqn:E4; [discriminate |].
  simpl. intros E5.
  rewrite (background_block_chart_updated _ _ E5),
    (preview_block_chart_updated _ _ E4), (audio_block_chart_updated _ _ E3),
    (jacket_block_chart_updated _ _ E2), (chart_block_chart_updated _ _ E1).
  reflexivity.
Qed.

Lemma file_hash_query_shape l q :
  file_hash_query r d l = inr q → ∃ a, q = update_file_hash a.
Proof.
  unfold file_hash_query.
  repeat (destruct (hash_if _ _ _ _); [discriminate |]; simpl).
  intros [= <-]. eauto.
Qed.

End blocks.

(** In a run that succeeds, the leaderboard records are deleted exactly
    when the chart script or the audio was submitted. *)
Lemma leaderboards_deleted_iff r d old result :
  outcome (check_request X app session r) = inr (d, old) →
  outcome (main X detect app session r) = inr result →
  leaderboards_deleted old (trace (main X detect app session r))
  ↔ submits_chart_or_audio r = true.
Proof.
  intros Hok. rewrite EditFacts.edit_main_unfold, Hok.
  destruct (stage_files X detect session r d old) as [e | l] eqn:Hstage;
    [discriminate |].
  destruct (file_hash_query r d l) as [e | q2] eqn:Hq; [discriminate |].
  intros _. unfold leaderboards_deleted. unfold trace at 1. cbn [fst].
  destruct (file_hash_query_shape r d l q2 Hq) as [a ->].
  rewrite <- (stage_files_chart_updated r d old l Hstage).
  rewrite !elem_of_app, EditFacts.edit_db_commit_trace.
  split.
  - intros [Hin | [Hin | Hin]].
    + destruct (EditFacts.edit_check_request_trace X app session r)
        as [Htr | Htr]; rewrite Htr in Hin.
      * by apply elem_of_nil in Hin.
      * rewrite !elem_of_cons, elem_of_nil in Hin.
        destruct Hin as [[=] | [[=] | []]].
    + pose proof (EditFacts.edit_s3_batch_trace app session r old l) as Hs3.
      rewrite Forall_forall in Hs3. specialize (Hs3 _ Hin). discriminate Hs3.
    + destruct (chart_updated l); [reflexivity |].
      rewrite !elem_of_cons, elem_of_nil in Hin.
      destruct Hin as [[=] | [[=] | []]].
  - intros ->. right; right. rewrite !elem_of_cons. auto.
Qed.

(** The replays are listed, and then every listed blob is deleted, exactly
    when [chart_updated] is set and the batch has some blob to delete or to
    upload.  With [chart_updated] set and neither, the batch is empty. *)
Lemma s3_batch_replays r old l :
  chart_updated l = true →
  (deleted_hashes old (old_deletes l) ≠ ∅ ∨ s3_uploads l ≠ [] →
   EvS3List (replays_prefix old) ∈ trace (s3_batch app session r old l)
   ∧ replays_deleted app old (trace (s3_batch app session r old l)))
  ∧ (deleted_hashes old (old_deletes l) = ∅ → s3_uploads l = [] →
     trace (s3_batch app session r old l) = []).
Proof.
  intros Hupd. unfold s3_batch. rewrite Hupd. split.
  - intros Hsome.
    assert (negb (bool_decide (deleted_hashes old (old_deletes l) = ∅))
            || negb (bool_decide (s3_uploads l = [])) = true) as ->.
    { apply orb_true_iff. destruct Hsome as [H | H]; [left | right];
        by rewrite bool_decide_eq_false_2. }
    unfold trace. simpl. split; [apply list_elem_of_here |].
    intros key Hkey. apply list_elem_of_further.
    apply (list_elem_of_fmap_2 EvS3). apply elem_of_app. right.
    by apply (list_elem_of_fmap_2 s3_delete).
  - intros -> ->. reflexivity.
Qed.

(** Without the chart script and without the audio, no replay is listed
    and the batch holds the blob deletes and uploads only. *)
Lemma s3_batch_without_replays r old l :
  chart_updated l = false →
  trace (s3_batch app session r old l)
  = map EvS3
      (delete_tasks session (id r) []
         (elements (deleted_hashes old (old_deletes l)))
       ++ upload_tasks [] (s3_uploads l))
  ∨ trace (s3_batch app session r old l) = [].
Proof.
  intros Hupd. unfold s3_batch. rewrite Hupd.
  destruct (_ || _); [by left | by right].
Qed.

End replays.

(** * Further properties *)

(** ** Chart identifiers *)

Lemma remove_dashes_app s1 s2 :
  Upload.remove_dashes (s1 +:+ s2)
  = Upload.remove_dashes s1 +:+ Upload.remove_dashes s2.
Proof.
  induction s1 as [| c s1 IH]; simpl; [reflexivity |].
  destruct (Ascii.eqb c "-"); simpl; by rewrite IH.
Qed.

Lemma is_hex_lower_alnum c : is_hex_lower c = true → is_alnum_ascii c = true.
Proof.
  unfold is_hex_lower, is_alnum_ascii. generalize (nat_of_ascii c) as n.
  intros n. rewrite !orb_true_iff, !andb_true_iff, !Nat.leb_le. lia.
Qed.

Lemma is_hex_lower_not_dash c : is_hex_lower c = true → Ascii.eqb c "-" = false.
Proof.
  intros Hc. apply Ascii.eqb_neq. intros ->. discriminate Hc.
Qed.

Lemma remove_dashes_hex s :
  all_chars is_hex_lower s = true → Upload.remove_dashes s = s.
Proof.
  induction s as [| c s IH]; simpl; [reflexivity |].
  intros [Hc Hs]%andb_true_iff.
  rewrite (is_hex_lower_not_dash c Hc). by rewrite IH.
Qed.

Lemma string_length_app s1 s2 :
  String.length (s1 +:+ s2) = (String.length s1 + String.length s2)%nat.
Proof. induction s1 as [| c s1 IH]; simpl; [reflexivity | by rewrite IH]. Qed.

Lemma all_chars_app p s1 s2 :
  all_chars p (s1 +:+ s2) = all_chars p s1 && all_chars p s2.
Proof.
  induction s1 as [| c s1 IH]; simpl; [reflexivity |].
  by rewrite IH, andb_assoc.
Qed.

Lemma all_chars_impl (p q : ascii → bool) s :
  (∀ c, p c = true → q c = true) →
  all_chars p s = true → all_chars q s = true.
Proof.
  intros Hpq. induction s as [| c s IH]; simpl; [reflexivity |].
  intros [Hc Hs]%andb_true_iff. by rewrite (Hpq c Hc), IH.
Qed.

(** An ASCII digit or letter is a character of its own, whose code point
    is its byte. *)
Lemma is_alnum_ascii_code c :
  is_alnum_ascii c = true →
  is_continuation c = false
  ∧ lead_bits (code c) = code c
  ∧ ∀ unicode_isalnum, is_alnum_code unicode_isalnum (code c) = true.
Proof.
  unfold is_alnum_ascii, is_continuation, lead_bits, is_alnum_code, code.
  generalize (nat_of_ascii c) as n. intros n.
  rewrite !orb_true_iff, !andb_true_iff, !Nat.leb_le. intros Hn.
  assert (Z.of_nat n < 128)%Z as Hlt by lia.
  assert ((Z.of_nat n <? 128)%Z = true) as -> by (by apply Z.ltb_lt).
  split; [| split; [reflexivity |]].
  - apply andb_false_iff. left. apply Z.leb_gt. exact Hlt.
  - intros _. rewrite !orb_true_iff, !andb_true_iff, !Z.leb_le. lia.
Qed.

Lemma continue_alnum v s :
  all_chars is_alnum_ascii s = true → continue v s = v.
Proof.
  destruct s as [| c s]; simpl; [reflexivity |].
  intros [Hc _]%andb_true_iff.
  by destruct (is_alnum_ascii_code c Hc) as (-> & _).
Qed.

(** Text made of ASCII digits and letters has one character per byte, each
    alphanumeric whatever the Unicode database says. *)
Lemma code_points_alnum unicode_isalnum s :
  all_chars is_alnum_ascii s = true →
  List.length (code_points s) = String.length s
  ∧ forallb (is_alnum_code unicode_isalnum) (code_points s) = true.
Proof.
  induction s as [| c s IH]; simpl; [done |].
  intros [Hc Hs]%andb_true_iff.
  destruct (is_alnum_ascii_code c Hc) as (-> & -> & Halnum).
  destruct (IH Hs) as [Hlen Hall]. simpl.
  rewrite (continue_alnum _ s Hs), Halnum, Hall, Hlen. done.
Qed.

(** X1.  The chart id the upload handler makes from a UUID
    ([str(uuid.uuid4()).replace("-", "")]) is 32 characters long and
    alphanumeric: it passes the id check of the edit handler. *)
Theorem uploaded_id_passes_id_check unicode_isalnum s :
  is_uuid s →
  valid_chart_id unicode_isalnum (Upload.remove_dashes s) = true.
Proof.
  intros (a & b & c & d & e & [La Ha] & [Lb Hb] & [Lc Hc] & [Ld Hd]
          & [Le He] & ->).
  rewrite !remove_dashes_app. simpl.
  rewrite !remove_dashes_hex by assumption.
  pose proof (all_chars_impl is_hex_lower is_alnum_ascii) as Himpl.
  match goal with
  | |- valid_chart_id _ ?id = true =>
      assert (all_chars is_alnum_ascii id = true) as Hall
  end.
  { rewrite !all_chars_app. simpl.
    rewrite !Himpl by (assumption || apply is_hex_lower_alnum). reflexivity. }
  destruct (code_points_alnum unicode_isalnum _ Hall) as [Hlen Halnum].
  unfold valid_chart_id, isalnum, len_str.
  rewrite Halnum, Hlen, !string_length_app, La, Lb, Lc, Ld, Le.
  rewrite andb_true_r. simpl.
  apply negb_true_iff, String.eqb_neq. intros Hempty.
  apply (f_equal String.length) in Hempty.
  rewrite !string_length_app in Hempty. simpl in Hempty. lia.
Qed.

Lemma uploaded_id_passes_id_check_witness :
  valid_chart_id Sample.latin1_letter
    (Upload.remove_dashes (uuid4 (Sample.app false))) = true.
Proof.
  apply uploaded_id_passes_id_check.
  exists "01234567", "89ab", "cdef", "0123", "456789abcdef".
  repeat split; reflexivity.
Defined.

(** ** Metadata limits *)

Lemma text_limit_ok n o :
  (0 ≤ n)%Z →
  truthy_str o && (len_str (str_of o) >? n)%Z = false ↔ within n o.
Proof.
  intros Hn. unfold within, truthy_str, str_of, len_str.
  destruct o as [s |]; simpl.
  - rewrite andb_false_iff, negb_false_iff, String.eqb_eq, Z.gtb_ltb,
      Z.ltb_ge.
    split.
    + intros [-> | Hlen] s' [= <-]; simpl; lia.
    + intros H. right. by apply H.
  - split; [intros _ s [=] | reflexivity].
Qed.

Lemma tag_lengths_ok n (o : option (list string)) :
  truthy_list o && existsb (λ tag, (len_str tag >? n)%Z) (default [] o) = false
  ↔ ∀ tags, o = Some tags → Forall (λ tag, (len_str tag ≤ n)%Z) tags.
Proof.
  destruct o as [[| t tags] |]; simpl.
  - split; [intros _ tags' [= <-]; constructor | reflexivity].
  - rewrite <- not_true_iff_false, orb_true_iff, existsb_exists.
    split.
    + intros Hno tags' [= <-]. apply List.Forall_forall. intros tag Hin.
      destruct (Z.gtb_spec (len_str tag) n) as [Hgt | Hle]; [| exact Hle].
      exfalso. apply Hno. destruct Hin as [<- | Hin].
      * left. by apply Z.gtb_lt.
      * right. exists tag. split; [exact Hin | by apply Z.gtb_lt].
    + intros Hall [Hgt | (tag & Hin & Hgt)].
      * specialize (Hall _ eq_refl). apply Forall_cons in Hall as [Hle _].
        apply Z.gtb_lt in Hgt. lia.
      * specialize (Hall _ eq_refl). apply Forall_cons in Hall as [_ Hall].
        rewrite List.Forall_forall in Hall. specialize (Hall _ Hin).
        apply Z.gtb_lt in Hgt. lia.
  - split; [intros _ tags' [=] | reflexivity].
Qed.

Lemma tag_count_ok n (o : option (list string)) :
  (0 ≤ n)%Z →
  truthy_list o && (len_list (default [] o) >? n)%Z = false
  ↔ ∀ tags, o = Some tags → (len_list tags ≤ n)%Z.
Proof.
  intros Hn. destruct o as [[| t tags] |]; simpl.
  - split; [intros _ tags' [= <-]; exact Hn | reflexivity].
  - rewrite Z.gtb_ltb, Z.ltb_ge. split.
    + by intros H tags' [= <-].
    + intros H. by apply H.
  - split; [intros _ tags' [=] | reflexivity].
Qed.

Lemma rating_bounds_ok (o : option Z) :
  truthy_int o && (default 0 o >? 999)%Z = false
  ∧ truthy_int o && (default 0 o <? -999)%Z = false
  ↔ ∀ n, o = Some n → (-999 ≤ n ≤ 999)%Z.
Proof.
  destruct o as [n |]; simpl.
  - rewrite !andb_false_iff, negb_false_iff, Z.eqb_eq, Z.gtb_ltb, !Z.ltb_ge.
    split.
    + intros [H1 H2] n' [= <-]. lia.
    + intros H. specialize (H n eq_refl). split; right; lia.
  - split; [intros _ n [=] | auto].
Qed.

(** X2.  The edit handler lets the metadata through exactly when every
    text that is present is within its maximum length (description 1000;
    artists, title and author 50), there are at most 3 tags of at most 10
    characters each, and the rating, when present, lies between -999 and
    999. *)
Theorem edit_limits_pass_iff (d : ChartEditData.t) :
  Edit.limits_exceeded d = false ↔
  within 1000 (ChartEditData.description d)
  ∧ within 50 (ChartEditData.artists d)
  ∧ within 50 (ChartEditData.title d)
  ∧ within 50 (ChartEditData.author d)
  ∧ (∀ tags, ChartEditData.tags d = Some tags →
       Forall (λ tag, (len_str tag ≤ 10)%Z) tags ∧ (len_list tags ≤ 3)%Z)
  ∧ (∀ n, ChartEditData.rating d = Some n → (-999 ≤ n ≤ 999)%Z).
Proof.
  unfold Edit.limits_exceeded.
  change (MAX_TEXT_SIZES !!! "description") with 1000%Z.
  change (MAX_TEXT_SIZES !!! "artists") with 50%Z.
  change (MAX_TEXT_SIZES !!! "title") with 50%Z.
  change (MAX_TEXT_SIZES !!! "author") with 50%Z.
  change (MAX_TEXT_SIZES !!! "per_tag") with 10%Z.
  change (MAX_TEXT_SIZES !!! "tags_count") with 3%Z.
  change (MAX_RATINGS !!! "max") with 999%Z.
  change (MAX_RATINGS !!! "min") with (-999)%Z.
  rewrite !orb_false_iff.
  rewrite !text_limit_ok by lia.
  rewrite tag_lengths_ok, tag_count_ok by lia.
  pose proof (rating_bounds_ok (ChartEditData.rating d)) as Hr.
  split.
  - intros [[[[[[[Hde Har] Hti] Hau] Hl] Hc] Hr1] Hr2].
    split; [exact Hde |]. split; [exact Har |]. split; [exact Hti |].
    split; [exact Hau |]. split.
    + intros tags Htags. split; [by apply Hl | by apply Hc].
    + apply Hr. by split.
  - intros (Hde & Har & Hti & Hau & Ht & Hrat).
    apply Hr in Hrat as [Hr1 Hr2].
    repeat split; try assumption; intros tags Htags; by apply Ht.
Qed.

(** X3.  The upload handler lets the metadata through exactly when the
    description, if present, is at most 1000 characters, artists, title
    and author are at most 50, there are at most 3 tags of at most 10
    characters each, and the rating lies between -999 and 999. *)
Theorem upload_limits_pass_iff (d : ChartUploadData.t) :
  Upload.limits_exceeded d = false ↔
  within 1000 (ChartUploadData.description d)
  ∧ (len_str (ChartUploadData.artists d) ≤ 50)%Z
  ∧ (len_str (ChartUploadData.title d) ≤ 50)%Z
  ∧ (len_str (ChartUploadData.author d) ≤ 50)%Z
  ∧ (∀ tags, ChartUploadData.tags d = Some tags →
       Forall (λ tag, (len_str tag ≤ 10)%Z) tags ∧ (len_list tags ≤ 3)%Z)
  ∧ (-999 ≤ ChartUploadData.rating d ≤ 999)%Z.
Proof.
  unfold Upload.limits_exceeded.
  change (MAX_TEXT_SIZES !!! "description") with 1000%Z.
  change (MAX_TEXT_SIZES !!! "artists") with 50%Z.
  change (MAX_TEXT_SIZES !!! "title") with 50%Z.
  change (MAX_TEXT_SIZES !!! "author") with 50%Z.
  change (MAX_TEXT_SIZES !!! "per_tag") with 10%Z.
  change (MAX_TEXT_SIZES !!! "tags_count") with 3%Z.
  change (MAX_RATINGS !!! "max") with 999%Z.
  change (MAX_RATINGS !!! "min") with (-999)%Z.
  rewrite !orb_false_iff.
  rewrite text_limit_ok by lia.
  rewrite tag_lengths_ok, tag_count_ok by lia.
  pose proof (λ s, text_limit_ok 50 (Some s) ltac:(lia)) as Htext.
  unfold truthy_str, str_of, within in Htext. simpl in Htext.
  rewrite !Htext. rewrite Z.gtb_ltb, !Z.ltb_ge.
  split.
  - intros [[[[[[[Hde Har] Hti] Hau] Hl] Hc] Hr1] Hr2].
    split; [exact Hde |]. split; [by apply Har |]. split; [by apply Hti |].
    split; [by apply Hau |]. split.
    + intros tags Htags. split; [by apply Hl | by apply Hc].
    + lia.
  - intros (Hde & Har & Hti & Hau & Htags & Hr).
    repeat split; try assumption; try lia; try (by intros s [= <-]);
      intros tags Htg; by apply Htags.
Qed.

(** ** Who may edit, and when the stores are reached *)

Section edit_access.
Import Edit EditSpec.

Context (X : Externals) (detect : bytes → option (string * string))
  (app : App) (session : Session.t).

#[local] Abbreviation check_request := (Edit.check_request X app session).
#[local] Abbreviation main := (Edit.main X detect app session).

(** The checks pass exactly on a well-formed id, a valid body within the
    limits, and an existing chart whose author is the session's user. *)
Lemma edit_check_request_passes_iff r d old :
  outcome (check_request r) = inr (d, old) ↔
  valid_chart_id (unicode_isalnum X) (id r) = true
  ∧ edit_model_validate_json X (data r) = inr d
  ∧ limits_exceeded d = false
  ∧ db_get_chart_by_id app (id r) = Some old
  ∧ ChartDBResponse.author old = Account.sonolus_id (Session.user session).
Proof.
  unfold Edit.check_request, valid_chart_id.
  destruct (len_str (id r) =? 32)%Z; simpl;
    [| split; [discriminate | intros [[=] _]]].
  destruct (isalnum (unicode_isalnum X) (id r)); simpl;
    [| split; [discriminate | intros [[=] _]]].
  destruct (edit_model_validate_json X (data r)) as [errs | d'];
    [split; [discriminate | intros (_ & [=] & _)] |].
  destruct (limits_exceeded d') eqn:Hlim.
  { split; [discriminate |]. intros (_ & [= ->] & Hl & _). congruence. }
  simpl.
  destruct (db_get_chart_by_id app (id r)) as [old' |];
    [| split; [discriminate | intros (_ & _ & _ & [=] & _)]].
  destruct (String.eqb_spec (ChartDBResponse.author old')
              (Account.sonolus_id (Session.user session))) as [Heq | Hne];
    simpl.
  - split.
    + intros [= -> ->]. auto.
    + intros (_ & [= ->] & _ & [= ->] & _). reflexivity.
  - split; [discriminate |]. intros (_ & _ & _ & [= ->] & Hau). congruence.
Qed.

(** X4.  The edit handler calls the object store, or writes to the
    database, only for a well-formed chart id, a valid body within the
    limits, a chart that exists and whose author is the session's user,
    and after every submitted file has been checked, converted and
    hashed. *)
Theorem edit_stores_reached_only_by_owner r e :
  e ∈ trace (main r) →
  is_s3 e = true ∨ is_db_write e = true →
  ∃ d old l,
    valid_chart_id (unicode_isalnum X) (id r) = true
    ∧ edit_model_validate_json X (data r) = inr d
    ∧ limits_exceeded d = false
    ∧ db_get_chart_by_id app (id r) = Some old
    ∧ ChartDBResponse.author old = Account.sonolus_id (Session.user session)
    ∧ stage_files X detect session r d old = inr l.
Proof.
  intros Hin He.
  assert (Hquiet : ∀ e', e' ∈ trace (check_request r) →
            is_s3 e' = false ∧ is_db_write e' = false).
  { pose proof (EditFacts.edit_check_request_quiet X app session r) as Hq.
    rewrite Forall_forall in Hq. exact Hq. }
  rewrite EditFacts.edit_main_unfold in Hin.
  destruct (outcome (check_request r)) as [exc | [d old]] eqn:Hok.
  { apply Hquiet in Hin as [H1 H2]. destruct He; congruence. }
  destruct (stage_files X detect session r d old) as [exc | l] eqn:Hstage.
  { apply Hquiet in Hin as [H1 H2]. destruct He; congruence. }
  apply edit_check_request_passes_iff in Hok
    as (Hid & Hd & Hlim & Hold & Hauthor).
  exists d, old, l. auto 10.
Qed.

(** X5.  What the edit handler answers before it looks at any file, in
    the order of its checks: a malformed id gives 400 and a body that
    fails validation gives 422, and then nothing has been called; limits
    exceeded give 400, still with no call; a chart that does not exist
    gives 404 and a chart of another author 403, after the session's user
    and the chart row have been read. *)
Theorem edit_rejections_before_files r :
  (valid_chart_id (unicode_isalnum X) (id r) = false →
   main r = ([], inl (HTTPException 400 "Invalid chart ID.")))
  ∧ (valid_chart_id (unicode_isalnum X) (id r) = true →
     (∀ errors,
        edit_model_validate_json X (data r) = inl errors →
        main r = ([], inl (HTTPException 422 errors)))
     ∧ ∀ d,
         edit_model_validate_json X (data r) = inr d →
         (limits_exceeded d = true →
          main r = ([], inl (HTTPException 400 "Length limits exceeded")))
         ∧ (limits_exceeded d = false →
            (db_get_chart_by_id app (id r) = None →
             main r = ([EvSessionUser; EvDbFetchrow (get_chart_by_id (id r))],
                       inl (HTTPException 404 "Chart not found.")))
            ∧ ∀ old,
                db_get_chart_by_id app (id r) = Some old →
                ChartDBResponse.author old
                ≠ Account.sonolus_id (Session.user session) →
                main r = ([EvSessionUser; EvDbFetchrow (get_chart_by_id (id r))],
                          inl (HTTPException 403 "bro this aint your chart")))).
Proof.
  unfold valid_chart_id, Edit.main, Edit.check_request.
  split.
  - intros Hid. apply andb_false_iff in Hid.
    assert (negb (len_str (id r) =? 32)%Z
            || negb (isalnum (unicode_isalnum X) (id r)) = true) as ->.
    { apply orb_true_iff. destruct Hid as [-> | ->]; auto. }
    reflexivity.
  - intros [Hlen Haln]%andb_true_iff. rewrite Hlen, Haln. simpl. split.
    + intros errors ->. reflexivity.
    + intros d ->. split.
      * intros ->. reflexivity.
      * intros ->. simpl. split.
        -- intros ->. reflexivity.
        -- intros old -> Hne. apply String.eqb_neq in Hne. rewrite Hne.
           reflexivity.
Qed.

End edit_access.

(** An edit of another user's chart. *)
Lemma edit_rejections_before_files_witness :
  Sample.run_edit false
    {| Edit.id := "ffffffffffffffffffffffffffffffff"; Edit.data := "{}";
       Edit.jacket_image := None; Edit.chart_file := None;
       Edit.audio_file := None; Edit.preview_file := None;
       Edit.background_image := None |}
  = ([EvSessionUser;
      EvDbFetchrow (get_chart_by_id "ffffffffffffffffffffffffffffffff")],
     inl (HTTPException 404 "Chart not found.")).
Proof.
  destruct (edit_rejections_before_files Sample.X Sample.detect_edit
              (Sample.app false) Sample.session
              {| Edit.id := "ffffffffffffffffffffffffffffffff";
                 Edit.data := "{}";
                 Edit.jacket_image := None; Edit.chart_file := None;
                 Edit.audio_file := None; Edit.preview_file := None;
                 Edit.background_image := None |}) as [_ Hvalid].
  destruct (Hvalid eq_refl) as [_ Hbody].
  destruct (Hbody _ eq_refl) as [_ Hlimits].
  destruct (Hlimits eq_refl) as [Hmissing _].
  apply Hmissing. reflexivity.
Defined.

(** The audio of the sample chart replaced by its owner. *)
Lemma edit_stores_reached_only_by_owner_witness :
  ∃ d old l,
    valid_chart_id Sample.latin1_letter Sample.chart_id = true
    ∧ Sample.parse_edit "audio" = inr d
    ∧ Edit.limits_exceeded d = false
    ∧ db_get_chart_by_id (Sample.app false) Sample.chart_id = Some old
    ∧ ChartDBResponse.author old = "alice"
    ∧ Edit.stage_files Sample.X Sample.detect_edit Sample.session
        (Sample.edit "audio" None None (Some (Sample.file "Y")) None None)
        d old = inr l.
Proof.
  apply (edit_stores_reached_only_by_owner Sample.X Sample.detect_edit
           (Sample.app false) Sample.session
           (Sample.edit "audio" None None (Some (Sample.file "Y")) None None)
           (EvS3 (s3_delete
                    "alice/0123456789abcdef0123456789abcdef/sha1:X"))).
  - apply (list_elem_of_lookup_2 _ 3). vm_compute. reflexivity.
  - left. reflexivity.
Defined.

(** ** The upload handler: checks, order and failure of the insert *)

Section upload_further.
Import Upload UploadSpec.

Context (X : Externals) (detect : bytes → Detected)
  (app : App) (session : Session.t).

#[local] Abbreviation check_request := (Upload.check_request X app session).
#[local] Abbreviation stage_files := (Upload.stage_files X detect app session).
#[local] Abbreviation main := (Upload.main X detect app session).
#[local] Abbreviation chart_id := (remove_dashes (uuid4 app)).

(** The checks pass exactly on a valid body within the limits, from an
    uploader who is not on cooldown, with every file within its size. *)
Lemma upload_check_request_passes_iff r d :
  outcome (check_request r) = inr d ↔
  upload_model_validate_json X (data r) = inr d
  ∧ limits_exceeded d = false
  ∧ upload_on_cooldown app session = false
  ∧ oversize r = false.
Proof.
  unfold Upload.check_request, upload_on_cooldown, oversize, over_limit.
  destruct (upload_model_validate_json X (data r)) as [errs | d'];
    [split; [discriminate | intros ([=] & _)] |].
  destruct (limits_exceeded d') eqn:Hlim.
  { split; [discriminate |]. intros ([= ->] & Hl & _). congruence. }
  simpl.
  destruct (Account.chart_upload_cooldown (Session.user session))
    as [cooldown |];
    [destruct (negb (debug app) && (now app <? cooldown)%Z);
     [split; [discriminate | intros (_ & _ & [=] & _)] |] |];
    (destruct (_ || _); simpl;
     [split; [discriminate | intros (_ & _ & _ & [=])] |];
     destruct (preview_file r) as [pf |];
     [destruct (_ >? _)%Z; simpl;
      [split; [discriminate | intros (_ & _ & _ & [=])] |] |];
     (destruct (background_image r) as [bf |];
      [destruct (_ >? _)%Z; simpl;
       [split; [discriminate | intros (_ & _ & _ & [=])] |] |];
      simpl; (split; [intros [= ->]; auto | by intros ([= ->] & _)]))).
Qed.

(** X6.  In every run of the upload handler the blob uploads come before
    every database call: the chart row is inserted only after the whole
    upload batch. *)
Theorem upload_blobs_precede_insert r :
  all_before is_s3 is_db (trace (main r)).
Proof.
  rewrite UploadFacts.upload_main_unfold.
  pose proof (UploadFacts.upload_check_request_quiet X app session r) as Hq.
  assert (Hpre : Forall (λ e, is_db e = false) (trace (check_request r)))
    by (eapply Forall_impl; [exact Hq |]; simpl; tauto).
  destruct (outcome (check_request r)) as [e | d].
  { rewrite <- (app_nil_r (trace _)). apply all_before_app; [exact Hpre |].
    constructor. }
  destruct (stage_files r chart_id) as [e | st].
  { rewrite <- (app_nil_r (trace _)). apply all_before_app; [exact Hpre |].
    constructor. }
  unfold trace at 1. cbn [fst]. rewrite app_assoc. apply all_before_app.
  - apply Forall_app. split; [exact Hpre |].
    apply Forall_fmap, Forall_true. reflexivity.
  - destruct (UploadFacts.upload_db_commit_trace app session
                (new_chart session d chart_id st)) as (rest & -> & Hrest).
    constructor; [reflexivity |].
    eapply Forall_impl; [exact Hrest |]. simpl. tauto.
Qed.

(** X7.  The upload handler calls the object store or the database only
    for a valid body within the limits, from an uploader who is not on
    cooldown, with every file within its size limit, and after every file
    has been checked, converted and hashed. *)
Theorem upload_stores_reached_only_after_staging r e :
  e ∈ trace (main r) →
  is_s3 e = true ∨ is_db e = true →
  ∃ d st,
    upload_model_validate_json X (data r) = inr d
    ∧ limits_exceeded d = false
    ∧ upload_on_cooldown app session = false
    ∧ oversize r = false
    ∧ stage_files r chart_id = inr st.
Proof.
  intros Hin He.
  assert (Hquiet : ∀ e', e' ∈ trace (check_request r) →
            is_s3 e' = false ∧ is_db e' = false).
  { pose proof (UploadFacts.upload_check_request_quiet X app session r) as Hq.
    rewrite Forall_forall in Hq. exact Hq. }
  rewrite UploadFacts.upload_main_unfold in Hin.
  destruct (outcome (check_request r)) as [exc | d] eqn:Hok.
  { apply Hquiet in Hin as [H1 H2]. destruct He; congruence. }
  destruct (stage_files r chart_id) as [exc | st] eqn:Hstage.
  { apply Hquiet in Hin as [H1 H2]. destruct He; congruence. }
  apply upload_check_request_passes_iff in Hok as (Hd & Hlim & Hcd & Hsz).
  exists d, st. auto 10.
Qed.

(** X8.  An uploader whose cooldown lies in the future is answered 429
    with the time that remains, in minutes and seconds below 60, once the
    body has passed validation and before any file or store is touched;
    in debug mode, or once the cooldown has passed, the checks never
    answer 429. *)
Theorem upload_cooldown r d :
  upload_model_validate_json X (data r) = inr d →
  limits_exceeded d = false →
  (∀ cooldown,
     Account.chart_upload_cooldown (Session.user session) = Some cooldown →
     debug app = false →
     (now app < cooldown)%Z →
     ∃ minutes seconds,
       (cooldown - now app = 60 * minutes + seconds)%Z
       ∧ (0 ≤ minutes)%Z ∧ (0 ≤ seconds < 60)%Z
       ∧ main r
         = ([EvSessionUser],
            inl (HTTPException 429
                   ("On cooldown. Time remaining: " +:+ pretty minutes
                    +:+ "m " +:+ pretty seconds +:+ "s"))))
  ∧ (upload_on_cooldown app session = false →
     ∀ detail, outcome (check_request r) ≠ inl (HTTPException 429 detail)).
Proof.
  intros Hd Hlim. split.
  - intros cooldown Hcd Hdebug Hnow.
    exists ((cooldown - now app) `div` 60)%Z, ((cooldown - now app) `mod` 60)%Z.
    split; [apply Z.div_mod; lia |].
    split; [apply Z.div_pos; lia |].
    split; [apply Z.mod_pos_bound; lia |].
    unfold Upload.main, Upload.check_request.
    rewrite Hd, Hlim, Hcd, Hdebug. simpl.
    apply Z.ltb_lt in Hnow. rewrite Hnow. reflexivity.
  - intros Hcd detail. unfold Upload.check_request.
    rewrite Hd, Hlim. unfold upload_on_cooldown in Hcd. simpl.
    destruct (Account.chart_upload_cooldown (Session.user session))
      as [cooldown |]; [rewrite Hcd |];
      (destruct (_ || _); [discriminate |];
       destruct (preview_file r) as [pf |];
       [destruct (_ >? _)%Z; [discriminate |] |];
       (destruct (background_image r) as [bf |];
        [destruct (_ >? _)%Z; [discriminate |] |]; discriminate)).
Qed.

(** X9.  When the insert of the chart row returns no row, the upload
    handler answers 500 after the whole upload batch has been issued: every
    staged blob has its upload in the trace, no compensating delete is
    issued and the cooldown is not updated.  When it returns a row, the
    cooldown update is the last call and the row's id is returned. *)
Theorem upload_insert_outcome r d st :
  outcome (check_request r) = inr d →
  stage_files r chart_id = inr st →
  (db_create_chart app (new_chart session d chart_id st) = None →
   main r
   = ((EvSessionUser :: map EvS3 (upload_tasks [] (s3_uploads st))
       ++ [EvDbFetchrow (create_chart (new_chart session d chart_id st))])%list,
      inl (HTTPException 500 "Error while processing upload result."))
   ∧ Forall (λ op, is_s3_delete (EvS3 op) = false)
       (upload_tasks [] (s3_uploads st))
   ∧ ∀ f, f ∈ s3_uploads st → uploads_to (S3File.path f) (trace (main r)) = 1%nat)
  ∧ (∀ result_id,
       db_create_chart app (new_chart session d chart_id st) = Some result_id →
       main r
       = ((EvSessionUser :: map EvS3 (upload_tasks [] (s3_uploads st))
           ++ [EvDbFetchrow (create_chart (new_chart session d chart_id st));
               EvDbExecute (update_cooldown (Session.sonolus_id session) 1)])%list,
          inr [("id", result_id)])).
Proof.
  intros Hok Hstage.
  pose proof (UploadFacts.upload_check_request_ok X app session r d Hok)
    as (_ & _ & Htr).
  assert (Hmain : ∀ tr o,
            Upload.db_commit app session (new_chart session d chart_id st)
            = (tr, o) →
            main r = ((EvSessionUser :: map EvS3 (upload_tasks [] (s3_uploads st))
                       ++ tr)%list, o)).
  { intros tr o Hdb. rewrite UploadFacts.upload_main_unfold, Hok, Hstage, Htr.
    rewrite Hdb. reflexivity. }
  split.
  - intros Hnone. split; [| split].
    + apply Hmain. unfold db_commit. rewrite Hnone. reflexivity.
    + clear. generalize (@nil string) as alr.
      induction (s3_uploads st) as [| f fs IH]; intros alr; simpl;
        [constructor |].
      destruct (bool_decide _); [apply IH | constructor; [reflexivity | apply IH]].
    + intros f Hf.
      destruct (upload_stage_files_ok X app session detect r d chart_id st Hstage)
        as [Hkeyed _].
      rewrite (upload_uploads_to_main X app session detect r d st _ Hok Hstage).
      assert (Hpath : S3File.path f
                      = Upload.object_key session chart_id (S3File.hash f)).
      { rewrite Forall_forall in Hkeyed. by apply Hkeyed. }
      rewrite Hpath.
      apply one_upload_per_file; [apply object_key_inj | exact Hkeyed | exact Hf].
  - intros result_id Hsome. apply Hmain. unfold db_commit. rewrite Hsome.
    reflexivity.
Qed.

End upload_further.

(** ** Edits that attach no file *)

Section edit_no_files.
Import Edit EditSpec.

Context (X : Externals) (detect : bytes → option (string * string))
  (app : App) (session : Session.t).

#[local] Abbreviation main := (Edit.main X detect app session).

Lemma stage_files_no_files r d old :
  no_files r → no_includes d →
  stage_files X detect session r d old
  = inr {| chart_updated := false; s3_uploads := [];
           old_deletes := removed_slots d;
           chart_hash := None; jacket_hash := None; v1_hash := None;
           v3_hash := None; audio_hash := None; preview_hash := None;
           background_hash := None |}.
Proof.
  intros (Hc & Hj & Ha & Hp & Hb) (Ic & Ij & Ia & Ip & Ib).
  unfold stage_files, chart_block, jacket_block, audio_block, preview_block,
    background_block, removed_slots.
  rewrite Hc, Hj, Ha, Hp, Hb, Ic, Ij, Ia, Ip, Ib. simpl.
  destruct (ChartEditData.delete_preview d),
    (ChartEditData.delete_background d); reflexivity.
Qed.

(** The whole run of an edit that attaches no file and sets no includes
    flag. *)
Lemma edit_main_no_files r d old :
  outcome (Edit.check_request X app session r) = inr (d, old) →
  no_files r → no_includes d →
  main r
  = (([EvSessionUser; EvDbFetchrow (get_chart_by_id (id r))]
      ++ map EvS3
           (delete_tasks session (id r) []
              (elements (deleted_hashes old (removed_slots d))))
      ++ [EvDbExecute (metadata_query r d);
          EvDbExecute (no_file_hash_query (id r) d)])%list,
     inr success).
Proof.
  intros Hok Hfiles Hinc.
  pose proof (EditFacts.edit_check_request_ok X app session r d old Hok)
    as (_ & _ & Htr).
  rewrite EditFacts.edit_main_unfold, Hok, Htr.
  rewrite (stage_files_no_files r d old Hfiles Hinc).
  destruct Hfiles as (Hc & Hj & Ha & Hp & Hb).
  destruct Hinc as (Ic & Ij & Ia & Ip & Ib).
  unfold file_hash_query, hash_if. rewrite Hc, Hj, Ha, Hp, Hb, Ic, Ij, Ia, Ip, Ib.
  simpl. unfold s3_batch, db_commit. simpl.
  destruct (bool_decide_reflect
              (deleted_hashes old (removed_slots d) = ∅)) as [Hempty | Hne];
    simpl.
  - rewrite Hempty, elements_empty. reflexivity.
  - rewrite app_nil_r. reflexivity.
Qed.

(** X10.  An edit that attaches no file and sets no includes flag uploads
    nothing, neither lists nor deletes replays, and leaves the
    leaderboards alone: after the checks it issues one blob delete per
    hash that only the removed optional slots hold, then writes the
    metadata and a hash commit whose pointers are all [None] and whose
    [update_none] flags are the delete flags. *)
Theorem edit_without_files r d old :
  outcome (Edit.check_request X app session r) = inr (d, old) →
  no_files r → no_includes d →
  main r
  = (([EvSessionUser; EvDbFetchrow (get_chart_by_id (id r))]
      ++ map EvS3
           (delete_tasks session (id r) []
              (elements (deleted_hashes old (removed_slots d))))
      ++ [EvDbExecute (metadata_query r d);
          EvDbExecute (no_file_hash_query (id r) d)])%list,
     inr success).
Proof. apply edit_main_no_files. Qed.

(** What one removed slot deletes: its hash, unless a kept slot holds the
    same value. *)
Lemma deleted_hashes_single old hash_key h :
  ChartDBResponse.getattr old hash_key = Some h →
  deleted_hashes old [hash_key]
  = if bool_decide (h ∈ kept_hashes old [hash_key]) then ∅ else {[ h ]}.
Proof.
  intros Hget. unfold deleted_hashes, deleted_candidate_hashes. simpl.
  rewrite Hget. simpl. rewrite union_empty_r_L.
  destruct (bool_decide_reflect (h ∈ kept_hashes old [hash_key])) as [Hin | Hnin].
  - apply set_eq. intros x. rewrite elem_of_difference, elem_of_singleton.
    split; [intros [-> Hx]; contradiction | intros Hx%elem_of_empty; contradiction].
  - apply set_eq. intros x. rewrite elem_of_difference, elem_of_singleton.
    split; [tauto | intros ->; auto].
Qed.

(** X11.  Removing the background of a chart: with [delete_background]
    set and nothing else, the blob of the stored background hash is
    deleted when no other slot of the chart holds that hash, and the
    commit clears the column. *)
Theorem edit_delete_background r d old hb :
  outcome (Edit.check_request X app session r) = inr (d, old) →
  no_files r → no_includes d →
  ChartEditData.delete_preview d = false →
  ChartEditData.delete_background d = true →
  ChartDBResponse.background_file_hash old = Some hb →
  hb ≠ ChartDBResponse.jacket_file_hash old →
  hb ≠ ChartDBResponse.music_file_hash old →
  hb ≠ ChartDBResponse.chart_file_hash old →
  hb ≠ ChartDBResponse.background_v1_file_hash old →
  hb ≠ ChartDBResponse.background_v3_file_hash old →
  ChartDBResponse.preview_file_hash old ≠ Some hb →
  main r
  = ([EvSessionUser; EvDbFetchrow (get_chart_by_id (id r));
      EvS3 (s3_delete (object_key session (id r) hb));
      EvDbExecute (metadata_query r d);
      EvDbExecute (no_file_hash_query (id r) d)],
     inr success)
  ∧ no_file_hash_query (id r) d
    = update_file_hash
        {| UpdateFileHash.chart_id := id r;
           UpdateFileHash.jacket_hash := None; UpdateFileHash.v1_hash := None;
           UpdateFileHash.v3_hash := None; UpdateFileHash.music_hash := None;
           UpdateFileHash.chart_hash := None;
           UpdateFileHash.preview_hash := None;
           UpdateFileHash.background_hash := None;
           UpdateFileHash.confirm_change := true;
           UpdateFileHash.update_none_preview := false;
           UpdateFileHash.update_none_background := true |}.
Proof.
  intros Hok Hfiles Hinc Hdp Hdb Hbg Hj Hm Hc Hv1 Hv3 Hp.
  split; [| unfold no_file_hash_query; by rewrite Hdp, Hdb].
  rewrite (edit_main_no_files r d old Hok Hfiles Hinc).
  unfold removed_slots. rewrite Hdp, Hdb. simpl.
  rewrite (deleted_hashes_single old "background_file_hash" (Some hb))
    by (unfold ChartDBResponse.getattr; simpl; congruence).
  rewrite bool_decide_eq_false_2.
  - rewrite elements_singleton. reflexivity.
  - rewrite EditDiff.elem_of_kept_hashes. intros (k & Hall & Hnot & Hget).
    unfold all_hash_keys in Hall.
    rewrite !elem_of_union, !elem_of_singleton in Hall.
    destruct Hall as [[[[[[-> | ->] | ->] | ->] | ->] | ->] | ->];
      unfold ChartDBResponse.getattr in Hget; simpl in Hget;
      first [congruence | apply Hnot, list_elem_of_here].
Qed.

(** X12.  Removing a preview that the chart does not have: with
    [delete_preview] set and nothing else, on a chart with no stored
    preview and a stored background, the handler issues a delete for the
    key that ends in the text "None"; when the chart has no background
    either, it makes no object-store call. *)
Theorem edit_delete_absent_preview r d old :
  outcome (Edit.check_request X app session r) = inr (d, old) →
  no_files r → no_includes d →
  ChartEditData.delete_preview d = true →
  ChartEditData.delete_background d = false →
  ChartDBResponse.preview_file_hash old = None →
  (is_Some (ChartDBResponse.background_file_hash old) →
   main r
   = ([EvSessionUser; EvDbFetchrow (get_chart_by_id (id r));
       EvS3 (s3_delete (object_key session (id r) "None"));
       EvDbExecute (metadata_query r d);
       EvDbExecute (no_file_hash_query (id r) d)],
      inr success))
  ∧ (ChartDBResponse.background_file_hash old = None →
     main r
     = ([EvSessionUser; EvDbFetchrow (get_chart_by_id (id r));
         EvDbExecute (metadata_query r d);
         EvDbExecute (no_file_hash_query (id r) d)],
        inr success)).
Proof.
  intros Hok Hfiles Hinc Hdp Hdb Hprev.
  rewrite (edit_main_no_files r d old Hok Hfiles Hinc).
  unfold removed_slots. rewrite Hdp, Hdb. simpl.
  rewrite (deleted_hashes_single old "preview_file_hash" None)
    by (unfold ChartDBResponse.getattr; simpl; congruence).
  split.
  - intros [hb Hbg]. rewrite bool_decide_eq_false_2.
    { rewrite elements_singleton. reflexivity. }
    rewrite EditDiff.elem_of_kept_hashes. intros (k & Hall & Hnot & Hget).
    unfold all_hash_keys in Hall.
    rewrite !elem_of_union, !elem_of_singleton in Hall.
    destruct Hall as [[[[[[-> | ->] | ->] | ->] | ->] | ->] | ->];
      unfold ChartDBResponse.getattr in Hget; simpl in Hget;
      first [congruence | apply Hnot, list_elem_of_here].
  - intros Hbg. rewrite bool_decide_eq_true_2.
    { rewrite elements_empty. reflexivity. }
    rewrite EditDiff.elem_of_kept_hashes. exists "background_file_hash".
    split; [| split].
    + unfold all_hash_keys. rewrite !elem_of_union, !elem_of_singleton. auto 10.
    + intros [Heq | Hin%elem_of_nil]%elem_of_cons;
        [discriminate Heq | exact Hin].
    + unfold ChartDBResponse.getattr. simpl. congruence.
Qed.

End edit_no_files.

(** ** When an edit fails after the object-store batch *)

Section edit_bound.
Import Edit EditSpec.

Context (X : Externals) (detect : bytes → option (string * string))
  (app : App) (session : Session.t)
  (r : Request) (d : ChartEditData.t) (old : ChartDBResponse.t).

(** What each block does to the hash variables: it binds its own when its
    file is attached, and leaves the others as they are. *)
Lemma chart_block_vars l l' :
  chart_block X detect session r d old l = inr l' →
  jacket_hash l' = jacket_hash l ∧ v1_hash l' = v1_hash l
  ∧ v3_hash l' = v3_hash l ∧ audio_hash l' = audio_hash l
  ∧ preview_hash l' = preview_hash l ∧ background_hash l' = background_hash l
  ∧ (attached (chart_file r) = true → is_Some (chart_hash l')).
Proof.
  unfold chart_block.
  destruct (chart_file r) as [f |]; simpl.
  2:{ destruct (ChartEditData.includes_chart d); [discriminate |].
      intros [= <-]. repeat split; discriminate. }
  destruct (_ >? _)%Z; [discriminate |].
  destruct (ChartEditData.includes_chart d); [| discriminate].
  destruct (detect _) as [result |]; [| discriminate].
  destruct (run_convert X result _) as [e | chart_bytes]; [discriminate |].
  simpl. destruct (negb _); intros [= <-]; simpl; repeat split; eauto.
Qed.

Lemma jacket_block_vars l l' :
  jacket_block X session r d old l = inr l' →
  chart_hash l' = chart_hash l ∧ audio_hash l' = audio_hash l
  ∧ preview_hash l' = preview_hash l ∧ background_hash l' = background_hash l
  ∧ match jacket_image r with
    | None => v1_hash l' = v1_hash l ∧ v3_hash l' = v3_hash l
    | Some f =>
        ChartEditData.includes_jacket d = true
        ∧ is_Some (jacket_hash l')
        ∧ ∃ jacket_bytes,
            get_and_check_file X f "image" = inr jacket_bytes
            ∧ if String.eqb (calculate_sha1 X jacket_bytes)
                   (ChartDBResponse.jacket_file_hash old)
              then v1_hash l' = v1_hash l ∧ v3_hash l' = v3_hash l
              else is_Some (v1_hash l') ∧ is_Some (v3_hash l')
    end.
Proof.
  unfold jacket_block.
  destruct (jacket_image r) as [f |].
  2:{ destruct (ChartEditData.includes_jacket d); [discriminate |].
      intros [= <-]. auto 10. }
  destruct (_ >? _)%Z; [discriminate |].
  destruct (ChartEditData.includes_jacket d); [| discriminate].
  destruct (get_and_check_file X f "image") as [e | jacket_bytes];
    [discriminate |].
  simpl.
  destruct (String.eqb (calculate_sha1 X jacket_bytes) _) eqn:Heq; simpl.
  { intros [= <-]. simpl. repeat split; eauto.
    exists jacket_bytes. rewrite Heq. auto. }
  destruct (generate_backgrounds_resize_jacket X jacket_bytes)
    as [e | [[v1 v3] jacket_bytes']]; [discriminate |].
  simpl. intros [= <-]. simpl. repeat split; eauto.
  exists jacket_bytes. rewrite Heq. split; [reflexivity |]. split; eauto.
Qed.

Lemma audio_block_vars l l' :
  audio_block X session r d old l = inr l' →
  chart_hash l' = chart_hash l ∧ jacket_hash l' = jacket_hash l
  ∧ v1_hash l' = v1_hash l ∧ v3_hash l' = v3_hash l
  ∧ preview_hash l' = preview_hash l ∧ background_hash l' = background_hash l
  ∧ (attached (audio_file r) = true → is_Some (audio_hash l')).
Proof.
  unfold audio_block.
  destruct (audio_file r) as [f |]; simpl.
  2:{ destruct (ChartEditData.includes_audio d); [discriminate |].
      intros [= <-]. repeat split; discriminate. }
  destruct (_ >? _)%Z; [discriminate |].
  destruct (ChartEditData.includes_audio d); [| discriminate].
  destruct (get_and_check_file X f "audio/mpeg") as [e | audio_bytes];
    [discriminate |].
  simpl. destruct (negb _); intros [= <-]; simpl; repeat split; eauto.
Qed.

Lemma preview_block_vars l l' :
  preview_block X session r d old l = inr l' →
  chart_hash l' = chart_hash l ∧ jacket_hash l' = jacket_hash l
  ∧ v1_hash l' = v1_hash l ∧ v3_hash l' = v3_hash l
  ∧ audio_hash l' = audio_hash l ∧ background_hash l' = background_hash l
  ∧ (attached (preview_file r) = true → is_Some (preview_hash l')).
Proof.
  unfold preview_block.
  destruct (preview_file r) as [f |]; simpl.
  2:{ destruct (_ && _); [intros [= <-]; repeat split; discriminate |].
      destruct (ChartEditData.includes_preview d); [discriminate |].
      intros [= <-]. repeat split; discriminate. }
  destruct (_ >? _)%Z; [discriminate |].
  destruct (_ && _).
  2:{ destruct (ChartEditData.delete_preview d); discriminate. }
  destruct (get_and_check_file X f "audio/mpeg") as [e | preview_bytes];
    [discriminate |].
  simpl. destruct (negb _); intros [= <-]; simpl; repeat split; eauto.
Qed.

Lemma background_block_vars l l' :
  background_block X session r d old l = inr l' →
  chart_hash l' = chart_hash l ∧ jacket_hash l' = jacket_hash l
  ∧ v1_hash l' = v1_hash l ∧ v3_hash l' = v3_hash l
  ∧ audio_hash l' = audio_hash l ∧ preview_hash l' = preview_hash l
  ∧ (attached (background_image r) = true → is_Some (background_hash l')).
Proof.
  unfold background_block.
  destruct (background_image r) as [f |]; simpl.
  2:{ destruct (_ && _); [intros [= <-]; repeat split; discriminate |].
      destruct (ChartEditData.includes_background d); [discriminate |].
      intros [= <-]. repeat split; discriminate. }
  destruct (_ >? _)%Z; [discriminate |].
  destruct (_ && _).
  2:{ destruct (ChartEditData.delete_background d); discriminate. }
  destruct (get_and_check_file X f "image/png") as [e | background_bytes];
    [discriminate |].
  simpl. destruct (negb _); intros [= <-]; simpl; repeat split; eauto.
Qed.

(** After the five blocks: the hash variable of every attached file is
    bound, and the two variant hashes are bound exactly when a jacket was
    attached whose bytes, as submitted, do not hash to the stored jacket
    hash. *)
Lemma stage_files_vars l :
  stage_files X detect session r d old = inr l →
  (attached (chart_file r) = true → is_Some (chart_hash l))
  ∧ (attached (audio_file r) = true → is_Some (audio_hash l))
  ∧ (attached (preview_file r) = true → is_Some (preview_hash l))
  ∧ (attached (background_image r) = true → is_Some (background_hash l))
  ∧ match jacket_image r with
    | None => v1_hash l = None ∧ v3_hash l = None
    | Some f =>
        ChartEditData.includes_jacket d = true
        ∧ is_Some (jacket_hash l)
        ∧ ∃ jacket_bytes,
            get_and_check_file X f "image" = inr jacket_bytes
            ∧ if String.eqb (calculate_sha1 X jacket_bytes)
                   (ChartDBResponse.jacket_file_hash old)
              then v1_hash l = None ∧ v3_hash l = None
              else is_Some (v1_hash l) ∧ is_Some (v3_hash l)
    end.
Proof.
  unfold stage_files.
  destruct (chart_block _ _ _ _ _ _ init_locals) as [e | l1] eqn:E1;
    [discriminate |]. simpl.
  destruct (jacket_block _ _ _ _ _ l1) as [e | l2] eqn:E2; [discriminate |].
  simpl.
  destruct (audio_block _ _ _ _ _ l2) as [e | l3] eqn:E3; [discriminate |].
  simpl.
  destruct (preview_block _ _ _ _ _ l3) as [e | l4] eqn:E4; [discriminate |].
  simpl. intros E5.
  apply chart_block_vars in E1 as (C2 & C3 & C4 & C5 & C6 & C7 & C1).
  apply jacket_block_vars in E2 as (J1 & J5 & J6 & J7 & J).
  apply audio_block_vars in E3 as (A1 & A2 & A3 & A4 & A6 & A7 & A5).
  apply preview_block_vars in E4 as (P1 & P2 & P3 & P4 & P5 & P7 & P6).
  apply background_block_vars in E5 as (B1 & B2 & B3 & B4 & B5 & B6 & B7).
  rewrite B1, P1, A1, J1, B5, P5, B6, B2, P2, A2, B3, P3, A3, B4, P4, A4.
  split; [exact C1 |]. split; [exact A5 |]. split; [exact P6 |].
  split; [exact B7 |].
  simpl in C3, C4.
  destruct (jacket_image r) as [f |].
  - destruct J as (Hinc & Hj & jb & Hget & Hv). split; [exact Hinc |].
    split; [exact Hj |]. exists jb. split; [exact Hget |].
    destruct (String.eqb _ _); [| exact Hv].
    destruct Hv as [-> ->]. by rewrite C3, C4.
  - destruct J as [-> ->]. by rewrite C3, C4.
Qed.

Lemma hash_if_attached {F} flag (f : F) name local :
  hash_if flag (Some f) name local
  = if flag
    then match local with
         | Some h => inr (Some h)
         | None => inl (UnboundLocalError name)
         end
    else inr None.
Proof. by destruct flag. Qed.

Lemma hash_if_absent {F} flag name local :
  hash_if flag (@None F) name local = inr None.
Proof. by destruct flag. Qed.

Lemma hash_if_bound flag (file : option UploadFile.t) name local :
  (attached file = true → is_Some local) →
  ∃ p, hash_if flag file name local = inr p.
Proof.
  intros Hbound. destruct file as [f |].
  - rewrite hash_if_attached. destruct (Hbound eq_refl) as [h ->].
    destruct flag; eauto.
  - rewrite hash_if_absent. eauto.
Qed.

(** X13.  Once the files of an edit are staged, building the hash commit
    fails in one case only: a jacket is attached whose bytes, as
    submitted, hash to the stored jacket hash.  The variant hashes are
    then unbound and the handler raises [UnboundLocalError] for
    [v1_hash]; by then the object-store batch has been issued (the blobs
    of the other slots replaced or removed) and nothing is written to the
    database. *)
Theorem edit_fails_after_batch_iff l :
  outcome (check_request X app session r) = inr (d, old) →
  stage_files X detect session r d old = inr l →
  (fails (file_hash_query r d l) ↔
   ∃ f jacket_bytes,
     jacket_image r = Some f
     ∧ get_and_check_file X f "image" = inr jacket_bytes
     ∧ calculate_sha1 X jacket_bytes = ChartDBResponse.jacket_file_hash old)
  ∧ (fails (file_hash_query r d l) →
     main X detect app session r
     = (([EvSessionUser; EvDbFetchrow (get_chart_by_id (id r))]
         ++ trace (s3_batch app session r old l))%list,
        inl (UnboundLocalError "v1_hash"))
     ∧ no_db_write (trace (main X detect app session r))).
Proof.
  intros Hok Hstage.
  pose proof (stage_files_vars l Hstage) as (Hc & Ha & Hp & Hb & Hj).
  pose proof (EditFacts.edit_check_request_ok X app session r d old Hok)
    as (_ & _ & Htr).
  assert (Hquery :
    match jacket_image r with
    | Some f =>
        ∃ jacket_bytes,
          get_and_check_file X f "image" = inr jacket_bytes
          ∧ if String.eqb (calculate_sha1 X jacket_bytes)
                 (ChartDBResponse.jacket_file_hash old)
            then file_hash_query r d l = inl (UnboundLocalError "v1_hash")
            else ∃ q, file_hash_query r d l = inr q
    | None => ∃ q, file_hash_query r d l = inr q
    end).
  { unfold file_hash_query.
    destruct (hash_if_bound (ChartEditData.includes_audio d) (audio_file r)
                "audio_hash" (audio_hash l) Ha) as [pa ->].
    destruct (hash_if_bound (ChartEditData.includes_chart d) (chart_file r)
                "chart_hash" (chart_hash l) Hc) as [pc ->].
    destruct (hash_if_bound (ChartEditData.includes_preview d) (preview_file r)
                "preview_hash" (preview_hash l) Hp) as [pp ->].
    destruct (hash_if_bound (ChartEditData.includes_background d)
                (background_image r) "background_hash" (background_hash l) Hb)
      as [pb ->].
    destruct (jacket_image r) as [f |].
    - destruct Hj as (Hinc & [hj Hhj] & jb & Hget & Hv). exists jb.
      split; [exact Hget |]. rewrite !hash_if_attached, Hinc, Hhj. simpl.
      destruct (String.eqb _ _).
      + destruct Hv as [-> _]. reflexivity.
      + destruct Hv as [[h1 ->] [h3 ->]]. simpl. eauto.
    - rewrite !hash_if_absent. simpl. eauto. }
  assert (Hiff : fails (file_hash_query r d l) ↔
            ∃ f jacket_bytes,
              jacket_image r = Some f
              ∧ get_and_check_file X f "image" = inr jacket_bytes
              ∧ calculate_sha1 X jacket_bytes
                = ChartDBResponse.jacket_file_hash old).
  { destruct (jacket_image r) as [f |].
    - destruct Hquery as (jb & Hget & Hq).
      destruct (String.eqb_spec (calculate_sha1 X jb)
                  (ChartDBResponse.jacket_file_hash old)) as [Heq | Hne].
      + rewrite Hq. split; [intros _; eauto | intros _; exact I].
      + destruct Hq as [q ->]. split; [contradiction |].
        intros (f' & jb' & [= <-] & Hget' & Heq). congruence.
    - destruct Hquery as [q ->]. split; [contradiction |].
      intros (f & _ & [=] & _). }
  split; [exact Hiff |].
  intros Hfails.
  assert (Herr : file_hash_query r d l = inl (UnboundLocalError "v1_hash")).
  { apply Hiff in Hfails as (f & jb & Hf & Hget & Heq).
    rewrite Hf in Hquery. destruct Hquery as (jb' & Hget' & Hq).
    assert (jb' = jb) as -> by congruence.
    apply String.eqb_eq in Heq. by rewrite Heq in Hq. }
  assert (Hmain : main X detect app session r
            = (([EvSessionUser; EvDbFetchrow (get_chart_by_id (id r))]
                ++ trace (s3_batch app session r old l))%list,
               inl (UnboundLocalError "v1_hash"))).
  { rewrite EditFacts.edit_main_unfold, Hok, Hstage, Herr, Htr. reflexivity. }
  split; [exact Hmain |].
  rewrite Hmain. unfold no_db_write, trace at 1. cbn [fst].
  apply Forall_app. split; [repeat constructor |].
  eapply Forall_impl; [apply EditFacts.edit_s3_batch_trace |].
  simpl. intros e He. by destruct e.
Qed.

End edit_bound.

(** ** Where the blobs of an edit live *)

Lemma string_app_assoc (s1 s2 s3 : string) :
  s1 +:+ (s2 +:+ s3) = (s1 +:+ s2) +:+ s3.
Proof.
  induction s1 as [| c s1 IH]; [reflexivity |].
  change (String c (s1 +:+ (s2 +:+ s3)) = String c ((s1 +:+ s2) +:+ s3)).
  by f_equal.
Qed.

Lemma prefix_app p s : String.prefix p (p +:+ s) = true.
Proof.
  induction p as [| c p IH]; simpl; [by destruct s |].
  destruct (ascii_dec c c) as [_ | Hne]; [exact IH | contradiction].
Qed.

Lemma object_key_within_chart session id hash :
  String.prefix (chart_prefix session id) (Edit.object_key session id hash)
  = true.
Proof.
  unfold chart_prefix, Edit.object_key.
  replace (Session.sonolus_id session +:+ "/" +:+ id +:+ "/" +:+ hash)
    with ((Session.sonolus_id session +:+ "/" +:+ id +:+ "/") +:+ hash).
  - apply prefix_app.
  - by rewrite <- !string_app_assoc.
Qed.

Lemma upload_tasks_spec files : ∀ alr op,
  op ∈ upload_tasks alr files →
  ∃ f, f ∈ files
       ∧ op = s3_upload (S3File.path f) (S3File.bytes_ f)
                (S3File.content_type f).
Proof.
  induction files as [| f files IH]; intros alr op; simpl.
  { by intros ?%elem_of_nil. }
  destruct (bool_decide _).
  - intros (f' & Hf' & ->)%IH. exists f'. split; [by apply list_elem_of_further | done].
  - intros [-> | (f' & Hf' & ->)%IH]%elem_of_cons.
    + exists f. split; [apply list_elem_of_here | done].
    + exists f'. split; [by apply list_elem_of_further | done].
Qed.

Section edit_keys.
Import Edit EditSpec.

Context (X : Externals) (detect : bytes → option (string * string))
  (app : App) (session : Session.t).

(** X14.  Every blob the edit handler uploads, and every blob it deletes
    other than the replays it has listed, has a key under
    [f"{session.sonolus_id}/{id}/"]: the edit of one chart never writes or
    deletes a blob of another chart or of another owner. *)
Theorem edit_blobs_within_chart r op :
  EvS3 op ∈ trace (main X detect app session r) →
  String.prefix (chart_prefix session (id r)) (s3_key op) = true
  ∨ ∃ d old key,
      outcome (check_request X app session r) = inr (d, old)
      ∧ op = s3_delete key
      ∧ key ∈ s3_objects app (replays_prefix old).
Proof.
  rewrite EditFacts.edit_main_unfold.
  assert (Hcheck : EvS3 op ∉ trace (check_request X app session r)).
  { destruct (EditFacts.edit_check_request_trace X app session r) as [-> | ->].
    - apply not_elem_of_nil.
    - intros [[=] | [[=] | []%elem_of_nil]%elem_of_cons]%elem_of_cons. }
  destruct (outcome (check_request X app session r)) as [e | [d old]] eqn:Hok;
    [by intros ?%Hcheck |].
  destruct (stage_files X detect session r d old) as [e | l] eqn:Hstage;
    [by intros ?%Hcheck |].
  pose proof (stage_files_ok X detect session r d old l Hstage) as [Hkeyed _].
  rewrite Forall_forall in Hkeyed.
  assert (Hbatch : EvS3 op ∈ trace (s3_batch app session r old l) →
            String.prefix (chart_prefix session (id r)) (s3_key op) = true
            ∨ ∃ d' old' key,
                inr (d, old) = @inr exn _ (d', old') ∧ op = s3_delete key
                ∧ key ∈ s3_objects app (replays_prefix old')).
  { assert (Htasks : op ∈ (delete_tasks session (id r) []
                             (elements (deleted_hashes old (old_deletes l)))
                           ++ upload_tasks [] (s3_uploads l))%list →
              String.prefix (chart_prefix session (id r)) (s3_key op) = true).
    { intros [Hdel | Hup]%elem_of_app.
      - apply EditDiff.delete_tasks_spec in Hdel as (h & _ & ->). simpl.
        apply object_key_within_chart.
      - apply upload_tasks_spec in Hup as (f & Hf & ->). simpl.
        rewrite (Hkeyed f Hf). apply object_key_within_chart. }
    unfold s3_batch. destruct (_ || _); [| by intros ?%elem_of_nil].
    destruct (chart_updated l); unfold trace; simpl.
    - intros [[=] | Hin]%elem_of_cons.
      apply list_elem_of_fmap in Hin as (op' & [= <-] & Hin).
      apply elem_of_app in Hin as [Hin | Hin]; [left; by apply Htasks |].
      apply list_elem_of_fmap in Hin as (key & -> & Hkey).
      right. exists d, old, key. auto.
    - intros Hin. apply list_elem_of_fmap in Hin as (op' & [= <-] & Hin).
      left. by apply Htasks. }
  destruct (file_hash_query r d l) as [e | q2]; unfold trace at 1; cbn [fst].
  - intros [Hin | Hin]%elem_of_app; [by apply Hcheck in Hin | by apply Hbatch].
  - intros [Hin | [Hin | Hin]%elem_of_app]%elem_of_app;
      [by apply Hcheck in Hin | by apply Hbatch |].
    rewrite EditFacts.edit_db_commit_trace in Hin.
    destruct (chart_updated l);
      repeat (apply elem_of_cons in Hin as [[=] | Hin]);
      by apply elem_of_nil in Hin.
Qed.

(** X15.  Whatever exception the conversion of the chart script raises in
    the edit handler (a parse error of the dialect, a refused producer
    tag, a kind the converter does not know), the request is answered 400
    with the text of that exception, after the chart row was read and
    before any other file is looked at or any store changed. *)
Theorem edit_conversion_failure r d old f result e :
  outcome (check_request X app session r) = inr (d, old) →
  chart_file r = Some f →
  over_limit "chart" (Some f) = false →
  ChartEditData.includes_chart d = true →
  detect (UploadFile.content f) = Some result →
  convert X result (UploadFile.content f) = inl e →
  main X detect app session r
  = ([EvSessionUser; EvDbFetchrow (get_chart_by_id (id r))],
     inl (HTTPException 400 (str_exn e))).
Proof.
  intros Hok Hf Hsize Hinc Hdet Hconv.
  pose proof (EditFacts.edit_check_request_ok X app session r d old Hok)
    as (_ & _ & Htr).
  rewrite EditFacts.edit_main_unfold, Hok, Htr.
  unfold stage_files, chart_block, run_convert. simpl in Hsize.
  by rewrite Hf, Hsize, Hinc, Hdet, Hconv.
Qed.

(** A kind other than the three the converter tests reaches
    [converted.read()] with [converted] unbound. *)
Lemma edit_convert_unknown_kind result chart_bytes :
  fst result ≠ "sus" → fst result ≠ "usc" → fst result ≠ "lvd" →
  convert X result chart_bytes = inl (UnboundLocalError "converted").
Proof.
  intros H1%String.eqb_neq H2%String.eqb_neq H3%String.eqb_neq.
  unfold convert. by rewrite H1, H2, H3.
Qed.

End edit_keys.

(** ** The further properties on sample requests *)

Lemma upload_stores_reached_only_after_staging_witness :
  ∃ d st,
    Sample.parse_upload "song" = inr d
    ∧ Upload.limits_exceeded d = false
    ∧ upload_on_cooldown (Sample.app false) Sample.session = false
    ∧ UploadSpec.oversize (Sample.upload (Sample.file "nextsekai:notes")) = false
    ∧ Upload.stage_files Sample.X Sample.detect_upload (Sample.app false)
        Sample.session (Sample.upload (Sample.file "nextsekai:notes"))
        (Upload.remove_dashes (uuid4 (Sample.app false))) = inr st.
Proof.
  apply (upload_stores_reached_only_after_staging Sample.X Sample.detect_upload
           (Sample.app false) Sample.session
           (Sample.upload (Sample.file "nextsekai:notes"))
           (EvDbExecute (update_cooldown "alice" 1))).
  - apply (list_elem_of_lookup_2 _ 7). vm_compute. reflexivity.
  - right. reflexivity.
Defined.

(** One minute and forty seconds of cooldown left. *)
Lemma upload_cooldown_witness :
  Upload.main Sample.X Sample.detect_upload (Sample.app false)
    More.cooling_session (Sample.upload (Sample.file "nextsekai:notes"))
  = ([EvSessionUser],
     inl (HTTPException 429 "On cooldown. Time remaining: 1m 40s")).
Proof.
  destruct (proj1 (upload_cooldown Sample.X Sample.detect_upload
                     (Sample.app false) More.cooling_session
                     (Sample.upload (Sample.file "nextsekai:notes"))
                     Sample.upload_data eq_refl eq_refl)
              1100%Z eq_refl eq_refl eq_refl)
    as (minutes & seconds & Hsum & Hmin & Hsec & ->).
  assert (minutes = 1 ∧ seconds = 40)%Z as [-> ->] by (simpl in Hsum; lia).
  reflexivity.
Defined.

Lemma upload_insert_outcome_witness :
  outcome (Upload.main Sample.X Sample.detect_upload More.app_no_insert
             Sample.session (Sample.upload (Sample.file "nextsekai:notes")))
  = inl (HTTPException 500 "Error while processing upload result.").
Proof.
  destruct (Upload.stage_files Sample.X Sample.detect_upload More.app_no_insert
              Sample.session (Sample.upload (Sample.file "nextsekai:notes"))
              (Upload.remove_dashes (uuid4 More.app_no_insert)))
    as [e | st] eqn:Hstage; [vm_compute in Hstage; discriminate Hstage |].
  destruct (upload_insert_outcome Sample.X Sample.detect_upload
              More.app_no_insert Sample.session
              (Sample.upload (Sample.file "nextsekai:notes"))
              Sample.upload_data st eq_refl Hstage) as [Hnone _].
  destruct (Hnone eq_refl) as [-> _]. reflexivity.
Defined.

(** An edit of the metadata alone. *)
Lemma edit_without_files_witness :
  no_s3 (trace (Sample.run_edit false (Sample.edit "{}" None None None None None))).
Proof.
  unfold Sample.run_edit.
  rewrite (edit_without_files Sample.X Sample.detect_edit (Sample.app false)
             Sample.session (Sample.edit "{}" None None None None None)
             (Sample.edit_data false false false false false false false)
             Sample.stored eq_refl).
  - unfold no_s3, trace. vm_compute. repeat constructor.
  - repeat split.
  - repeat split.
Defined.

Lemma edit_delete_background_witness :
  EvS3 (s3_delete "alice/0123456789abcdef0123456789abcdef/sha1:B")
  ∈ trace (Sample.run_edit false
             (Sample.edit "delete_background" None None None None None)).
Proof.
  unfold Sample.run_edit.
  rewrite (proj1 (edit_delete_background Sample.X Sample.detect_edit
             (Sample.app false) Sample.session
             (Sample.edit "delete_background" None None None None None)
             (Sample.edit_data false false false false false false true)
             Sample.stored (Sample.sha1 (Sample.b "B")) eq_refl
             ltac:(repeat split) ltac:(repeat split) eq_refl eq_refl eq_refl
             ltac:(discriminate) ltac:(discriminate) ltac:(discriminate)
             ltac:(discriminate) ltac:(discriminate) ltac:(discriminate))).
  apply (list_elem_of_lookup_2 _ 2). reflexivity.
Defined.

(** The sample chart has a background and no preview. *)
Lemma edit_delete_absent_preview_witness :
  EvS3 (s3_delete "alice/0123456789abcdef0123456789abcdef/None")
  ∈ trace (Edit.main More.X Sample.detect_edit (Sample.app false)
             Sample.session
             (Sample.edit "delete_preview" None None None None None)).
Proof.
  rewrite (proj1 (edit_delete_absent_preview More.X Sample.detect_edit
             (Sample.app false) Sample.session
             (Sample.edit "delete_preview" None None None None None)
             (Sample.edit_data false false false false false true false)
             Sample.stored eq_refl
             ltac:(repeat split) ltac:(repeat split) eq_refl eq_refl eq_refl)
             ltac:(eexists; reflexivity)).
  apply (list_elem_of_lookup_2 _ 2). reflexivity.
Defined.

(** The audio replaced and the stored jacket resubmitted in one edit: the
    old audio blob is deleted, and nothing is committed. *)
Lemma edit_fails_after_batch_iff_witness :
  outcome (Edit.main More.X Sample.detect_edit (Sample.app false)
             Sample.session
             (Sample.edit "audio+jacket" None (Some (Sample.file "J"))
                (Some (Sample.file "Y")) None None))
  = inl (UnboundLocalError "v1_hash").
Proof.
  set (r := Sample.edit "audio+jacket" None (Some (Sample.file "J"))
              (Some (Sample.file "Y")) None None).
  destruct (Edit.stage_files More.X Sample.detect_edit Sample.session r
              (Sample.edit_data true true false false false false false)
              Sample.stored) as [e | l] eqn:Hstage;
    [vm_compute in Hstage; discriminate Hstage |].
  destruct (edit_fails_after_batch_iff More.X Sample.detect_edit
              (Sample.app false) Sample.session r
              (Sample.edit_data true true false false false false false)
              Sample.stored l eq_refl Hstage) as [Hiff Hfail].
  destruct Hfail as [-> _]; [| reflexivity].
  apply Hiff. exists (Sample.file "J"), (Sample.b "J"). repeat split.
Defined.

Lemma edit_blobs_within_chart_witness :
  String.prefix "alice/0123456789abcdef0123456789abcdef/"
    "alice/0123456789abcdef0123456789abcdef/sha1:Y" = true.
Proof.
  destruct (edit_blobs_within_chart Sample.X Sample.detect_edit
              (Sample.app false) Sample.session
              (Sample.edit "audio" None None (Some (Sample.file "Y")) None None)
              (s3_upload "alice/0123456789abcdef0123456789abcdef/sha1:Y"
                 (Sample.b "Y") "audio/mpeg"))
    as [Hprefix | (d & old & key & _ & Hop & _)].
  - apply (list_elem_of_lookup_2 _ 4). vm_compute. reflexivity.
  - exact Hprefix.
  - discriminate Hop.
Defined.

(** A script of the first dialect that its parser refuses. *)
Lemma edit_conversion_failure_witness :
  Edit.main More.X Sample.detect_edit (Sample.app false) Sample.session
    (Sample.edit "chart" (Some (Sample.file "#SUS broken")) None None None None)
  = ([EvSessionUser; EvDbFetchrow (get_chart_by_id Sample.chart_id)],
     inl (HTTPException 400 "broken score")).
Proof.
  apply (edit_conversion_failure More.X Sample.detect_edit (Sample.app false)
           Sample.session
           (Sample.edit "chart" (Some (Sample.file "#SUS broken"))
              None None None None)
           (Sample.edit_data false false true false false false false)
           Sample.stored (Sample.file "#SUS broken") ("sus", "")
           (PyException "broken score"));
    reflexivity.
Defined.
(** ** The leaderboards handlers *)

Module LeaderboardsFacts.
Import Leaderboards LeaderboardsSpec.

Section facts.

Context {FO : FloatOps} (I : Imports FO).

(** The run of lines 93-145. *)
Lemma store_replay_run r replay chart curr :
  store_replay I r replay chart curr
  = match s3_gather_raises I (replay_tasks I r chart curr) with
    | Some e => (replay_tasks I r chart curr, inl e)
    | None =>
        match leaderboard_record_validate I (new_record I r replay chart) with
        | Some e => (replay_tasks I r chart curr, inl e)
        | None =>
            ((replay_tasks I r chart curr
              ++ [EvExecute (create_leaderboard_record
                               (new_record I r replay chart))])%list,
             match db_execute_raises I
                     (create_leaderboard_record
                        (new_record I r replay chart)) with
             | Some e => inl e
             | None => inr [("status", "ok")]
             end)
        end
    end.
Proof.
  unfold store_replay, gather, execute.
  destruct (s3_gather_raises I (replay_tasks I r chart curr)); simpl;
    [done |].
  destruct (leaderboard_record_validate I (new_record I r replay chart));
    simpl; [by rewrite app_nil_r |].
  by destruct (db_execute_raises I _).
Qed.

Lemma replay_tasks_s3 r chart curr e :
  e ∈ replay_tasks I r chart curr → is_s3 e = true.
Proof.
  unfold replay_tasks, replay_uploads.
  destruct curr; intros He;
    repeat (apply elem_of_cons in He as [-> | He]; [done |]);
    by apply elem_of_nil in He.
Qed.


(** The run of an admitted replay. *)
Lemma upload_replay_admitted r chart replay :
  admitted I r chart replay →
  upload_replay I r
  = match db_user_record I (id r) (user_id r) with
    | None =>
        ((replay_fetches r ++ trace (store_replay I r replay chart None))%list,
         outcome (store_replay I r replay chart None))
    | Some curr =>
        match weighted_score (Int (RecordRow.arcade_score curr))
                (Some (RecordRow.speed curr)),
              weighted_score (GameplayResult.arcadeScore replay) (speed r) with
        | inl e, _ => (replay_fetches r, inl e)
        | inr _, inl e => (replay_fetches r, inl e)
        | inr old_score, inr new_score =>
            if (old_score >=? new_score)%Z
            then (replay_fetches r, inr [("status", "unchanged")])
            else
              match db_execute_raises I
                      (delete_leaderboard_record (RecordRow.id curr)) with
              | Some e =>
                  ((replay_fetches r
                    ++ [EvExecute
                          (delete_leaderboard_record (RecordRow.id curr))])%list,
                   inl e)
              | None =>
                  ((replay_fetches r
                    ++ EvExecute
                         (delete_leaderboard_record (RecordRow.id curr))
                       :: trace (store_replay I r replay chart (Some curr)))%list,
                   outcome (store_replay I r replay chart (Some curr)))
              end
        end
    end.
Proof.
  intros (Hh & Hid & (d & Hd & Hp) & Hc & Hpriv).
  unfold upload_replay.
  rewrite bool_decide_eq_true_2 by done. simpl negb. cbv iota.
  rewrite Hid, Hd. simpl. rewrite Hp. simpl. rewrite Hc.
  assert (String.eqb (ChartRow.status chart) "PRIVATE"
          && negb (String.eqb (ChartRow.author chart) (user_id r)) = false)
    as ->.
  { destruct (String.eqb_spec (ChartRow.status chart) "PRIVATE") as [Hs | Hs];
      [| done].
    rewrite (Hpriv Hs), String.eqb_refl. done. }
  simpl.
  destruct (db_user_record I (id r) (user_id r)) as [curr |].
  - destruct (weighted_score (Int (RecordRow.arcade_score curr)) _)
      as [e | old_score]; simpl; [done |].
    destruct (weighted_score (GameplayResult.arcadeScore replay) (speed r))
      as [e | new_score]; simpl; [done |].
    destruct (old_score >=? new_score)%Z; simpl; [done |].
    unfold execute.
    destruct (db_execute_raises I _); simpl; [done |].
    by destruct (store_replay I r replay chart (Some curr)).
  - by destruct (store_replay I r replay chart None).
Qed.

(** A replay that is not admitted is refused without a write. *)
Lemma upload_replay_dichotomy r :
  (∃ chart replay, admitted I r chart replay)
  ∨ (read_only (trace (upload_replay I r))
     ∧ ∃ e, outcome (upload_replay I r) = inl e).
Proof.
  unfold upload_replay, admitted, read_only.
  destruct (decide (header r = Some (auth I))) as [Hh | Hh].
  2: { right. rewrite bool_decide_eq_false_2 by done. simpl. eauto. }
  rewrite bool_decide_eq_true_2 by done. simpl negb. cbv iota.
  destruct (bad_chart_id I (id r)) eqn:Hid.
  { right. simpl. eauto. }
  destruct (gzip_decompress I (UploadFile.content (replay_data r)))
    as [e | d] eqn:Hd.
  { right. simpl. eauto. }
  simpl.
  destruct (replay_model_validate_json I d) as [e | replay] eqn:Hp.
  { right. simpl. eauto. }
  simpl.
  destruct (db_chart_by_id I (id r)) as [chart |] eqn:Hc.
  2: { right. simpl. split; [repeat constructor | eauto]. }
  destruct (String.eqb_spec (ChartRow.status chart) "PRIVATE") as [Hs | Hs].
  - destruct (String.eqb_spec (ChartRow.author chart) (user_id r)) as [Ha | Ha].
    + left. exists chart, replay. eauto 10.
    + right. simpl. split; [repeat constructor | eauto].
  - left. exists chart, replay. repeat split; eauto. done.
Qed.


Lemma replay_key_under_prefix chart user_id hash :
  String.prefix (user_replays_prefix chart user_id)
    (replay_key chart user_id hash) = true.
Proof.
  unfold user_replays_prefix, replay_key.
  replace (ChartRow.author chart +:+ "/" +:+ ChartRow.id chart +:+ "/replays/"
           +:+ user_id +:+ "/" +:+ hash)
    with ((ChartRow.author chart +:+ "/" +:+ ChartRow.id chart +:+ "/replays/"
           +:+ user_id +:+ "/") +:+ hash).
  - apply prefix_app.
  - by rewrite <- !string_app_assoc.
Qed.

Lemma replay_key_under_chart_replays chart (old : ChartDBResponse.t)
  user_id hash :
  ChartDBResponse.author old = ChartRow.author chart →
  ChartDBResponse.id old = ChartRow.id chart →
  String.prefix (Edit.replays_prefix old) (replay_key chart user_id hash)
  = true.
Proof.
  intros Ha Hi. unfold Edit.replays_prefix, replay_key. rewrite Ha, Hi.
  replace (ChartRow.author chart +:+ "/" +:+ ChartRow.id chart +:+ "/replays/"
           +:+ user_id +:+ "/" +:+ hash)
    with ((ChartRow.author chart +:+ "/" +:+ ChartRow.id chart +:+ "/replays/")
          +:+ (user_id +:+ "/" +:+ hash)).
  - apply prefix_app.
  - by rewrite <- !string_app_assoc.
Qed.

Lemma replay_tasks_keys r chart curr e key :
  e ∈ replay_tasks I r chart curr → key ∈ s3_keys e →
  ∃ hash, key = replay_key chart (user_id r) hash.
Proof.
  unfold replay_tasks, replay_uploads, old_replay_keys.
  destruct curr; intros He Hk;
    repeat (apply elem_of_cons in He as [-> | He];
            [simpl in Hk;
             repeat (apply elem_of_cons in Hk as [-> | Hk]; [eauto |]);
             by apply elem_of_nil in Hk |]);
    by apply elem_of_nil in He.
Qed.

Lemma replay_fetches_quiet (r : ReplayRequest FO) e :
  e ∈ replay_fetches r → is_write e = false ∧ s3_keys e = [].
Proof.
  unfold replay_fetches. intros He.
  repeat (apply elem_of_cons in He as [-> | He]; [done |]).
  by apply elem_of_nil in He.
Qed.

(** X16.  A replay leads to a write (a row deleted or created, a blob
    uploaded or deleted) only when the request carries the shared secret,
    the chart id is well formed, the payload decompresses and parses, the
    chart exists, and a private chart is the submitter's own. *)
Theorem replay_write_requires_admission r e :
  e ∈ trace (upload_replay I r) → is_write e = true →
  ∃ chart replay, admitted I r chart replay.
Proof.
  intros He Hw.
  destruct (upload_replay_dichotomy r) as [Hadm | [Hro _]]; [done |].
  unfold read_only in Hro. rewrite Forall_forall in Hro.
  specialize (Hro e He). congruence.
Qed.

(** The case analysis of an admitted replay: the record in place, the
    two weighted scores, their comparison, and what the deletion, the
    batch, the construction of the record and its insertion raise. *)
Ltac replay_tree r chart replay Hadm :=
  rewrite (upload_replay_admitted r chart replay Hadm);
  destruct (db_user_record I (id r) (user_id r)) as [curr |] eqn:Hcurr;
  [ destruct (weighted_score (Int (RecordRow.arcade_score curr))
                (Some (RecordRow.speed curr)))
      as [? | old_score] eqn:Hold;
    [| destruct (weighted_score (GameplayResult.arcadeScore replay) (speed r))
         as [? | new_score] eqn:Hnew;
       [| destruct (old_score >=? new_score)%Z eqn:Hcmp;
          [| destruct (db_execute_raises I
                         (delete_leaderboard_record (RecordRow.id curr)))
               eqn:Hdelete;
             [| rewrite store_replay_run;
                destruct (s3_gather_raises I
                            (replay_tasks I r chart (Some curr))) eqn:Hgather;
                [| destruct (leaderboard_record_validate I
                               (new_record I r replay chart)) eqn:Hvalid;
                   [| destruct (db_execute_raises I
                                  (create_leaderboard_record
                                     (new_record I r replay chart)))
                        eqn:Hcreate ] ] ] ] ] ]
  | rewrite store_replay_run;
    destruct (s3_gather_raises I (replay_tasks I r chart None)) eqn:Hgather;
    [| destruct (leaderboard_record_validate I
                   (new_record I r replay chart)) eqn:Hvalid;
       [| destruct (db_execute_raises I
                      (create_leaderboard_record
                         (new_record I r replay chart))) eqn:Hcreate ] ] ];
  unfold outcome, trace; cbn [fst snd].

(** X17.  The handler answers "unchanged" exactly when the replay is
    admitted, the user has a record on the chart, and the weighted score
    of the replay does not exceed that of the record; a tie keeps the old
    record.  Nothing is written then. *)
Theorem replay_unchanged_iff r :
  (outcome (upload_replay I r) = inr [("status", "unchanged")] ↔
   ∃ chart replay curr old_score new_score,
     admitted I r chart replay
     ∧ db_user_record I (id r) (user_id r) = Some curr
     ∧ scores r replay curr old_score new_score
     ∧ (new_score ≤ old_score)%Z)
  ∧ (outcome (upload_replay I r) = inr [("status", "unchanged")] →
     trace (upload_replay I r) = replay_fetches r).
Proof.
  assert (outcome (upload_replay I r) = inr [("status", "unchanged")] →
          (∃ chart replay curr old_score new_score,
             admitted I r chart replay
             ∧ db_user_record I (id r) (user_id r) = Some curr
             ∧ scores r replay curr old_score new_score
             ∧ (new_score ≤ old_score)%Z)
          ∧ trace (upload_replay I r) = replay_fetches r) as Hfwd.
  { destruct (upload_replay_dichotomy r)
      as [(chart & replay & Hadm) | [_ [e He]]].
    2: { rewrite He. discriminate. }
    replay_tree r chart replay Hadm; try discriminate.
    intros _. split; [| done].
    exists chart, replay, curr, old_score, new_score.
    apply Z.geb_le in Hcmp. by repeat (split; [done |]). }
  split; [split |]; [apply Hfwd | | apply Hfwd].
  intros (chart & replay & curr & old_score & new_score & Hadm & Hcurr
          & [Hold Hnew] & Hle).
  rewrite (upload_replay_admitted r chart replay Hadm), Hcurr, Hold, Hnew.
  assert ((old_score >=? new_score)%Z = true) as -> by (by apply Z.geb_le).
  done.
Qed.

(** The run of a replay that is answered "ok". *)
Lemma replay_ok_run r :
  outcome (upload_replay I r) = inr [("status", "ok")] →
  ∃ chart replay,
    admitted I r chart replay
    ∧ leaderboard_record_validate I (new_record I r replay chart) = None
    ∧ trace (upload_replay I r)
      = (replay_fetches r
         ++ match db_user_record I (id r) (user_id r) with
            | Some curr =>
                [EvExecute (delete_leaderboard_record (RecordRow.id curr))]
            | None => []
            end
         ++ replay_tasks I r chart (db_user_record I (id r) (user_id r))
         ++ [EvExecute (create_leaderboard_record
                          (new_record I r replay chart))])%list
    ∧ ∀ curr,
        db_user_record I (id r) (user_id r) = Some curr →
        ∃ old_score new_score,
          scores r replay curr old_score new_score
          ∧ (old_score < new_score)%Z.
Proof.
  destruct (upload_replay_dichotomy r)
    as [(chart & replay & Hadm) | [_ [e He]]].
  2: { rewrite He. discriminate. }
  intros Hok. exists chart, replay. split; [done |]. revert Hok.
  replay_tree r chart replay Hadm; try discriminate.
  - intros _. split; [done |]. split; [done |].
    intros ? [= <-]. exists old_score, new_score.
    assert (old_score < new_score)%Z
      by (destruct (Z.geb_spec old_score new_score); [discriminate | lia]).
    split; [by split | done].
  - intros _. by repeat (split; [done |]).
Qed.

(** X18.  A replay that is answered "ok" has run, in this order: the two
    reads; the deletion of the user's record in place, if there is one;
    the batch of the two uploads and, if there was a record, the deletion
    of its two blobs; the creation of the new record.  A record in place
    is replaced only by a strictly higher weighted score. *)
Theorem replay_accepted r :
  outcome (upload_replay I r) = inr [("status", "ok")] →
  ∃ chart replay,
    admitted I r chart replay
    ∧ leaderboard_record_validate I (new_record I r replay chart) = None
    ∧ trace (upload_replay I r)
      = (replay_fetches r
         ++ match db_user_record I (id r) (user_id r) with
            | Some curr =>
                [EvExecute (delete_leaderboard_record (RecordRow.id curr))]
            | None => []
            end
         ++ replay_tasks I r chart (db_user_record I (id r) (user_id r))
         ++ [EvExecute (create_leaderboard_record
                          (new_record I r replay chart))])%list
    ∧ ∀ curr,
        db_user_record I (id r) (user_id r) = Some curr →
        ∃ old_score new_score,
          scores r replay curr old_score new_score
          ∧ (old_score < new_score)%Z.
Proof. apply replay_ok_run. Qed.

(** The trace of an admitted replay lies within the reads, the deletion
    of the record in place, the batch and the creation. *)
Lemma replay_trace_within r chart replay e :
  admitted I r chart replay →
  e ∈ trace (upload_replay I r) →
  e ∈ replay_fetches r
  ∨ (∃ curr, db_user_record I (id r) (user_id r) = Some curr
             ∧ e = EvExecute (delete_leaderboard_record (RecordRow.id curr)))
  ∨ e ∈ replay_tasks I r chart (db_user_record I (id r) (user_id r))
  ∨ e = EvExecute (create_leaderboard_record (new_record I r replay chart)).
Proof.
  intros Hadm.
  replay_tree r chart replay Hadm;
    rewrite ?elem_of_app, ?elem_of_cons, ?elem_of_app,
      ?list_elem_of_singleton, ?elem_of_nil;
    intros H;
    repeat match goal with
           | H : _ ∨ _ |- _ => destruct H as [H | H]
           | H : False |- _ => destruct H
           end;
    first [ by left | right; left; by eauto | by right; right; left
          | by right; right; right ].
Qed.

(** X19.  Every blob a replay submission uploads or deletes has a key
    under [{chart.author}/{chart.id}/replays/{user_id}/]: it touches the
    replays of that user on that chart only, and each such key is under
    the prefix the edit handler lists when it removes the replays of the
    chart. *)
Theorem replay_blobs_under_replays_prefix r e key :
  e ∈ trace (upload_replay I r) → key ∈ s3_keys e →
  ∃ chart,
    db_chart_by_id I (id r) = Some chart
    ∧ String.prefix (user_replays_prefix chart (user_id r)) key = true
    ∧ ∀ old : ChartDBResponse.t,
        ChartDBResponse.author old = ChartRow.author chart →
        ChartDBResponse.id old = ChartRow.id chart →
        String.prefix (Edit.replays_prefix old) key = true.
Proof.
  intros He Hk.
  destruct (upload_replay_dichotomy r)
    as [(chart & replay & Hadm) | [Hro _]].
  2: { unfold read_only in Hro. rewrite Forall_forall in Hro.
       specialize (Hro e He). destruct e; try discriminate;
         by apply elem_of_nil in Hk. }
  exists chart. split; [apply Hadm |].
  destruct (replay_trace_within r chart replay e Hadm He)
    as [Hf | [(curr & _ & ->) | [Ht | ->]]].
  - apply replay_fetches_quiet in Hf as [_ Hf]. rewrite Hf in Hk.
    by apply elem_of_nil in Hk.
  - by apply elem_of_nil in Hk.
  - destruct (replay_tasks_keys r chart _ e key Ht Hk) as [hash ->].
    split; [apply replay_key_under_prefix |].
    intros old Ha Hi. by apply replay_key_under_chart_replays.
  - by apply elem_of_nil in Hk.
Qed.

(** X20.  When the replay data submitted again hash to the data hash of
    the record in place and the submission is accepted (a higher weighted
    score, as a higher speed gives), the batch handed to [asyncio.gather]
    holds both the upload of the data under its key and a deletion whose
    keys include that key. *)
Theorem replay_resubmitted_blob_deleted r curr :
  outcome (upload_replay I r) = inr [("status", "ok")] →
  db_user_record I (id r) (user_id r) = Some curr →
  calculate_sha1 I (UploadFile.content (replay_data r))
  = RecordRow.replay_data_hash curr →
  ∃ chart pre post key keys,
    trace (upload_replay I r)
    = (pre ++ replay_tasks I r chart (Some curr) ++ post)%list
    ∧ EvUpload key (UploadFile.content (replay_data r)) "application/gzip"
      ∈ replay_tasks I r chart (Some curr)
    ∧ EvDeleteObjects keys ∈ replay_tasks I r chart (Some curr)
    ∧ key ∈ keys.
Proof.
  intros Hok Hcurr Hhash.
  destruct (replay_ok_run r Hok) as (chart & replay & _ & _ & Htr & _).
  rewrite Hcurr in Htr.
  exists chart,
    (replay_fetches r
     ++ [EvExecute (delete_leaderboard_record (RecordRow.id curr))])%list,
    [EvExecute (create_leaderboard_record (new_record I r replay chart))],
    (replay_key chart (user_id r) (RecordRow.replay_data_hash curr)),
    (old_replay_keys r chart curr).
  split; [by rewrite Htr, <- !app_assoc |].
  unfold replay_tasks, replay_uploads, old_replay_keys. rewrite Hhash.
  repeat split.
  - apply elem_of_app. left. apply list_elem_of_here.
  - apply elem_of_app. right. apply list_elem_of_here.
  - apply list_elem_of_here.
Qed.

Lemma is_s3_is_write (e : event FO) : is_s3 e = true → is_write e = true.
Proof. by destruct e. Qed.

(** X21.  Whatever makes a replay submission fail once a blob call has
    been issued, nothing is restored: the record the user had on the
    chart has already been deleted, the deletion of its blobs has been
    issued with the batch, and the insertion of the new record, if it was
    sent at all, is what failed.  The construction of [LeaderboardRecord]
    (lines 125-141) is one such failure: when it raises for an admitted
    replay that beats the record in place, and the deletion and the batch
    went through, the handler raises that exception after the reads, the
    deletion of the record and the batch. *)
Theorem replay_failure_after_blobs r :
  (∀ e ev,
     outcome (upload_replay I r) = inl e →
     ev ∈ trace (upload_replay I r) → is_s3 ev = true →
     ∃ chart replay,
       admitted I r chart replay
       ∧ (∀ curr,
            db_user_record I (id r) (user_id r) = Some curr →
            db_execute_raises I
              (delete_leaderboard_record (RecordRow.id curr)) = None
            ∧ EvExecute (delete_leaderboard_record (RecordRow.id curr))
              ∈ trace (upload_replay I r)
            ∧ EvDeleteObjects (old_replay_keys r chart curr)
              ∈ trace (upload_replay I r))
       ∧ (∀ ev',
            ev' ∈ trace (upload_replay I r) → is_record_create ev' = true →
            db_execute_raises I
              (create_leaderboard_record (new_record I r replay chart))
            = Some e))
  ∧ (∀ chart replay e,
       admitted I r chart replay →
       leaderboard_record_validate I (new_record I r replay chart) = Some e →
       s3_gather_raises I
         (replay_tasks I r chart (db_user_record I (id r) (user_id r)))
       = None →
       (∀ curr,
          db_user_record I (id r) (user_id r) = Some curr →
          db_execute_raises I
            (delete_leaderboard_record (RecordRow.id curr)) = None
          ∧ ∃ old_score new_score,
              scores r replay curr old_score new_score
              ∧ (old_score < new_score)%Z) →
       upload_replay I r
       = ((replay_fetches r
           ++ match db_user_record I (id r) (user_id r) with
              | Some curr =>
                  [EvExecute (delete_leaderboard_record (RecordRow.id curr))]
              | None => []
              end
           ++ replay_tasks I r chart (db_user_record I (id r) (user_id r)))%list,
          inl e)).
Proof.
  split.
  - intros e ev Hout Hev Hs3.
    destruct (upload_replay_dichotomy r)
      as [(chart & replay & Hadm) | [Hro _]].
    2: { unfold read_only in Hro. rewrite Forall_forall in Hro.
         specialize (Hro ev Hev). apply is_s3_is_write in Hs3. congruence. }
    exists chart, replay. split; [done |].
    assert (∀ ev', ev' ∈ replay_fetches r → is_s3 ev' = true → False) as Hq.
    { intros ev' H1 H2. apply replay_fetches_quiet in H1 as [H1 _].
      apply is_s3_is_write in H2. congruence. }
    assert (∀ ev' curr,
              ev' ∈ (replay_fetches r
                     ++ EvExecute
                          (delete_leaderboard_record (RecordRow.id curr))
                        :: replay_tasks I r chart (Some curr))%list →
              is_record_create ev' = true → False) as Hno.
    { intros ev' curr [H | [-> | H]%elem_of_cons]%elem_of_app Hc.
      - apply replay_fetches_quiet in H as [H _]. by destruct ev' as [| | | [] | |].
      - discriminate.
      - apply replay_tasks_s3 in H. by destruct ev'. }
    assert (∀ ev',
              ev' ∈ (replay_fetches r ++ replay_tasks I r chart None)%list →
              is_record_create ev' = true → False) as Hno'.
    { intros ev' [H | H]%elem_of_app Hc.
      - apply replay_fetches_quiet in H as [H _]. by destruct ev' as [| | | [] | |].
      - apply replay_tasks_s3 in H. by destruct ev'. }
    assert (∀ curr post,
              EvExecute (delete_leaderboard_record (RecordRow.id curr))
              ∈ (replay_fetches r
                 ++ EvExecute (delete_leaderboard_record (RecordRow.id curr))
                    :: replay_tasks I r chart (Some curr) ++ post)%list
              ∧ EvDeleteObjects (old_replay_keys r chart curr)
                ∈ (replay_fetches r
                   ++ EvExecute
                        (delete_leaderboard_record (RecordRow.id curr))
                      :: replay_tasks I r chart (Some curr) ++ post)%list)
      as Hgone.
    { intros curr post. split.
      - apply elem_of_app. right. apply list_elem_of_here.
      - apply elem_of_app. right. apply list_elem_of_further.
        apply elem_of_app. left. unfold replay_tasks. apply elem_of_app.
        right. apply list_elem_of_here. }
    revert Hout Hev.
    replay_tree r chart replay Hadm; try discriminate.
    + intros _ H. by destruct (Hq ev H).
    + intros _ H. by destruct (Hq ev H).
    + intros _ H. apply elem_of_app in H as [H | H]; [by destruct (Hq ev H) |].
      apply list_elem_of_singleton in H. by subst ev.
    + intros [= ->] _. split.
      * intros ? [= <-]. split; [done |].
        pose proof (Hgone curr []) as Hg. by rewrite app_nil_r in Hg.
      * intros ev' H Hc. by destruct (Hno ev' curr H Hc).
    + intros [= ->] _. split.
      * intros ? [= <-]. split; [done |].
        pose proof (Hgone curr []) as Hg. by rewrite app_nil_r in Hg.
      * intros ev' H Hc. by destruct (Hno ev' curr H Hc).
    + intros [= ->] _. split.
      * intros ? [= <-]. split; [done |]. apply Hgone.
      * done.
    + intros [= ->] _. split; [discriminate |].
      intros ev' H Hc. by destruct (Hno' ev' H Hc).
    + intros [= ->] _. split; [discriminate |].
      intros ev' H Hc. by destruct (Hno' ev' H Hc).
    + intros [= ->] _. split; [discriminate | done].
  - intros chart replay e Hadm Hvalid Hgather Hcurr.
    rewrite (upload_replay_admitted r chart replay Hadm).
    destruct (db_user_record I (id r) (user_id r)) as [curr |].
    + destruct (Hcurr curr eq_refl)
        as (Hdelete & old_score & new_score & [Hold Hnew] & Hlt).
      rewrite Hold, Hnew, Hdelete.
      assert ((old_score >=? new_score)%Z = false) as ->.
      { destruct (Z.geb_spec old_score new_score); [lia | done]. }
      by rewrite store_replay_run, Hgather, Hvalid.
    + by rewrite store_replay_run, Hgather, Hvalid.
Qed.

(** X22.  A replay for a well-formed id that no chart has is not answered
    404: the row is used without a test, and the handler raises
    [AttributeError] once the payload has been decompressed and parsed
    and the chart looked up. *)
Theorem replay_unknown_chart r decompressed replay :
  header r = Some (auth I) →
  bad_chart_id I (id r) = false →
  gzip_decompress I (UploadFile.content (replay_data r)) = inr decompressed →
  replay_model_validate_json I decompressed = inr replay →
  db_chart_by_id I (id r) = None →
  upload_replay I r
  = ([EvFetchrow (get_chart_by_id (id r))],
     inl (PyException "'NoneType' object has no attribute 'status'")).
Proof.
  intros Hh Hid Hd Hp Hc. unfold upload_replay.
  rewrite bool_decide_eq_true_2 by done. simpl negb. cbv iota.
  rewrite Hid, Hd. simpl. rewrite Hp. simpl. by rewrite Hc.
Qed.

(** *** Reading the leaderboards *)

Lemma account_dict_lookup_gen accounts (m : gmap string PublicAccount.t) key :
  match foldl (λ m account, <[PublicAccount.sonolus_id account := account]> m)
          m accounts !! key with
  | Some account =>
      (account ∈ accounts ∧ PublicAccount.sonolus_id account = key)
      ∨ m !! key = Some account
  | None =>
      m !! key = None
      ∧ ∀ account, account ∈ accounts →
                   PublicAccount.sonolus_id account ≠ key
  end.
Proof.
  revert m. induction accounts as [| a accounts IH]; intros m; simpl.
  - destruct (m !! key) eqn:Hm; [by right |].
    split; [done |]. intros ? H. by apply elem_of_nil in H.
  - specialize (IH (<[PublicAccount.sonolus_id a := a]> m)).
    destruct (foldl _ _ accounts !! key) as [account |].
    + destruct IH as [[Hin Hid] | Hm].
      * left. split; [by apply list_elem_of_further | done].
      * destruct (decide (PublicAccount.sonolus_id a = key)) as [Heq | Hne].
        -- rewrite Heq, lookup_insert_eq in Hm. injection Hm as <-.
           left. split; [apply list_elem_of_here | done].
        -- rewrite lookup_insert_ne in Hm by done. by right.
    + destruct IH as [Hm Hall].
      destruct (decide (PublicAccount.sonolus_id a = key)) as [Heq | Hne].
      * by rewrite Heq, lookup_insert_eq in Hm.
      * rewrite lookup_insert_ne in Hm by done. split; [done |].
        intros account [-> | Hin]%elem_of_cons; [done | by apply Hall].
Qed.

Lemma account_dict_lookup accounts key :
  match account_dict accounts !! key with
  | Some account =>
      account ∈ accounts ∧ PublicAccount.sonolus_id account = key
  | None =>
      ∀ account, account ∈ accounts → PublicAccount.sonolus_id account ≠ key
  end.
Proof.
  unfold account_dict.
  pose proof (account_dict_lookup_gen accounts ∅ key) as H.
  destruct (foldl _ _ accounts !! key).
  - destruct H as [H | H]; [done | by rewrite lookup_empty in H].
  - apply H.
Qed.

(** The run of [get_leaderboards] on a well-formed id. *)
Lemma get_leaderboards_run id page limit leaderboard_type session :
  bad_chart_id I id = false →
  let a := page_args id page limit leaderboard_type session in
  get_leaderboards I id page limit leaderboard_type session
  = if (db_total_count I a =? 0)%Z then
      ([EvFetchrow (count_query a)], inr {| pageCount := 0; data := [] |})
    else if (page * 10 >=? db_total_count I a)%Z then
      ([EvFetchrow (count_query a)],
       inr {| pageCount := (db_total_count I a + 9) `div` 10; data := [] |})
    else
      ([EvFetchrow (count_query a); EvFetch (leaderboards_query a);
        EvFetch (get_public_account_batch
                   (distinct_submitters (db_records I a)))],
       inr {| pageCount := (db_total_count I a + 9) `div` 10;
              data :=
                map (λ row,
                       (row,
                        account_dict
                          (db_accounts I (distinct_submitters (db_records I a)))
                        !! RecordRow.submitter row))
                  (db_records I a) |}).
Proof.
  intros Hid. unfold get_leaderboards, page_args. rewrite Hid. cbv zeta.
  destruct (db_total_count I _ =? 0)%Z; [done |].
  by destruct (page * 10 >=? db_total_count I _)%Z.
Qed.

(** X23.  For a well-formed id the handler returns as page count the
    number of pages of ten that hold the total (whatever the limit).  A
    page below that count is answered with the rows of the query, in
    their order, after the count, the rows and one batch of accounts were
    read; a page at or beyond it is answered with no rows, and only the
    count is read. *)
Theorem leaderboards_paging id page limit leaderboard_type session :
  bad_chart_id I id = false →
  (0 ≤ page)%Z →
  (0 ≤ db_total_count I (page_args id page limit leaderboard_type session))%Z →
  ∃ p,
    outcome (get_leaderboards I id page limit leaderboard_type session) = inr p
    ∧ (db_total_count I (page_args id page limit leaderboard_type session)
       ≤ 10 * pageCount p
       < db_total_count I (page_args id page limit leaderboard_type session)
         + 10)%Z
    ∧ if (page <? pageCount p)%Z then
        map fst (data p)
        = db_records I (page_args id page limit leaderboard_type session)
        ∧ trace (get_leaderboards I id page limit leaderboard_type session)
          = [ EvFetchrow
                (count_query
                   (page_args id page limit leaderboard_type session));
              EvFetch
                (leaderboards_query
                   (page_args id page limit leaderboard_type session));
              EvFetch
                (get_public_account_batch
                   (distinct_submitters
                      (db_records I
                         (page_args id page limit leaderboard_type
                            session)))) ]
      else
        data p = []
        ∧ trace (get_leaderboards I id page limit leaderboard_type session)
          = [EvFetchrow
               (count_query
                  (page_args id page limit leaderboard_type session))].
Proof.
  intros Hid Hpage Htotal.
  rewrite (get_leaderboards_run id page limit leaderboard_type session Hid).
  cbv zeta.
  set (total := db_total_count I _) in *.
  destruct (Z.eqb_spec total 0) as [Hz | Hnz].
  - eexists. split; [done |]. unfold trace. cbn [pageCount data fst].
    rewrite Hz. split; [lia |].
    destruct (Z.ltb_spec page 0); [lia | done].
  - destruct (Z.geb_spec (page * 10) total) as [Hge | Hlt].
    + eexists. split; [done |]. unfold trace. cbn [pageCount data fst].
      split; [Z.div_mod_to_equations; lia |].
      destruct (Z.ltb_spec page ((total + 9) `div` 10));
        [Z.div_mod_to_equations; lia | done].
    + eexists. split; [done |]. unfold trace. cbn [pageCount data fst].
      split; [Z.div_mod_to_equations; lia |].
      destruct (Z.ltb_spec page ((total + 9) `div` 10));
        [| Z.div_mod_to_equations; lia].
      split; [| done].
      rewrite map_map. simpl. apply map_id.
Qed.

(** X24.  Every entry of a page is a row of the query joined to the
    account, among those the batch query returned, whose id is the row's
    submitter; the account is missing only when the batch returned none
    for that submitter. *)
Theorem leaderboards_account_join id page limit leaderboard_type session p
  row account :
  outcome (get_leaderboards I id page limit leaderboard_type session) = inr p →
  (row, account) ∈ data p →
  row ∈ db_records I (page_args id page limit leaderboard_type session)
  ∧ match account with
    | Some found =>
        found
        ∈ db_accounts I
            (distinct_submitters
               (db_records I
                  (page_args id page limit leaderboard_type session)))
        ∧ PublicAccount.sonolus_id found = RecordRow.submitter row
    | None =>
        ∀ other,
          other
          ∈ db_accounts I
              (distinct_submitters
                 (db_records I
                    (page_args id page limit leaderboard_type session))) →
          PublicAccount.sonolus_id other ≠ RecordRow.submitter row
    end.
Proof.
  destruct (bad_chart_id I id) eqn:Hid.
  { unfold get_leaderboards. rewrite Hid. discriminate. }
  rewrite (get_leaderboards_run id page limit leaderboard_type session Hid).
  cbv zeta.
  set (a := page_args id page limit leaderboard_type session).
  destruct (db_total_count I a =? 0)%Z.
  { intros [= <-] H. by apply elem_of_nil in H. }
  destruct (page * 10 >=? db_total_count I a)%Z.
  { intros [= <-] H. by apply elem_of_nil in H. }
  intros [= <-]. cbn [data].
  intros (row' & [= -> ->] & Hin)%list_elem_of_fmap.
  split; [done |]. apply account_dict_lookup.
Qed.

(** The submitters named in the batch query: each submitter of the page,
    once. *)
Lemma distinct_submitters_spec (records : list (RecordRow.t (float FO))) :
  NoDup (distinct_submitters records)
  ∧ ∀ s, s ∈ distinct_submitters records
         ↔ ∃ row, row ∈ records ∧ RecordRow.submitter row = s.
Proof.
  unfold distinct_submitters. split; [apply NoDup_elements |].
  intros s. rewrite elem_of_elements, elem_of_list_to_set.
  change (map RecordRow.submitter records)
    with (RecordRow.submitter <$> records).
  rewrite list_elem_of_fmap.
  split; [intros (row & -> & Hin); by exists row
         | intros (row & Hin & <-); by exists row].
Qed.


(** X25.  The two reading handlers never change a store: whatever the
    request, the traces of [get_leaderboards] and of [get_record] hold no
    write to the database and no call to the object store. *)
Theorem leaderboards_reads_only id page limit leaderboard_type record_id
  session :
  read_only (trace (get_leaderboards I id page limit leaderboard_type session))
  ∧ read_only (trace (get_record I id record_id session)).
Proof.
  unfold read_only. split.
  - destruct (bad_chart_id I id) eqn:Hid.
    { unfold get_leaderboards. rewrite Hid. constructor. }
    rewrite (get_leaderboards_run id page limit leaderboard_type session Hid).
    cbv zeta.
    destruct (db_total_count I _ =? 0)%Z; [repeat constructor |].
    destruct (page * 10 >=? db_total_count I _)%Z; repeat constructor.
  - unfold get_record.
    destruct (bad_chart_id I id); [constructor |].
    destruct (db_record_by_id I id record_id (Session.sonolus_id session))
      as [record |]; [| repeat constructor].
    simpl.
    destruct (db_chart_by_id I (RecordRow.chart_id record)) as [chart |];
      [| repeat constructor].
    destruct (String.eqb (ChartRow.status chart) "PRIVATE"
              && differs (ChartRow.author chart) (Session.sonolus_id session));
      [repeat constructor |].
    destruct (truthy_str (Session.sonolus_id session)); repeat constructor.
Qed.

(** X26.  What [get_record] returns is the record the query found, its
    chart and the public account of its submitter; a record of a private
    chart is returned to the author of the chart only; the [mod] key is
    present exactly for a signed-in caller, and is true for a moderator or
    an admin. *)
Theorem record_view_protected id record_id session v :
  outcome (get_record I id record_id session) = inr v →
  db_record_by_id I id record_id (Session.sonolus_id session)
  = Some (view_data v)
  ∧ db_chart_by_id I (RecordRow.chart_id (view_data v)) = Some (view_chart v)
  ∧ (ChartRow.status (view_chart v) = "PRIVATE" →
     Session.sonolus_id session = Some (ChartRow.author (view_chart v)))
  ∧ view_submitter v
    = db_public_account I (RecordRow.submitter (view_data v))
  ∧ view_mod v
    = if truthy_str (Session.sonolus_id session)
      then Some (Session.mod_ session || Session.admin session)
      else None.
Proof.
  unfold get_record.
  destruct (bad_chart_id I id); [discriminate |].
  destruct (db_record_by_id I id record_id (Session.sonolus_id session))
    as [record |]; [| discriminate].
  simpl.
  destruct (db_chart_by_id I (RecordRow.chart_id record)) as [chart |] eqn:Hc;
    [| discriminate].
  destruct (String.eqb_spec (ChartRow.status chart) "PRIVATE") as [Hs | Hs];
    simpl.
  - unfold differs.
    destruct (decide (Session.sonolus_id session = Some (ChartRow.author chart)))
      as [Ha | Ha].
    + rewrite bool_decide_eq_true_2 by done. simpl.
      destruct (truthy_str (Session.sonolus_id session)); intros [= <-];
        by repeat (split; [done |]).
    + rewrite bool_decide_eq_false_2 by done. discriminate.
  - destruct (truthy_str (Session.sonolus_id session)); intros [= <-]; simpl;
      by repeat (split; [done |]).
Qed.

(** X27.  [delete_record] deletes the row of the record exactly when the
    id is well formed, the record is found, and the caller is its owner, a
    moderator or an admin.  That deletion is the only write it makes: it
    never calls the object store, so the blobs of the replay stay. *)
Theorem record_delete_authorised id record_id session :
  (EvExecute (delete_leaderboard_record record_id)
   ∈ trace (delete_record I id record_id session) ↔
   bad_chart_id I id = false
   ∧ ∃ record,
       db_record_by_id I id record_id (Session.sonolus_id session)
       = Some record
       ∧ may_delete session record)
  ∧ (∀ e, e ∈ trace (delete_record I id record_id session) →
          is_write e = true →
          e = EvExecute (delete_leaderboard_record record_id)).
Proof.
  unfold delete_record, may_delete.
  destruct (bad_chart_id I id).
  { split; [split |].
    - intros H. by apply elem_of_nil in H.
    - intros [? _]. discriminate.
    - intros e H. by apply elem_of_nil in H. }
  destruct (db_record_by_id I id record_id (Session.sonolus_id session))
    as [record |].
  2: { split; [split |].
       - intros [[=] | H%elem_of_nil]%elem_of_cons. done.
       - intros (_ & ? & [=] & _).
       - intros e [-> | H%elem_of_nil]%elem_of_cons; [discriminate | done]. }
  assert (truthy_bool (RecordRow.owner record) = true
          ↔ RecordRow.owner record = Some true) as Howner.
  { destruct (RecordRow.owner record) as [[|] |]; simpl; split; congruence. }
  destruct (truthy_bool (RecordRow.owner record)
            || Session.mod_ session || Session.admin session) eqn:Hmay; simpl.
  - assert (RecordRow.owner record = Some true
            ∨ Session.mod_ session = true ∨ Session.admin session = true)
      as Hprop.
    { apply orb_true_iff in Hmay as [Hmay | Hmay]; [| by right; right].
      apply orb_true_iff in Hmay as [Hmay | Hmay]; [left | by right; left].
      by apply Howner. }
    unfold execute.
    destruct (db_execute_raises I (delete_leaderboard_record record_id));
      simpl.
    { split; [split |].
      - intros _. split; [done |]. by exists record.
      - intros _. apply list_elem_of_further, list_elem_of_further,
          list_elem_of_here.
      - intros e' H Hw.
        repeat (apply elem_of_cons in H as [-> | H]; [done || discriminate |]).
        by apply elem_of_nil in H. }
    destruct (Session.mod_ session || Session.admin session); simpl.
    + destruct (db_chart_by_id I (RecordRow.chart_id record)); simpl;
        (split; [split |]).
      all: try (intros _; split; [done |]; by exists record).
      all: try (intros _; apply list_elem_of_further, list_elem_of_further,
                  list_elem_of_here).
      all: intros e H Hw;
        repeat (apply elem_of_cons in H as [-> | H]; [done || discriminate |]);
        by apply elem_of_nil in H.
    + split; [split |].
      * intros _. split; [done |]. by exists record.
      * intros _. apply list_elem_of_further, list_elem_of_further,
          list_elem_of_here.
      * intros e H Hw.
        repeat (apply elem_of_cons in H as [-> | H]; [done || discriminate |]).
        by apply elem_of_nil in H.
  - split; [split |].
    + intros H.
      repeat (apply elem_of_cons in H as [[=] | H]).
      by apply elem_of_nil in H.
    + intros (_ & ? & [= <-] & Hprop).
      apply orb_false_iff in Hmay as [Hmay Hadmin].
      apply orb_false_iff in Hmay as [Hown Hmod].
      destruct Hprop as [H | [H | H]]; [| congruence | congruence].
      apply Howner in H. congruence.
    + intros e H Hw.
      repeat (apply elem_of_cons in H as [-> | H]; [done || discriminate |]).
      by apply elem_of_nil in H.
Qed.

End facts.

(** *** The properties on sample requests *)

#[local] Abbreviation request :=
  (LeaderboardsSample.replay (Some "secret") (Some 1000%Z) "abc").
#[local] Abbreviation request_no_speed :=
  (LeaderboardsSample.replay (Some "secret") None "abc").
#[local] Abbreviation store := LeaderboardsSample.store.
#[local] Abbreviation replaced := LeaderboardsSample.replaced.
#[local] Abbreviation public_chart := (LeaderboardsSample.chart "PUBLIC").

Lemma replay_write_requires_admission_witness :
  ∃ chart replay, admitted store request chart replay.
Proof.
  apply (replay_write_requires_admission store request
           (EvExecute (delete_leaderboard_record 7))).
  - apply (list_elem_of_lookup_2 _ 2). vm_compute. reflexivity.
  - reflexivity.
Defined.

Lemma replay_accepted_witness :
  ∃ chart replay,
    admitted store request chart replay
    ∧ leaderboard_record_validate store (new_record store request replay chart)
      = None
    ∧ trace (upload_replay store request)
      = (replay_fetches request
         ++ match db_user_record store (id request) (user_id request) with
            | Some curr =>
                [EvExecute (delete_leaderboard_record (RecordRow.id curr))]
            | None => []
            end
         ++ replay_tasks store request chart
              (db_user_record store (id request) (user_id request))
         ++ [EvExecute (create_leaderboard_record
                          (new_record store request replay chart))])%list
    ∧ ∀ curr,
        db_user_record store (id request) (user_id request) = Some curr →
        ∃ old_score new_score,
          scores request replay curr old_score new_score
          ∧ (old_score < new_score)%Z.
Proof.
  apply (replay_accepted store request). vm_compute. reflexivity.
Defined.

Lemma replay_blobs_under_replays_prefix_witness :
  ∃ chart,
    db_chart_by_id store (id request) = Some chart
    ∧ String.prefix (user_replays_prefix chart "bob")
        (replay_key public_chart "bob" "sha1:cfg") = true
    ∧ ∀ old : ChartDBResponse.t,
        ChartDBResponse.author old = ChartRow.author chart →
        ChartDBResponse.id old = ChartRow.id chart →
        String.prefix (Edit.replays_prefix old)
          (replay_key public_chart "bob" "sha1:cfg") = true.
Proof.
  apply (replay_blobs_under_replays_prefix store request
           (EvDeleteObjects (old_replay_keys request public_chart replaced))
           (replay_key public_chart "bob" "sha1:cfg")).
  - apply (list_elem_of_lookup_2 _ 5). vm_compute. reflexivity.
  - apply list_elem_of_further, list_elem_of_here.
Defined.

Lemma replay_resubmitted_blob_deleted_witness :
  ∃ chart pre post key keys,
    trace (upload_replay store request)
    = (pre ++ replay_tasks store request chart (Some replaced) ++ post)%list
    ∧ EvUpload key (UploadFile.content (replay_data request))
        "application/gzip"
      ∈ replay_tasks store request chart (Some replaced)
    ∧ EvDeleteObjects keys ∈ replay_tasks store request chart (Some replaced)
    ∧ key ∈ keys.
Proof.
  apply (replay_resubmitted_blob_deleted store request replaced).
  - vm_compute. reflexivity.
  - reflexivity.
  - reflexivity.
Defined.

Lemma replay_failure_after_blobs_witness :
  EvExecute (delete_leaderboard_record 7)
  ∈ trace (upload_replay store request_no_speed)
  ∧ EvDeleteObjects (old_replay_keys request_no_speed public_chart replaced)
    ∈ trace (upload_replay store request_no_speed).
Proof.
  destruct (proj1 (replay_failure_after_blobs store request_no_speed)
              (PyException "speed: Input should be a valid number")
              (EvDeleteObjects
                 (old_replay_keys request_no_speed public_chart replaced)))
    as (chart & replay & (_ & _ & _ & Hchart & _) & Hgone & _).
  - vm_compute. reflexivity.
  - apply (list_elem_of_lookup_2 _ 5). vm_compute. reflexivity.
  - reflexivity.
  - assert (Some public_chart = Some chart) as [= <-] by exact Hchart.
    destruct (Hgone replaced eq_refl) as (_ & Hrow & Hblobs).
    split; [exact Hrow | exact Hblobs].
Defined.

Lemma replay_unknown_chart_witness :
  upload_replay store LeaderboardsSample.stray
  = ([EvFetchrow (get_chart_by_id "ffffffffffffffffffffffffffffffff")],
     inl (PyException "'NoneType' object has no attribute 'status'")).
Proof.
  apply (replay_unknown_chart store LeaderboardsSample.stray
           (Sample.b "abc") (LeaderboardsSample.result_of (Sample.b "abc")));
    vm_compute; reflexivity.
Defined.

Lemma leaderboards_paging_witness :
  ∃ p,
    outcome (get_leaderboards store Sample.chart_id 2 3 "arcade_score_speed"
               LeaderboardsSample.bob) = inr p
    ∧ (25 ≤ 10 * pageCount p < 25 + 10)%Z
    ∧ map fst (data p) = [replaced].
Proof.
  destruct (leaderboards_paging store Sample.chart_id 2 3 "arcade_score_speed"
              LeaderboardsSample.bob)
    as (p & Hout & Hcount & Hpage).
  - reflexivity.
  - lia.
  - vm_compute. discriminate.
  - exists p. split; [exact Hout |]. split; [exact Hcount |].
    assert (pageCount p = 3%Z) as Hp
      by (vm_compute in Hout; injection Hout as <-; reflexivity).
    rewrite Hp in Hpage. exact (proj1 Hpage).
Defined.

Lemma leaderboards_account_join_witness :
  replaced
  ∈ db_records store
      (page_args Sample.chart_id 0 3 "arcade_score_speed"
         LeaderboardsSample.bob)
  ∧ PublicAccount.sonolus_id
      {| PublicAccount.sonolus_id := "bob";
         PublicAccount.sonolus_username := "Bob" |}
    = RecordRow.submitter replaced.
Proof.
  destruct (leaderboards_account_join store Sample.chart_id 0 3
              "arcade_score_speed" LeaderboardsSample.bob
              {| pageCount := 3;
                 data :=
                   [(replaced,
                     Some {| PublicAccount.sonolus_id := "bob";
                             PublicAccount.sonolus_username := "Bob" |})] |}
              replaced
              (Some {| PublicAccount.sonolus_id := "bob";
                       PublicAccount.sonolus_username := "Bob" |}))
    as (Hrow & _ & Hid).
  - vm_compute. reflexivity.
  - apply list_elem_of_here.
  - split; [exact Hrow | exact Hid].
Defined.

Lemma record_view_protected_witness :
  db_chart_by_id store Sample.chart_id = Some public_chart
  ∧ (ChartRow.status public_chart = "PRIVATE" → Some "bob" = Some "alice").
Proof.
  destruct (record_view_protected store Sample.chart_id 7
              LeaderboardsSample.bob
              {| view_data := replaced; view_mod := Some false;
                 view_chart := public_chart;
                 view_submitter :=
                   Some {| PublicAccount.sonolus_id := "bob";
                           PublicAccount.sonolus_username := "Bob" |};
                 view_asset_base_url := "https://assets.example" |})
    as (_ & Hchart & Hprivate & _).
  - vm_compute. reflexivity.
  - split; [exact Hchart | exact Hprivate].
Defined.

End LeaderboardsFacts.

(** ** The database setup script *)

Module DatabaseSetupFacts.
Import DatabaseSetup.

Lemma run_queries_benign queries :
  Forall (λ qa, benign qa.2 = true) queries →
  executed (run_queries queries).1 = queries.*1
  ∧ (run_queries queries).2 = None.
Proof.
  induction 1 as [| [query a] rest Ha _ IH]; [done |].
  simpl. destruct (run_queries rest) as [out r]. simpl in IH.
  destruct IH as [IH ->].
  destruct a; simpl in *; try discriminate; by rewrite IH.
Qed.

Lemma run_queries_fatal pre query a post :
  Forall (λ qa, benign qa.2 = true) pre →
  benign a = false →
  executed (run_queries (pre ++ (query, a) :: post)).1
  = (pre.*1 ++ [query])%list
  ∧ (run_queries (pre ++ (query, a) :: post)).2 = raised a.
Proof.
  intros Hpre Ha.
  induction Hpre as [| [query' a'] rest Ha' _ IH]; simpl.
  - destruct a; simpl in *; try discriminate; done.
  - destruct (run_queries (rest ++ (query, a) :: post)) as [out r].
    simpl in IH. destruct IH as [IH ->].
    destruct a'; simpl in *; try discriminate; by rewrite IH.
Qed.

(** X28.  The setup script goes on after a statement that fails for
    insufficient privilege and stops at the first statement that raises
    anything else.  When every statement either succeeds or is denied,
    all of them are sent, in order, and the script ends with "Done!" and
    no error, also when every one of them was denied.  Otherwise the
    statements up to the first that raises another exception are sent,
    none after it, and that exception comes out of the script. *)
Theorem setup_stops_at_first_fatal (queries : list (string * answer)) :
  (Forall (λ qa, benign qa.2 = true) queries →
   executed (main queries).1 = queries.*1
   ∧ (main queries).2 = None
   ∧ last (main queries).1 = Some (Print "Done!"))
  ∧ (∀ pre query a post,
       queries = (pre ++ (query, a) :: post)%list →
       Forall (λ qa, benign qa.2 = true) pre →
       benign a = false →
       executed (main queries).1 = (pre.*1 ++ [query])%list
       ∧ (main queries).2 = raised a
       ∧ is_Some (raised a)).
Proof.
  unfold main. split.
  - intros Hall. destruct (run_queries_benign queries Hall) as [Hexec Hnone].
    destruct (run_queries queries) as [out r]. simpl in *. subst r. simpl.
    split; [| split; [done |]].
    + unfold executed in *. rewrite omap_app. simpl. by rewrite app_nil_r.
    + change (Print "Connected!" :: out ++ [Print "Done!"])%list
        with ((Print "Connected!" :: out) ++ [Print "Done!"])%list.
      apply last_snoc.
  - intros pre query a post -> Hpre Ha.
    destruct (run_queries_fatal pre query a post Hpre Ha) as [Hexec Hr].
    destruct (run_queries (pre ++ (query, a) :: post)) as [out r].
    simpl in *. subst r.
    destruct a; simpl in *; try discriminate; by eauto.
Qed.

End DatabaseSetupFacts.
